(** * Streaming chunk translators of provider-conversions

    A shallow embedding of the three stream adapters

      - [Anthropic.anthropicChunkFromAiSDK]  (src/anthropic/messages/chunk-from-ai.ts)
      - [OpenAI.openaiChunkFromAiSDK]        (src/openai/chat-completion/chunk-from-ai.ts)
      - [Google.googleChunkFromAiSDK]        (src/google/genai/chunk-from-ai.ts)

    Every adapter is a TypeScript function [(chunk, context) => result] that
    mutates [context] in place.  Here it is a function
    [chunk -> context -> result * context] returning the context after the
    call.  A JavaScript [Map] that is only read with [get] and written with
    [set] is a [gmap]; the one [Map] that is iterated (adapter C) is an
    association list that keeps insertion order.  Counters that start at 0 and
    are only incremented are [nat] (a JavaScript number is exact on these up to
    2^53); token counts, which come from the input, are [Z]. *)

From Stdlib Require Import ZArith String Ascii List Bool Lia.
From stdpp Require Import base option gmap strings pretty list fin_maps.
Import ListNotations.
Local Open Scope string_scope.
Local Open Scope list_scope.
#[local] Set Warnings "-register-all".

(** ** JavaScript values and primitives used by the adapters *)

Module JS.

(** A parsed JSON document.  Numbers are exact decimals [mantissa * 10^exponent]. *)
Inductive json : Type :=
| JNull
| JBool (b : bool)
| JNumber (mantissa exponent : Z)
| JString (s : string)
| JArray (items : list json)
| JObject (fields : list (string * json)).

(** The object literal [{}]. *)
Definition empty_object : json := JObject [].

(** The values an [error] chunk may carry ([error: unknown]). *)
Inductive ErrorValue : Type :=
| EString (s : string)
| EException (name message : string)      (* an Error instance *)
| EUndefined
| ENull
| EBoolean (b : bool)
| EPlainObject.                           (* an object without own toString *)

(** [String(v)]: a string is returned as it is; an Error instance goes through
    Error.prototype.toString, which joins name and message with ": " unless
    one of them is empty. *)
Definition String_ (v : ErrorValue) : string :=
  match v with
  | EString s => s
  | EException name message =>
      if String.eqb name "" then message
      else if String.eqb message "" then name
      else name +:+ ": " +:+ message
  | EUndefined => "undefined"
  | ENull => "null"
  | EBoolean true => "true"
  | EBoolean false => "false"
  | EPlainObject => "[object Object]"
  end.

(** [a ?? b] on an optional number. *)
Definition nullish {A : Type} (a : option A) (b : A) : A :=
  match a with
  | Some x => x
  | None => b
  end.

(** Truthiness of a string: [if (s)]. *)
Definition truthy (s : string) : bool := negb (String.eqb s "").

End JS.

(** ** A reference instance of [JSON.parse] and [JSON.stringify]

    The adapters take the two built-ins as parameters, and every theorem below
    holds for any instance.  This instance runs the examples.  It follows the
    JSON grammar of ECMA-404; numbers are kept as exact decimals (no rounding to
    a double), strings as UTF-8 bytes, a repeated key keeps its first position
    with the last value. *)

Module JSONRef.
Import JS.

Fixpoint skip_ws (s : string) : string :=
  match s with
  | String c rest =>
      if (Ascii.eqb c " " || Ascii.eqb c "009" || Ascii.eqb c "010" || Ascii.eqb c "013")%char
      then skip_ws rest else s
  | EmptyString => s
  end.

Definition digit_of (c : ascii) : option Z :=
  let n := N_of_ascii c in
  if ((48 <=? n) && (n <=? 57))%N then Some (Z.of_N (n - 48)) else None.

Definition hex_of (c : ascii) : option N :=
  let n := N_of_ascii c in
  if ((48 <=? n) && (n <=? 57))%N then Some (n - 48)%N
  else if ((65 <=? n) && (n <=? 70))%N then Some (n - 55)%N
  else if ((97 <=? n) && (n <=? 102))%N then Some (n - 87)%N
  else None.

(** Reads a maximal run of digits: the value read onto [acc], how many digits,
    and what follows. *)
Fixpoint read_digits (s : string) (acc : Z) (count : nat) : Z * nat * string :=
  match s with
  | String c rest =>
      match digit_of c with
      | Some d => read_digits rest (acc * 10 + d)%Z (S count)
      | None => (acc, count, s)
      end
  | EmptyString => (acc, count, s)
  end.

(** Strips the factors of ten of a mantissa into the exponent. *)
Fixpoint normalize (fuel : nat) (m e : Z) : Z * Z :=
  match fuel with
  | O => (m, e)
  | S fuel =>
      if (m =? 0)%Z then (0, 0)%Z
      else if (m mod 10 =? 0)%Z then normalize fuel (m / 10)%Z (e + 1)%Z
      else (m, e)
  end.

Definition parse_exponent (s : string) : option (Z * string) :=
  match s with
  | String c rest =>
      if (Ascii.eqb c "e" || Ascii.eqb c "E")%char then
        let '(sign, rest) :=
          match rest with
          | String "-"%char r => ((-1)%Z, r)
          | String "+"%char r => (1%Z, r)
          | _ => (1%Z, rest)
          end in
        let '(v, n, rest) := read_digits rest 0 0 in
        if Nat.eqb n 0 then None else Some ((sign * v)%Z, rest)
      else Some (0%Z, s)
  | EmptyString => Some (0%Z, s)
  end.

Definition parse_number (s : string) : option (json * string) :=
  let '(sign, s) :=
    match s with
    | String "-"%char r => ((-1)%Z, r)
    | _ => (1%Z, s)
    end in
  let int_part :=
    match s with
    | String "0"%char r => Some (0%Z, 1, r)
    | _ => let '(v, n, r) := read_digits s 0 0 in
           if Nat.eqb n 0 then None else Some (v, n, r)
    end in
  match int_part with
  | None => None
  | Some (v, n, s) =>
      let frac :=
        match s with
        | String "."%char r =>
            let '(v', k, r') := read_digits r v 0 in
            if Nat.eqb k 0 then None else Some (v', k, r')
        | _ => Some (v, 0, s)
        end in
      match frac with
      | None => None
      | Some (m, k, s) =>
          match parse_exponent s with
          | None => None
          | Some (e, s) =>
              let '(m, e) := normalize (n + k) (sign * m)%Z (e - Z.of_nat k)%Z in
              Some (JNumber m e, s)
          end
      end
  end.

(** UTF-8 bytes of a code unit below 0x10000. *)
Definition utf8 (n : N) : string :=
  if (n <? 128)%N then String (ascii_of_N n) EmptyString
  else if (n <? 2048)%N then
    String (ascii_of_N (192 + n / 64))
      (String (ascii_of_N (128 + n mod 64)) EmptyString)
  else
    String (ascii_of_N (224 + n / 4096))
      (String (ascii_of_N (128 + (n / 64) mod 64))
         (String (ascii_of_N (128 + n mod 64)) EmptyString)).

(** The characters after an opening quote, up to the closing one.  The quote
    is character 034 and the backslash character 092. *)
Fixpoint parse_string_body (s : string) : option (string * string) :=
  let cons (c : ascii) (r : option (string * string)) :=
    match r with
    | Some (body, rest) => Some (String c body, rest)
    | None => None
    end in
  match s with
  | EmptyString => None
  | String "034"%char rest => Some (EmptyString, rest)
  | String "092"%char (String e rest) =>
      if Ascii.eqb e "034" then cons "034"%char (parse_string_body rest)
      else if Ascii.eqb e "092" then cons "092"%char (parse_string_body rest)
      else if Ascii.eqb e "/" then cons "/"%char (parse_string_body rest)
      else if Ascii.eqb e "b" then cons "008"%char (parse_string_body rest)
      else if Ascii.eqb e "f" then cons "012"%char (parse_string_body rest)
      else if Ascii.eqb e "n" then cons "010"%char (parse_string_body rest)
      else if Ascii.eqb e "r" then cons "013"%char (parse_string_body rest)
      else if Ascii.eqb e "t" then cons "009"%char (parse_string_body rest)
      else if Ascii.eqb e "u" then
        match rest with
        | String a (String b (String c (String d rest'))) =>
            match hex_of a, hex_of b, hex_of c, hex_of d with
            | Some a, Some b, Some c, Some d =>
                match parse_string_body rest' with
                | Some (body, rest'') =>
                    Some (utf8 (((a * 16 + b) * 16 + c) * 16 + d)%N +:+ body, rest'')
                | None => None
                end
            | _, _, _, _ => None
            end
        | _ => None
        end
      else None
  | String c rest =>
      if (N_of_ascii c <? 32)%N then None
      else cons c (parse_string_body rest)
  end.

Definition expect (word : string) (v : json) (s : string) : option (json * string) :=
  if String.prefix word s
  then Some (v, String.substring (String.length word)
                                 (String.length s - String.length word) s)
  else None.

Fixpoint set_field (k : string) (v : json) (fields : list (string * json))
  : list (string * json) :=
  match fields with
  | [] => [(k, v)]
  | (k', v') :: rest =>
      if String.eqb k' k then (k', v) :: rest else (k', v') :: set_field k v rest
  end.

Fixpoint parse_value (fuel : nat) (s : string) : option (json * string) :=
  match fuel with
  | O => None
  | S fuel =>
      match skip_ws s with
      | String "n"%char _ as s' => expect "null" JNull s'
      | String "t"%char _ as s' => expect "true" (JBool true) s'
      | String "f"%char _ as s' => expect "false" (JBool false) s'
      | String "034"%char rest =>
          match parse_string_body rest with
          | Some (body, rest) => Some (JString body, rest)
          | None => None
          end
      | String "["%char rest =>
          match skip_ws rest with
          | String "]"%char rest' => Some (JArray [], rest')
          | _ =>
              match parse_elements fuel rest with
              | Some (items, rest') => Some (JArray items, rest')
              | None => None
              end
          end
      | String "{"%char rest =>
          match skip_ws rest with
          | String "}"%char rest' => Some (JObject [], rest')
          | _ =>
              match parse_members fuel rest [] with
              | Some (fields, rest') => Some (JObject fields, rest')
              | None => None
              end
          end
      | s' => parse_number s'
      end
  end
with parse_elements (fuel : nat) (s : string) : option (list json * string) :=
  match fuel with
  | O => None
  | S fuel =>
      match parse_value fuel s with
      | Some (v, rest) =>
          match skip_ws rest with
          | String ","%char rest' =>
              match parse_elements fuel rest' with
              | Some (vs, rest'') => Some (v :: vs, rest'')
              | None => None
              end
          | String "]"%char rest' => Some ([v], rest')
          | _ => None
          end
      | None => None
      end
  end
with parse_members (fuel : nat) (s : string) (acc : list (string * json))
  : option (list (string * json) * string) :=
  match fuel with
  | O => None
  | S fuel =>
      match skip_ws s with
      | String "034"%char rest =>
          match parse_string_body rest with
          | Some (key, rest) =>
              match skip_ws rest with
              | String ":"%char rest =>
                  match parse_value fuel rest with
                  | Some (v, rest) =>
                      let acc := set_field key v acc in
                      match skip_ws rest with
                      | String ","%char rest' => parse_members fuel rest' acc
                      | String "}"%char rest' => Some (acc, rest')
                      | _ => None
                      end
                  | None => None
                  end
              | _ => None
              end
          | None => None
          end
      | _ => None
      end
  end.

Definition JSON_parse (text : string) : option json :=
  match parse_value (2 * String.length text + 2) text with
  | Some (v, rest) =>
      match skip_ws rest with
      | EmptyString => Some v
      | _ => None
      end
  | None => None
  end.

Definition hex_digit (n : N) : ascii :=
  if (n <? 10)%N then ascii_of_N (48 + n) else ascii_of_N (87 + n).

Definition escape (c : ascii) : string := String "092" (String c EmptyString).

Fixpoint quote_body (s : string) : string :=
  match s with
  | EmptyString => EmptyString
  | String c rest =>
      let n := N_of_ascii c in
      (if Ascii.eqb c "034" then escape "034"
       else if Ascii.eqb c "092" then escape "092"
       else if Ascii.eqb c "008" then escape "b"
       else if Ascii.eqb c "012" then escape "f"
       else if Ascii.eqb c "010" then escape "n"
       else if Ascii.eqb c "013" then escape "r"
       else if Ascii.eqb c "009" then escape "t"
       else if (n <? 32)%N then
         escape "u" +:+ "00" +:+
         String (hex_digit (n / 16)) (String (hex_digit (n mod 16)) EmptyString)
       else String c EmptyString) +:+ quote_body rest
  end.

Definition quote (s : string) : string :=
  String "034" (quote_body s +:+ String "034" EmptyString).

Fixpoint zeros (n : nat) : string :=
  match n with
  | O => EmptyString
  | S n => String "0" (zeros n)
  end.

(** Decimal notation, as Number::toString gives it between 1e-6 and 1e21. *)
Definition number_to_string (m e : Z) : string :=
  let sign := if (m <? 0)%Z then "-" else "" in
  let digits := pretty (Z.abs_N m) in
  if (0 <=? e)%Z then
    if (m =? 0)%Z then "0" else sign +:+ digits +:+ zeros (Z.to_nat e)
  else
    let k := Z.to_nat (- e) in
    let len := String.length digits in
    if Nat.ltb k len then
      sign +:+ String.substring 0 (len - k) digits +:+ "." +:+
      String.substring (len - k) k digits
    else sign +:+ "0." +:+ zeros (k - len) +:+ digits.

Fixpoint join (sep : string) (l : list string) : string :=
  match l with
  | [] => EmptyString
  | [x] => x
  | x :: rest => x +:+ sep +:+ join sep rest
  end.

Fixpoint JSON_stringify (v : json) : string :=
  match v with
  | JNull => "null"
  | JBool true => "true"
  | JBool false => "false"
  | JNumber m e => number_to_string m e
  | JString s => quote s
  | JArray items => "[" +:+ join "," (map JSON_stringify items) +:+ "]"
  | JObject fields =>
      "{" +:+ join "," (map (fun kv => quote (fst kv) +:+ ":" +:+ JSON_stringify (snd kv))
                           fields) +:+ "}"
  end.

End JSONRef.

(** ** The intermediate event vocabulary (TextStreamPart of the AI SDK) *)

Module AiSDK.
Import JS.

Record Usage : Type := mkUsage {
  inputTokens : option Z;
  outputTokens : option Z;
  totalTokens : option Z
}.

(** Only the fields the adapters read are kept; [Unrecognized] stands for a
    value whose [type] is none of the known tags, which the adapters answer in
    their [default] branch. *)
Inductive AiSDKChunk : Type :=
| TextStart (id : string)
| TextDelta (id text : string)
| TextEnd (id : string)
| ReasoningStart (id : string)
| ReasoningDelta (id text : string)
| ReasoningEnd (id : string)
| ToolInputStart (id toolName : string)
| ToolInputDelta (id delta : string)
| ToolInputEnd (id : string)
| ToolCall (toolCallId toolName : string) (input : json)
| ToolResult (toolCallId toolName : string) (input output : json)
| ToolError (toolCallId toolName : string) (input : json) (error : ErrorValue)
| FinishStep (usage : Usage) (finishReason : string)
| Finish (finishReason : string) (totalUsage : Usage)
| Start
| StartStep
| Abort
| Error (error : ErrorValue)
| Source
| File
| Raw
| Unrecognized (type : string).

End AiSDK.

(** ** Adapter A: Anthropic message stream events *)

Module Anthropic.
Import JS AiSDK.

Record ChunkConversionContext : Type := mkContext {
  ctx_id : string;
  ctx_model : string;
  contentBlockIndex : nat;
  toolCallIndices : gmap string nat;
  toolCallInputs : gmap string string;
  messageStarted : bool;
  inputTokens : Z;
  outputTokens : Z
}.

Definition createChunkConversionContext (id model : string)
  : ChunkConversionContext :=
  {| ctx_id := id;
     ctx_model := model;
     contentBlockIndex := 0;
     toolCallIndices := ∅;
     toolCallInputs := ∅;
     messageStarted := false;
     inputTokens := 0;
     outputTokens := 0 |}.

(** Field assignments [context.f = v]. *)
Definition set_contentBlockIndex (n : nat) (c : ChunkConversionContext) :=
  mkContext (ctx_id c) (ctx_model c) n (toolCallIndices c) (toolCallInputs c)
            (messageStarted c) (inputTokens c) (outputTokens c).
Definition set_toolCallIndices (m : gmap string nat) (c : ChunkConversionContext) :=
  mkContext (ctx_id c) (ctx_model c) (contentBlockIndex c) m (toolCallInputs c)
            (messageStarted c) (inputTokens c) (outputTokens c).
Definition set_toolCallInputs (m : gmap string string) (c : ChunkConversionContext) :=
  mkContext (ctx_id c) (ctx_model c) (contentBlockIndex c) (toolCallIndices c) m
            (messageStarted c) (inputTokens c) (outputTokens c).
Definition set_messageStarted (b : bool) (c : ChunkConversionContext) :=
  mkContext (ctx_id c) (ctx_model c) (contentBlockIndex c) (toolCallIndices c)
            (toolCallInputs c) b (inputTokens c) (outputTokens c).
Definition set_inputTokens (n : Z) (c : ChunkConversionContext) :=
  mkContext (ctx_id c) (ctx_model c) (contentBlockIndex c) (toolCallIndices c)
            (toolCallInputs c) (messageStarted c) n (outputTokens c).
Definition set_outputTokens (n : Z) (c : ChunkConversionContext) :=
  mkContext (ctx_id c) (ctx_model c) (contentBlockIndex c) (toolCallIndices c)
            (toolCallInputs c) (messageStarted c) (inputTokens c) n.

Inductive ContentBlock : Type :=
| text_block (text : string)                       (* citations: null *)
| thinking_block (thinking signature : string)
| tool_use_block (id name : string) (input : json).

Inductive ContentBlockDelta : Type :=
| text_delta (text : string)
| thinking_delta (thinking : string)
| input_json_delta (partial_json : string).

(** The message of [message_start]; the usage fields that are always [null]
    are left out. *)
Record Message : Type := mkMessage {
  msg_id : string;
  msg_role : string;
  msg_model : string;
  msg_content : list ContentBlock;
  msg_stop_reason : option string;
  msg_stop_sequence : option string;
  msg_input_tokens : Z;
  msg_output_tokens : Z
}.

Record MessageDeltaUsage : Type := mkDeltaUsage {
  output_tokens : Z;
  input_tokens : Z
}.

Inductive RawMessageStreamEvent : Type :=
| message_start (message : Message)
| content_block_start (index : nat) (content_block : ContentBlock)
| content_block_delta (index : nat) (delta : ContentBlockDelta)
| content_block_stop (index : nat)
| message_delta (stop_reason : string) (stop_sequence : option string)
                (usage : MessageDeltaUsage)
| message_stop.

Inductive ChunkConversionResult : Type :=
| events (evs : list RawMessageStreamEvent)
| skip
| error (msg : string).

Definition createMessageStartEvent (context : ChunkConversionContext)
  : RawMessageStreamEvent :=
  message_start
    {| msg_id := ctx_id context;
       msg_role := "assistant";
       msg_model := ctx_model context;
       msg_content := [];
       msg_stop_reason := None;
       msg_stop_sequence := None;
       msg_input_tokens := inputTokens context;
       msg_output_tokens := 0 |}.

Definition createContentBlockStartEvent (index : nat) (contentBlock : ContentBlock)
  : RawMessageStreamEvent :=
  content_block_start index contentBlock.

Definition convertStopReason (finishReason : string) : string :=
  if String.eqb finishReason "stop" then "end_turn"
  else if String.eqb finishReason "length" then "max_tokens"
  else if String.eqb finishReason "tool-calls" then "tool_use"
  else if String.eqb finishReason "content-filter" then "refusal"
  else "end_turn".

(** The block repeated at the head of six cases:
    [if (!context.messageStarted) { events.push(createMessageStartEvent(context));
     context.messageStarted = true; }].  It returns the events pushed. *)
Definition ensureMessageStart (context : ChunkConversionContext)
  : list RawMessageStreamEvent * ChunkConversionContext :=
  if negb (messageStarted context)
  then ([createMessageStartEvent context], set_messageStarted true context)
  else ([], context).

Section WithJSON.
Variable JSON_stringify : json -> string.

Definition anthropicChunkFromAiSDK (chunk : AiSDKChunk) (context : ChunkConversionContext)
  : ChunkConversionResult * ChunkConversionContext :=
  match chunk with
  | TextStart _ =>
      let '(evs, context) := ensureMessageStart context in
      let evs := evs ++ [createContentBlockStartEvent (contentBlockIndex context)
                           (text_block "")] in
      (if Nat.ltb 0 (length evs) then events evs else skip, context)
  | TextDelta _ text =>
      (events [content_block_delta (contentBlockIndex context) (text_delta text)],
       context)
  | TextEnd _ =>
      (events [content_block_stop (contentBlockIndex context)],
       set_contentBlockIndex (S (contentBlockIndex context)) context)
  | ReasoningStart _ =>
      let '(evs, context) := ensureMessageStart context in
      (events (evs ++ [createContentBlockStartEvent (contentBlockIndex context)
                         (thinking_block "" "")]),
       context)
  | ReasoningDelta _ text =>
      (events [content_block_delta (contentBlockIndex context) (thinking_delta text)],
       context)
  | ReasoningEnd _ =>
      (events [content_block_stop (contentBlockIndex context)],
       set_contentBlockIndex (S (contentBlockIndex context)) context)
  | ToolInputStart id toolName =>
      let '(evs, context) := ensureMessageStart context in
      let context :=
        set_toolCallIndices
          (<[id := contentBlockIndex context]> (toolCallIndices context)) context in
      let context :=
        set_toolCallInputs (<[id := ""]> (toolCallInputs context)) context in
      (events (evs ++ [createContentBlockStartEvent (contentBlockIndex context)
                         (tool_use_block id toolName empty_object)]),
       context)
  | ToolInputDelta id delta =>
      match toolCallIndices context !! id with
      | None => (error ("Unknown tool call id: " +:+ id), context)
      | Some index =>
          let currentInput := nullish (toolCallInputs context !! id) "" in
          let context :=
            set_toolCallInputs
              (<[id := currentInput +:+ delta]> (toolCallInputs context)) context in
          (events [content_block_delta index (input_json_delta delta)], context)
      end
  | ToolInputEnd id =>
      match toolCallIndices context !! id with
      | None => (error ("Unknown tool call id: " +:+ id), context)
      | Some index =>
          (events [content_block_stop index],
           set_contentBlockIndex (S (contentBlockIndex context)) context)
      end
  | ToolCall toolCallId toolName input =>
      let '(evs, context) := ensureMessageStart context in
      let index := contentBlockIndex context in
      let context :=
        set_toolCallIndices (<[toolCallId := index]> (toolCallIndices context))
                            context in
      let inputJson := JSON_stringify input in
      (events (evs ++ [createContentBlockStartEvent index
                         (tool_use_block toolCallId toolName empty_object);
                       content_block_delta index (input_json_delta inputJson);
                       content_block_stop index]),
       set_contentBlockIndex (S (contentBlockIndex context)) context)
  | ToolResult _ _ _ _ => (skip, context)
  | ToolError _ _ _ _ => (skip, context)
  | FinishStep usage _ =>
      let context :=
        match AiSDK.inputTokens usage with
        | Some n => set_inputTokens n context
        | None => context
        end in
      let context :=
        match AiSDK.outputTokens usage with
        | Some n => set_outputTokens n context
        | None => context
        end in
      (skip, context)
  | Finish finishReason totalUsage =>
      let '(evs, context) := ensureMessageStart context in
      (events (evs ++ [message_delta (convertStopReason finishReason) None
                         {| output_tokens :=
                              nullish (AiSDK.outputTokens totalUsage)
                                      (outputTokens context);
                            input_tokens :=
                              nullish (AiSDK.inputTokens totalUsage)
                                      (inputTokens context) |};
                       message_stop]),
       context)
  | Start =>
      let '(evs, context) := ensureMessageStart context in
      (if Nat.ltb 0 (length evs) then events evs else skip, context)
  | StartStep => (skip, context)
  | Abort => (skip, context)
  | Error err => (error (String_ err), context)
  | Source => (skip, context)
  | File => (skip, context)
  | Raw => (skip, context)
  | Unrecognized type => (error ("Unknown chunk type: " +:+ type), context)
  end.

(** The events a result delivers to the consumer. *)
Definition result_events (r : ChunkConversionResult) : list RawMessageStreamEvent :=
  match r with
  | events evs => evs
  | skip => []
  | error _ => []
  end.

(** Driving one context through a sequence of calls, as the consumer loop
    [for (const chunk of chunks) anthropicChunkFromAiSDK(chunk, context)] does. *)
Fixpoint run (chunks : list AiSDKChunk) (context : ChunkConversionContext)
  : list ChunkConversionResult * ChunkConversionContext :=
  match chunks with
  | [] => ([], context)
  | chunk :: rest =>
      let '(r, context) := anthropicChunkFromAiSDK chunk context in
      let '(rs, context) := run rest context in
      (r :: rs, context)
  end.

Definition emitted (chunks : list AiSDKChunk) (context : ChunkConversionContext)
  : list RawMessageStreamEvent :=
  concat (map result_events (fst (run chunks context))).

End WithJSON.

End Anthropic.

(** ** Adapter B: OpenAI chat-completion chunks *)

Module OpenAI.
Import JS AiSDK.

Record ChunkConversionContext : Type := mkContext {
  ctx_id : string;
  ctx_model : string;
  created : Z;
  toolCallIndices : gmap string nat;
  nextToolCallIndex : nat
}.

(** [created: options.created ?? Math.floor(Date.now() / 1000)]; [now] is the
    value [Date.now()] returns when the context is built. *)
Definition createChunkConversionContext
    (id model : string) (created : option Z) (now : Z) : ChunkConversionContext :=
  {| ctx_id := id;
     ctx_model := model;
     created := nullish created (now / 1000)%Z;
     toolCallIndices := ∅;
     nextToolCallIndex := 0 |}.

Definition set_toolCallIndices (m : gmap string nat) (c : ChunkConversionContext) :=
  mkContext (ctx_id c) (ctx_model c) (created c) m (nextToolCallIndex c).
Definition set_nextToolCallIndex (n : nat) (c : ChunkConversionContext) :=
  mkContext (ctx_id c) (ctx_model c) (created c) (toolCallIndices c) n.

(** One entry of [delta.tool_calls]; a field that the source leaves out of the
    object literal is [None]. *)
Record ChunkToolCall : Type := mkToolCall {
  tc_index : nat;
  tc_id : option string;
  tc_type : option string;
  tc_function_name : option string;
  tc_function_arguments : string
}.

Record ChunkDelta : Type := mkDelta {
  role : option string;
  content : option string;
  tool_calls : option (list ChunkToolCall)
}.

Record ChunkChoice : Type := mkChoice {
  choice_index : nat;
  delta : ChunkDelta;
  finish_reason : option string          (* logprobs: null *)
}.

Record CompletionUsage : Type := mkCompletionUsage {
  prompt_tokens : Z;
  completion_tokens : Z;
  total_tokens : Z
}.

Record ChatCompletionChunk : Type := mkChunk {
  chunk_id : string;
  chunk_object : string;
  chunk_created : Z;
  chunk_model : string;
  choices : list ChunkChoice;
  usage : option CompletionUsage
}.

Inductive ChunkConversionResult : Type :=
| chunk (c : ChatCompletionChunk)
| skip
| error (msg : string).

(** The third argument is [None] when the caller passes no usage. *)
Definition createChunk (context : ChunkConversionContext)
    (delta : ChunkDelta) (finish_reason : option string)
    (usage : option CompletionUsage) : ChatCompletionChunk :=
  {| chunk_id := ctx_id context;
     chunk_object := "chat.completion.chunk";
     chunk_created := created context;
     chunk_model := ctx_model context;
     choices := [ {| choice_index := 0; delta := delta;
                     finish_reason := finish_reason |} ];
     usage := usage |}.

Definition convertFinishReason (finishReason : string) : string :=
  if String.eqb finishReason "stop" then "stop"
  else if String.eqb finishReason "length" then "length"
  else if String.eqb finishReason "content-filter" then "content_filter"
  else if String.eqb finishReason "tool-calls" then "tool_calls"
  else "stop".

Definition convertUsage (usage : Usage) : CompletionUsage :=
  {| prompt_tokens := nullish (inputTokens usage) 0%Z;
     completion_tokens := nullish (outputTokens usage) 0%Z;
     total_tokens :=
       nullish (totalTokens usage)
               (nullish (inputTokens usage) 0 + nullish (outputTokens usage) 0)%Z |}.

Definition empty_delta : ChunkDelta :=
  {| role := None; content := None; tool_calls := None |}.

(** [let index = map.get(id); if (index === undefined) { index = next++;
    map.set(id, index); }] *)
Definition getOrAssignIndex (id : string) (context : ChunkConversionContext)
  : nat * ChunkConversionContext :=
  match toolCallIndices context !! id with
  | Some index => (index, context)
  | None =>
      let index := nextToolCallIndex context in
      let context := set_nextToolCallIndex (S index) context in
      (index, set_toolCallIndices (<[id := index]> (toolCallIndices context)) context)
  end.

Section WithJSON.
Variable JSON_stringify : json -> string.

Definition openaiChunkFromAiSDK (c : AiSDKChunk) (context : ChunkConversionContext)
  : ChunkConversionResult * ChunkConversionContext :=
  match c with
  | TextDelta _ text =>
      (chunk (createChunk context
                {| role := None; content := Some text; tool_calls := None |}
                None None),
       context)
  | TextStart _ =>
      (chunk (createChunk context
                {| role := Some "assistant"; content := Some ""; tool_calls := None |}
                None None),
       context)
  | TextEnd _ => (skip, context)
  | ReasoningDelta _ _ => (skip, context)
  | ReasoningStart _ => (skip, context)
  | ReasoningEnd _ => (skip, context)
  | ToolInputStart id toolName =>
      let '(index, context) := getOrAssignIndex id context in
      (chunk (createChunk context
                {| role := None; content := None;
                   tool_calls :=
                     Some [ {| tc_index := index; tc_id := Some id;
                               tc_type := Some "function";
                               tc_function_name := Some toolName;
                               tc_function_arguments := "" |} ] |}
                None None),
       context)
  | ToolInputDelta id d =>
      match toolCallIndices context !! id with
      | None => (error ("Unknown tool call id: " +:+ id), context)
      | Some index =>
          (chunk (createChunk context
                    {| role := None; content := None;
                       tool_calls :=
                         Some [ {| tc_index := index; tc_id := None;
                                   tc_type := None;
                                   tc_function_name := None;
                                   tc_function_arguments := d |} ] |}
                    None None),
           context)
      end
  | ToolInputEnd _ => (skip, context)
  | ToolCall toolCallId toolName input =>
      let '(index, context) := getOrAssignIndex toolCallId context in
      (chunk (createChunk context
                {| role := None; content := None;
                   tool_calls :=
                     Some [ {| tc_index := index; tc_id := Some toolCallId;
                               tc_type := Some "function";
                               tc_function_name := Some toolName;
                               tc_function_arguments := JSON_stringify input |} ] |}
                None None),
       context)
  | ToolResult _ _ _ _ => (skip, context)
  | ToolError _ _ _ _ => (skip, context)
  | FinishStep usage finishReason =>
      (chunk (createChunk context empty_delta
                (Some (convertFinishReason finishReason))
                (Some (convertUsage usage))),
       context)
  | Finish finishReason totalUsage =>
      (chunk (createChunk context empty_delta
                (Some (convertFinishReason finishReason))
                (Some (convertUsage totalUsage))),
       context)
  | Start => (skip, context)
  | StartStep => (skip, context)
  | Abort => (skip, context)
  | Error err => (error (String_ err), context)
  | Source => (skip, context)
  | File => (skip, context)
  | Raw => (skip, context)
  | Unrecognized type => (error ("Unknown chunk type: " +:+ type), context)
  end.

Fixpoint run (chunks : list AiSDKChunk) (context : ChunkConversionContext)
  : list ChunkConversionResult * ChunkConversionContext :=
  match chunks with
  | [] => ([], context)
  | c :: rest =>
      let '(r, context) := openaiChunkFromAiSDK c context in
      let '(rs, context) := run rest context in
      (r :: rs, context)
  end.

End WithJSON.

End OpenAI.

(** ** Adapter C: Google GenAI response snapshots *)

Module Google.
Import JS AiSDK.

Record FunctionCallAcc : Type := mkAcc {
  name : string;
  args : string
}.

(** A JavaScript [Map] with its iteration order: [set] on a key that is present
    replaces the value where it stands, [set] on a new key appends. *)
Fixpoint map_get {V : Type} (k : string) (m : list (string * V)) : option V :=
  match m with
  | [] => None
  | (k', v) :: rest => if String.eqb k' k then Some v else map_get k rest
  end.

Fixpoint map_set {V : Type} (k : string) (v : V) (m : list (string * V))
  : list (string * V) :=
  match m with
  | [] => [(k, v)]
  | (k', v') :: rest =>
      if String.eqb k' k then (k', v) :: rest else (k', v') :: map_set k v rest
  end.

Record ChunkConversionContext : Type := mkContext {
  responseId : string;
  modelVersion : string;
  accumulatedText : string;
  accumulatedFunctionCalls : list (string * FunctionCallAcc);
  inputTokens : Z;
  outputTokens : Z
}.

Definition createChunkConversionContext (responseId modelVersion : string)
  : ChunkConversionContext :=
  {| responseId := responseId;
     modelVersion := modelVersion;
     accumulatedText := "";
     accumulatedFunctionCalls := [];
     inputTokens := 0;
     outputTokens := 0 |}.

Definition set_accumulatedText (s : string) (c : ChunkConversionContext) :=
  mkContext (responseId c) (modelVersion c) s (accumulatedFunctionCalls c)
            (inputTokens c) (outputTokens c).
Definition set_accumulatedFunctionCalls (m : list (string * FunctionCallAcc))
    (c : ChunkConversionContext) :=
  mkContext (responseId c) (modelVersion c) (accumulatedText c) m
            (inputTokens c) (outputTokens c).
Definition set_inputTokens (n : Z) (c : ChunkConversionContext) :=
  mkContext (responseId c) (modelVersion c) (accumulatedText c)
            (accumulatedFunctionCalls c) n (outputTokens c).
Definition set_outputTokens (n : Z) (c : ChunkConversionContext) :=
  mkContext (responseId c) (modelVersion c) (accumulatedText c)
            (accumulatedFunctionCalls c) (inputTokens c) n.

Inductive Part : Type :=
| text_part (text : string)
| functionCall_part (id name : string) (args : json).

Record Content : Type := mkContent {
  role : string;
  parts : list Part
}.

Record Candidate : Type := mkCandidate {
  content : Content;
  finishReason : option string
}.

Record UsageMetadata : Type := mkUsageMetadata {
  promptTokenCount : Z;
  candidatesTokenCount : Z;
  totalTokenCount : Z
}.

Record GenerateContentResponse : Type := mkResponse {
  resp_responseId : string;
  resp_modelVersion : string;
  candidates : list Candidate;
  usageMetadata : UsageMetadata
}.

Inductive ChunkConversionResult : Type :=
| response (r : GenerateContentResponse)
| skip
| error (msg : string).

Definition convertFinishReason (finishReason : string) : string :=
  if String.eqb finishReason "stop" then "STOP"
  else if String.eqb finishReason "length" then "MAX_TOKENS"
  else if String.eqb finishReason "content-filter" then "SAFETY"
  else if String.eqb finishReason "tool-calls" then "STOP"
  else "OTHER".

Section WithJSON.
(** [JSON.parse] returns [None] where the built-in throws. *)
Variable JSON_parse : string -> option json.
Variable JSON_stringify : json -> string.

(** The body of the [for] loop of [buildContent] up to the [push]:
    [let args = {}; try { if (funcCall.args) args = JSON.parse(funcCall.args) }
     catch { args = {} }]. *)
Definition parseArgs (argsText : string) : json :=
  if truthy argsText then
    match JSON_parse argsText with
    | Some v => v
    | None => empty_object
    end
  else empty_object.

Definition buildContent (context : ChunkConversionContext) : Content :=
  let parts : list Part := [] in
  let parts :=
    if truthy (accumulatedText context)
    then parts ++ [text_part (accumulatedText context)]
    else parts in
  let parts :=
    fold_left
      (fun parts '(id, funcCall) =>
         parts ++ [functionCall_part id (name funcCall) (parseArgs (args funcCall))])
      (accumulatedFunctionCalls context) parts in
  let parts :=
    if Nat.eqb (length parts) 0 then parts ++ [text_part ""] else parts in
  {| role := "model"; parts := parts |}.

Definition buildIncrementalResponse (context : ChunkConversionContext)
  : GenerateContentResponse :=
  let content := buildContent context in
  {| resp_responseId := responseId context;
     resp_modelVersion := modelVersion context;
     candidates := [ {| content := content; finishReason := None |} ];
     usageMetadata :=
       {| promptTokenCount := inputTokens context;
          candidatesTokenCount := outputTokens context;
          totalTokenCount := (inputTokens context + outputTokens context)%Z |} |}.

Definition buildFinalResponse (context : ChunkConversionContext)
    (finishReason : string) (totalUsage : Usage) : GenerateContentResponse :=
  let content := buildContent context in
  let inputTokens := nullish (AiSDK.inputTokens totalUsage) (inputTokens context) in
  let outputTokens := nullish (AiSDK.outputTokens totalUsage) (outputTokens context) in
  {| resp_responseId := responseId context;
     resp_modelVersion := modelVersion context;
     candidates := [ {| content := content;
                        finishReason := Some (convertFinishReason finishReason) |} ];
     usageMetadata :=
       {| promptTokenCount := inputTokens;
          candidatesTokenCount := outputTokens;
          totalTokenCount :=
            nullish (AiSDK.totalTokens totalUsage) (inputTokens + outputTokens)%Z |} |}.

Definition googleChunkFromAiSDK (chunk : AiSDKChunk) (context : ChunkConversionContext)
  : ChunkConversionResult * ChunkConversionContext :=
  match chunk with
  | TextStart _ => (skip, context)
  | TextDelta _ text =>
      let context := set_accumulatedText (accumulatedText context +:+ text) context in
      (response (buildIncrementalResponse context), context)
  | TextEnd _ => (skip, context)
  | ReasoningStart _ => (skip, context)
  | ReasoningDelta _ _ => (skip, context)
  | ReasoningEnd _ => (skip, context)
  | ToolInputStart id toolName =>
      let context :=
        set_accumulatedFunctionCalls
          (map_set id {| name := toolName; args := "" |}
                   (accumulatedFunctionCalls context)) context in
      (skip, context)
  | ToolInputDelta id delta =>
      match map_get id (accumulatedFunctionCalls context) with
      | None => (error ("Unknown tool call id: " +:+ id), context)
      | Some funcCall =>
          (* funcCall.args += chunk.delta, on the object held by the map *)
          let context :=
            set_accumulatedFunctionCalls
              (map_set id {| name := name funcCall; args := args funcCall +:+ delta |}
                       (accumulatedFunctionCalls context)) context in
          (response (buildIncrementalResponse context), context)
      end
  | ToolInputEnd _ =>
      (response (buildIncrementalResponse context), context)
  | ToolCall toolCallId toolName input =>
      let context :=
        set_accumulatedFunctionCalls
          (map_set toolCallId {| name := toolName; args := JSON_stringify input |}
                   (accumulatedFunctionCalls context)) context in
      (response (buildIncrementalResponse context), context)
  | ToolResult _ _ _ _ => (skip, context)
  | ToolError _ _ _ _ => (skip, context)
  | FinishStep usage _ =>
      let context :=
        match AiSDK.inputTokens usage with
        | Some n => set_inputTokens n context
        | None => context
        end in
      let context :=
        match AiSDK.outputTokens usage with
        | Some n => set_outputTokens n context
        | None => context
        end in
      (skip, context)
  | Finish finishReason totalUsage =>
      (response (buildFinalResponse context finishReason totalUsage), context)
  | Start => (skip, context)
  | StartStep => (skip, context)
  | Abort => (skip, context)
  | Error err => (error (String_ err), context)
  | Source => (skip, context)
  | File => (skip, context)
  | Raw => (skip, context)
  | Unrecognized type => (error ("Unknown chunk type: " +:+ type), context)
  end.

Fixpoint run (chunks : list AiSDKChunk) (context : ChunkConversionContext)
  : list ChunkConversionResult * ChunkConversionContext :=
  match chunks with
  | [] => ([], context)
  | chunk :: rest =>
      let '(r, context) := googleChunkFromAiSDK chunk context in
      let '(rs, context) := run rest context in
      (r :: rs, context)
  end.

End WithJSON.

End Google.

(** ** The one-shot response converters and their inverses

    [AiSDKResponse] is the result of generateText; only the fields the
    converters read are kept. *)

Module AiResponse.
Import JS AiSDK.

Record ToolCallResult : Type := mkToolCall {
  toolCallId : string;
  toolName : string;
  input : json
}.

Record AiSDKResponse : Type := mkResponse {
  text : string;
  toolCalls : list ToolCallResult;
  finishReason : string;
  usage : Usage;
  response_id : string;
  response_modelId : string;
  response_timestamp : Z                 (* response.timestamp.getTime() *)
}.

(** The parts of an assistant message of the AI SDK that the converters build. *)
Inductive AssistantPart : Type :=
| TextPart (text : string)
| ToolCallPart (toolCallId toolName : string) (input : json).

(** A message with role assistant. *)
Inductive ModelMessage : Type :=
| AssistantMessage (content : list AssistantPart).

End AiResponse.

(** *** src/utils/json.ts *)

Module Utils.
Import JS.

Section WithJSON.
Variable JSON_parse : string -> option json.

(** [try { return JSON.parse(json) } catch { return json }] *)
Definition safeJsonParse (text : string) : json :=
  match JSON_parse text with
  | Some v => v
  | None => JString text
  end.

End WithJSON.
End Utils.

(** *** src/anthropic/messages/from-ai.ts *)

Module AnthropicFromAi.
Import JS AiSDK AiResponse.

Record FromAiSDKOptions : Type := mkOptions {
  opt_id : option string;
  opt_model : option string
}.

Definition createTextBlock (text : string) : Anthropic.ContentBlock :=
  Anthropic.text_block text.

Definition createToolUseBlock (toolCall : ToolCallResult) : Anthropic.ContentBlock :=
  Anthropic.tool_use_block (toolCallId toolCall) (toolName toolCall) (input toolCall).

Definition buildContentBlocks (response : AiSDKResponse) : list Anthropic.ContentBlock :=
  let blocks : list Anthropic.ContentBlock := [] in
  let blocks :=
    if truthy (text response) then blocks ++ [createTextBlock (text response)]
    else blocks in
  let blocks :=
    fold_left (fun blocks toolCall => blocks ++ [createToolUseBlock toolCall])
              (toolCalls response) blocks in
  if Nat.eqb (length blocks) 0 then blocks ++ [createTextBlock ""] else blocks.

Definition convertStopReason (finishReason : string) : string :=
  if String.eqb finishReason "stop" then "end_turn"
  else if String.eqb finishReason "length" then "max_tokens"
  else if String.eqb finishReason "tool-calls" then "tool_use"
  else if String.eqb finishReason "content-filter" then "refusal"
  else if String.eqb finishReason "error" then "end_turn"
  else if String.eqb finishReason "other" then "end_turn"
  else if String.eqb finishReason "unknown" then "end_turn"
  else "end_turn".

(** [usage.inputTokens ?? 0] and [usage.outputTokens ?? 0]. *)
Definition convertUsage (usage : Usage) : Z * Z :=
  (nullish (inputTokens usage) 0%Z, nullish (outputTokens usage) 0%Z).

Definition anthropicMessagesFromAiSDK (response : AiSDKResponse)
    (options : option FromAiSDKOptions) : Anthropic.Message :=
  let content := buildContentBlocks response in
  {| Anthropic.msg_id :=
       nullish (match options with Some o => opt_id o | None => None end)
               (response_id response);
     Anthropic.msg_role := "assistant";
     Anthropic.msg_model :=
       nullish (match options with Some o => opt_model o | None => None end)
               (response_modelId response);
     Anthropic.msg_content := content;
     Anthropic.msg_stop_reason := Some (convertStopReason (finishReason response));
     Anthropic.msg_stop_sequence := None;
     Anthropic.msg_input_tokens := fst (convertUsage (usage response));
     Anthropic.msg_output_tokens := snd (convertUsage (usage response)) |}.

End AnthropicFromAi.

(** *** src/anthropic/messages/to-ai.ts, the assistant side *)

Module AnthropicToAi.
Import JS AiResponse.

(** A content block of a request message.  The block kinds that
    [convertAssistantMessage] passes over without reading (image, document,
    tool_result, server_tool_use, web_search_tool_result, search_result and
    any other) are one constructor. *)
Inductive ContentBlockParam : Type :=
| text_param (text : string)
| tool_use_param (id name : string) (input : json)
| thinking_param (thinking signature : string)
| redacted_thinking_param
| passed_over_param (type : string).

Inductive MessageContent : Type :=
| content_string (s : string)
| content_blocks (blocks : list ContentBlockParam).

Definition convertToolUseBlock (id name : string) (input : json) : AssistantPart :=
  ToolCallPart id name input.

Definition convertThinkingBlock (thinking : string) : AssistantPart :=
  TextPart thinking.

Definition convertAssistantMessage (content : MessageContent) : list ModelMessage :=
  match content with
  | content_string s => [AssistantMessage [TextPart s]]
  | content_blocks blocks =>
      let assistantParts :=
        fold_left
          (fun assistantParts block =>
             match block with
             | text_param text => assistantParts ++ [TextPart text]
             | tool_use_param id name input =>
                 assistantParts ++ [convertToolUseBlock id name input]
             | thinking_param thinking _ =>
                 assistantParts ++ [convertThinkingBlock thinking]
             | redacted_thinking_param => assistantParts
             | passed_over_param _ => assistantParts
             end)
          blocks [] in
      let messages : list ModelMessage := [] in
      if Nat.ltb 0 (length assistantParts)
      then messages ++ [AssistantMessage assistantParts]
      else messages
  end.

(** A block of a response read as a block of a request: the same object. *)
Definition as_param (block : Anthropic.ContentBlock) : ContentBlockParam :=
  match block with
  | Anthropic.text_block text => text_param text
  | Anthropic.thinking_block thinking signature => thinking_param thinking signature
  | Anthropic.tool_use_block id name input => tool_use_param id name input
  end.

End AnthropicToAi.

(** *** src/openai/chat-completion/from-ai.ts *)

Module OpenAIFromAi.
Import JS AiSDK AiResponse.

Record FromAiSDKOptions : Type := mkOptions {
  opt_id : option string;
  opt_model : option string;
  opt_created : option Z
}.

(** ChatCompletionMessageToolCall: a function call or a custom tool call. *)
Inductive MessageToolCall : Type :=
| function_tool_call (id name arguments : string)
| custom_tool_call (id name input : string).

Record ChatCompletionMessage : Type := mkMessage {
  role : string;
  content : option string;               (* refusal: null *)
  tool_calls : option (list MessageToolCall)
}.

Record Choice : Type := mkChoice {
  index : nat;
  message : ChatCompletionMessage;       (* logprobs: null *)
  finish_reason : string
}.

Record ChatCompletionResponse : Type := mkCompletion {
  completion_id : string;
  completion_object : string;
  completion_created : Z;
  completion_model : string;
  choices : list Choice;
  completion_usage : OpenAI.CompletionUsage
}.

Definition convertFinishReason (finishReason : string) : string :=
  if String.eqb finishReason "stop" then "stop"
  else if String.eqb finishReason "length" then "length"
  else if String.eqb finishReason "content-filter" then "content_filter"
  else if String.eqb finishReason "tool-calls" then "tool_calls"
  else if String.eqb finishReason "error" then "stop"
  else if String.eqb finishReason "other" then "stop"
  else if String.eqb finishReason "unknown" then "stop"
  else "stop".

Definition convertUsage (usage : Usage) : OpenAI.CompletionUsage :=
  {| OpenAI.prompt_tokens := nullish (inputTokens usage) 0%Z;
     OpenAI.completion_tokens := nullish (outputTokens usage) 0%Z;
     OpenAI.total_tokens :=
       nullish (totalTokens usage)
               (nullish (inputTokens usage) 0 + nullish (outputTokens usage) 0)%Z |}.

Section WithJSON.
Variable JSON_stringify : json -> string.

Definition convertToolCalls (toolCalls : list ToolCallResult) : list MessageToolCall :=
  map (fun toolCall =>
         function_tool_call (toolCallId toolCall) (toolName toolCall)
                            (JSON_stringify (input toolCall)))
      toolCalls.

Definition openaiChatCompletionFromAiSDK (response : AiSDKResponse)
    (options : option FromAiSDKOptions) : ChatCompletionResponse :=
  let toolCalls := convertToolCalls (AiResponse.toolCalls response) in
  let hasToolCalls := Nat.ltb 0 (length toolCalls) in
  {| completion_id :=
       nullish (match options with Some o => opt_id o | None => None end)
               (response_id response);
     completion_object := "chat.completion";
     completion_created :=
       nullish (match options with Some o => opt_created o | None => None end)
               (response_timestamp response / 1000)%Z;
     completion_model :=
       nullish (match options with Some o => opt_model o | None => None end)
               (response_modelId response);
     choices :=
       [ {| index := 0;
            message :=
              {| role := "assistant";
                 content := if truthy (text response) then Some (text response) else None;
                 tool_calls := if hasToolCalls then Some toolCalls else None |};
            finish_reason := convertFinishReason (finishReason response) |} ];
     completion_usage := convertUsage (usage response) |}.

End WithJSON.
End OpenAIFromAi.

(** *** src/openai/chat-completion/to-ai.ts, the assistant side *)

Module OpenAIToAi.
Import JS AiResponse.

Inductive AssistantContentPart : Type :=
| text_content_part (text : string)
| refusal_content_part (refusal : string).

Inductive AssistantMessageContent : Type :=
| content_string (s : string)
| content_parts (parts : list AssistantContentPart).

(** ChatCompletionAssistantMessageParam; [None] is null or undefined. *)
Record AssistantMessageParam : Type := mkParam {
  content : option AssistantMessageContent;
  tool_calls : option (list OpenAIFromAi.MessageToolCall)
}.

Section WithJSON.
Variable JSON_parse : string -> option json.

Definition convertAssistantContent (msg : AssistantMessageParam) : list AssistantPart :=
  let parts : list AssistantPart := [] in
  let parts :=
    match content msg with
    | Some (content_string s) =>
        if truthy s then parts ++ [TextPart s] else parts
    | Some (content_parts l) =>
        fold_left
          (fun parts part =>
             match part with
             | text_content_part text => parts ++ [TextPart text]
             | refusal_content_part _ => parts
             end)
          l parts
    | None => parts
    end in
  match tool_calls msg with
  | Some l =>
      fold_left
        (fun parts toolCall =>
           match toolCall with
           | OpenAIFromAi.function_tool_call id name arguments =>
               parts ++ [ToolCallPart id name (Utils.safeJsonParse JSON_parse arguments)]
           | OpenAIFromAi.custom_tool_call _ _ _ => parts
           end)
        l parts
  | None => parts
  end.

End WithJSON.

(** The message of a response read as the assistant message of a request: the
    same content and the same tool calls. *)
Definition as_param (m : OpenAIFromAi.ChatCompletionMessage) : AssistantMessageParam :=
  {| content := option_map content_string (OpenAIFromAi.content m);
     tool_calls := OpenAIFromAi.tool_calls m |}.

End OpenAIToAi.

(** *** src/google/genai/from-ai.ts *)

Module GoogleFromAi.
Import JS AiSDK AiResponse.

Record FromAiSDKOptions : Type := mkOptions {
  opt_responseId : option string;
  opt_modelVersion : option string
}.

Definition buildContent (response : AiSDKResponse) : Google.Content :=
  let parts : list Google.Part := [] in
  let parts :=
    if truthy (text response) then parts ++ [Google.text_part (text response)]
    else parts in
  let parts :=
    fold_left
      (fun parts toolCall =>
         parts ++ [Google.functionCall_part (toolCallId toolCall) (toolName toolCall)
                     (input toolCall)])
      (toolCalls response) parts in
  {| Google.role := "model";
     Google.parts := if Nat.ltb 0 (length parts) then parts else [Google.text_part ""] |}.

Definition convertFinishReason (finishReason : string) : string :=
  if String.eqb finishReason "stop" then "STOP"
  else if String.eqb finishReason "length" then "MAX_TOKENS"
  else if String.eqb finishReason "content-filter" then "SAFETY"
  else if String.eqb finishReason "tool-calls" then "STOP"
  else if String.eqb finishReason "error" then "OTHER"
  else if String.eqb finishReason "other" then "OTHER"
  else if String.eqb finishReason "unknown" then "OTHER"
  else "OTHER".

Definition buildCandidate (response : AiSDKResponse) (content : Google.Content)
  : Google.Candidate :=
  {| Google.content := content;
     Google.finishReason := Some (convertFinishReason (finishReason response)) |}.

Definition buildUsageMetadata (response : AiSDKResponse) : Google.UsageMetadata :=
  let inputTokens := nullish (inputTokens (usage response)) 0%Z in
  let outputTokens := nullish (outputTokens (usage response)) 0%Z in
  {| Google.promptTokenCount := inputTokens;
     Google.candidatesTokenCount := outputTokens;
     Google.totalTokenCount :=
       nullish (totalTokens (usage response)) (inputTokens + outputTokens)%Z |}.

Definition googleGenaiFromAiSDK (response : AiSDKResponse)
    (options : option FromAiSDKOptions) : Google.GenerateContentResponse :=
  let content := buildContent response in
  let candidate := buildCandidate response content in
  {| Google.resp_responseId :=
       nullish (match options with Some o => opt_responseId o | None => None end)
               (response_id response);
     Google.resp_modelVersion :=
       nullish (match options with Some o => opt_modelVersion o | None => None end)
               (response_modelId response);
     Google.candidates := [candidate];
     Google.usageMetadata := buildUsageMetadata response |}.

End GoogleFromAi.

(** *** src/google/genai/to-ai.ts, the model side *)

Module GoogleToAi.
Import JS AiResponse.

Record FunctionCall : Type := mkFunctionCall {
  fc_id : option string;
  fc_name : option string;
  fc_args : option json
}.

(** A part of a request content, with the fields [convertModelContent] reads;
    a field that is absent is [None], [thought] is read for its truthiness. *)
Record GooglePart : Type := mkPart {
  p_text : option string;
  p_thought : bool;
  p_functionCall : option FunctionCall
}.

(** [functionCall.args ?? {}]: null and undefined both give the empty object. *)
Definition args_or_empty (args : option json) : json :=
  match args with
  | None => empty_object
  | Some JNull => empty_object
  | Some v => v
  end.

Definition convertFunctionCallPart (functionCall : FunctionCall) : AssistantPart :=
  ToolCallPart
    (nullish (fc_id functionCall) (nullish (fc_name functionCall) ""))
    (nullish (fc_name functionCall) "")
    (args_or_empty (fc_args functionCall)).

(** [parts] is [content.parts ?? []]. *)
Definition convertModelContent (parts : option (list GooglePart)) : list ModelMessage :=
  let assistantParts :=
    fold_left
      (fun assistantParts part =>
         let assistantParts :=
           match p_text part with
           | Some text =>
               if negb (p_thought part) then assistantParts ++ [TextPart text]
               else assistantParts
           | None => assistantParts
           end in
         let assistantParts :=
           match p_text part with
           | Some text =>
               if p_thought part then assistantParts ++ [TextPart text]
               else assistantParts
           | None => assistantParts
           end in
         match p_functionCall part with
         | Some functionCall => assistantParts ++ [convertFunctionCallPart functionCall]
         | None => assistantParts
         end)
      (nullish parts []) [] in
  if Nat.eqb (length assistantParts) 0 then []
  else [AssistantMessage assistantParts].

(** A part built by the response converters read as a part of a request: the
    object literals [{ text }] and [{ functionCall: { id, name, args } }]. *)
Definition as_part (p : Google.Part) : GooglePart :=
  match p with
  | Google.text_part text =>
      {| p_text := Some text; p_thought := false; p_functionCall := None |}
  | Google.functionCall_part id name args =>
      {| p_text := None; p_thought := false;
         p_functionCall := Some (mkFunctionCall (Some id) (Some name) (Some args)) |}
  end.

End GoogleToAi.

(** ** Vocabulary for statements about whole streams *)

Module Stream.
Import JS AiSDK.

(** The chunk is a [tool-input-start] or a [tool-call] carrying this id. *)
Definition introduces (id : string) (c : AiSDKChunk) : bool :=
  match c with
  | ToolInputStart id' _ => String.eqb id' id
  | ToolCall id' _ _ => String.eqb id' id
  | _ => false
  end.

Definition never_introduced (id : string) (chunks : list AiSDKChunk) : bool :=
  forallb (fun c => negb (introduces id c)) chunks.

(** The chunk kinds on which adapter A runs its message_start block. *)
Definition opens_envelope (c : AiSDKChunk) : bool :=
  match c with
  | TextStart _ | ReasoningStart _ | ToolInputStart _ _ | ToolCall _ _ _
  | Start | Finish _ _ => true
  | _ => false
  end.

(** *** Lifecycle order of the input (spec section 3)

    For every id its start comes before its deltas and its end; an id that is
    open is not started again.  Spans of different ids may overlap. *)

Record OpenSpans : Type := mkOpen {
  open_text : list string;
  open_reasoning : list string;
  open_tool : list string
}.

Definition no_open : OpenSpans := mkOpen [] [] [].

Definition is_open (id : string) (l : list string) : bool := existsb (String.eqb id) l.

Definition close (id : string) (l : list string) : list string :=
  List.filter (fun x => negb (String.eqb id x)) l.

Definition any_open (o : OpenSpans) : bool :=
  match open_text o, open_reasoning o, open_tool o with
  | [], [], [] => false
  | _, _, _ => true
  end.

Fixpoint lifecycle_ordered_from (o : OpenSpans) (chunks : list AiSDKChunk) : bool :=
  match chunks with
  | [] => true
  | c :: rest =>
      match c with
      | TextStart id =>
          negb (is_open id (open_text o))
          && lifecycle_ordered_from
               (mkOpen (id :: open_text o) (open_reasoning o) (open_tool o)) rest
      | TextDelta id _ =>
          is_open id (open_text o) && lifecycle_ordered_from o rest
      | TextEnd id =>
          is_open id (open_text o)
          && lifecycle_ordered_from
               (mkOpen (close id (open_text o)) (open_reasoning o) (open_tool o)) rest
      | ReasoningStart id =>
          negb (is_open id (open_reasoning o))
          && lifecycle_ordered_from
               (mkOpen (open_text o) (id :: open_reasoning o) (open_tool o)) rest
      | ReasoningDelta id _ =>
          is_open id (open_reasoning o) && lifecycle_ordered_from o rest
      | ReasoningEnd id =>
          is_open id (open_reasoning o)
          && lifecycle_ordered_from
               (mkOpen (open_text o) (close id (open_reasoning o)) (open_tool o)) rest
      | ToolInputStart id _ =>
          negb (is_open id (open_tool o))
          && lifecycle_ordered_from
               (mkOpen (open_text o) (open_reasoning o) (id :: open_tool o)) rest
      | ToolInputDelta id _ =>
          is_open id (open_tool o) && lifecycle_ordered_from o rest
      | ToolInputEnd id =>
          is_open id (open_tool o)
          && lifecycle_ordered_from
               (mkOpen (open_text o) (open_reasoning o) (close id (open_tool o))) rest
      | _ => lifecycle_ordered_from o rest
      end
  end.

Definition lifecycle_ordered (chunks : list AiSDKChunk) : bool :=
  lifecycle_ordered_from no_open chunks.

(** *** One span at a time

    Lifecycle order in which, besides, no span starts and no complete tool-call
    arrives while another span is open. *)








(** *** Shapes of adapter A's output *)

Definition is_message_start (e : Anthropic.RawMessageStreamEvent) : bool :=
  match e with
  | Anthropic.message_start _ => true
  | _ => false
  end.

Definition is_block_start (e : Anthropic.RawMessageStreamEvent) : bool :=
  match e with
  | Anthropic.content_block_start _ _ => true
  | _ => false
  end.

Definition is_block_event (e : Anthropic.RawMessageStreamEvent) : bool :=
  match e with
  | Anthropic.content_block_start _ _
  | Anthropic.content_block_delta _ _
  | Anthropic.content_block_stop _ => true
  | _ => false
  end.

Definition count_message_start (out : list Anthropic.RawMessageStreamEvent) : nat :=
  length (filter (fun e => is_message_start e = true) out).

(** No event selected by [guarded] comes before the first message_start;
    [started] tells whether a message_start was seen already. *)
Fixpoint envelope_first (guarded : Anthropic.RawMessageStreamEvent -> bool)
    (started : bool) (out : list Anthropic.RawMessageStreamEvent) : bool :=
  match out with
  | [] => true
  | e :: rest =>
      if is_message_start e then envelope_first guarded true rest
      else if guarded e then started && envelope_first guarded started rest
      else envelope_first guarded started rest
  end.



(** *** Tool-call ids in order of first appearance *)

(** The id a tool-input-start or tool-call brings. *)
Definition introduced_id (c : AiSDKChunk) : option string :=
  match c with
  | ToolInputStart id _ => Some id
  | ToolCall id _ _ => Some id
  | _ => None
  end.

Fixpoint index_of (id : string) (l : list string) : option nat :=
  match l with
  | [] => None
  | x :: rest => if String.eqb x id then Some 0 else option_map S (index_of id rest)
  end.

(** The distinct ids brought by the chunks, each at the place of its first
    appearance, after those already [seen]. *)
Fixpoint first_appearance_from (seen : list string) (chunks : list AiSDKChunk)
  : list string :=
  match chunks with
  | [] => seen
  | c :: rest =>
      match introduced_id c with
      | Some id =>
          match index_of id seen with
          | Some _ => first_appearance_from seen rest
          | None => first_appearance_from (seen ++ [id]) rest
          end
      | None => first_appearance_from seen rest
      end
  end.

Definition first_appearance (chunks : list AiSDKChunk) : list string :=
  first_appearance_from [] chunks.

(** The [index] of the tool-call entry a result of adapter B carries. *)
Definition reported_index (r : OpenAI.ChunkConversionResult) : option nat :=
  match r with
  | OpenAI.chunk c =>
      match OpenAI.choices c with
      | [choice] =>
          match OpenAI.tool_calls (OpenAI.delta choice) with
          | Some [tc] => Some (OpenAI.tc_index tc)
          | _ => None
          end
      | _ => None
      end
  | _ => None
  end.

(** The context of adapter B holds exactly the ids [seen], numbered by their
    position. *)
Definition numbered (seen : list string) (ctx : OpenAI.ChunkConversionContext) : Prop :=
  OpenAI.nextToolCallIndex ctx = length seen
  /\ forall id, OpenAI.toolCallIndices ctx !! id = index_of id seen.

(** *** Adapter C: snapshots as the specification words them *)

(** "its args text parsed as JSON, substituting an empty object when parsing
    fails". *)
Definition parsed_or_empty (JSON_parse : string -> option json) (argsText : string)
  : json :=
  match JSON_parse argsText with
  | Some v => v
  | None => empty_object
  end.

(** "one text part with the full accumulated text if non-empty, followed by one
    function-call part per entry (iteration order = insertion order) ...; if no
    text and no function calls exist yet, a single empty-text part". *)
Definition snapshot_parts_spec (JSON_parse : string -> option json)
    (text : string) (calls : list (string * Google.FunctionCallAcc))
  : list Google.Part :=
  let text_parts := if String.eqb text "" then [] else [Google.text_part text] in
  let call_parts :=
    map (fun entry =>
           Google.functionCall_part (fst entry) (Google.name (snd entry))
             (parsed_or_empty JSON_parse (Google.args (snd entry))))
        calls in
  match text_parts ++ call_parts with
  | [] => [Google.text_part ""]
  | ps => ps
  end.

(** The text a snapshot shows: what its text parts hold. *)
Definition part_text (p : Google.Part) : string :=
  match p with
  | Google.text_part t => t
  | Google.functionCall_part _ _ _ => ""
  end.

Definition content_text (c : Google.Content) : string :=
  fold_right String.append "" (map part_text (Google.parts c)).

Definition snapshot_text (r : Google.GenerateContentResponse) : string :=
  match Google.candidates r with
  | [cand] => content_text (Google.content cand)
  | _ => ""
  end.

Definition snapshot_parts (r : Google.GenerateContentResponse) : list Google.Part :=
  match Google.candidates r with
  | [cand] => Google.parts (Google.content cand)
  | _ => []
  end.

(** The snapshots among the results of a run, in order of emission. *)
Fixpoint snapshots (rs : list Google.ChunkConversionResult)
  : list Google.GenerateContentResponse :=
  match rs with
  | [] => []
  | Google.response r :: rest => r :: snapshots rest
  | _ :: rest => snapshots rest
  end.

(** [a] is a prefix of [b]. *)
Fixpoint is_prefix (a b : string) : bool :=
  match a, b with
  | EmptyString, _ => true
  | String x a', String y b' => Ascii.eqb x y && is_prefix a' b'
  | String _ _, EmptyString => false
  end.

(** Each string is a prefix of the next. *)
Fixpoint prefix_chain (l : list string) : bool :=
  match l with
  | a :: (b :: _) as rest => is_prefix a b && prefix_chain rest
  | _ => true
  end.

(** Name and raw argument text held for [id] after the chunks, by the history
    alone: a tool-input-start sets the text to the empty string, a tool-call to
    the serialized input, a tool-input-delta appends when the id is held. *)
Fixpoint held_for (JSON_stringify : json -> string) (id : string)
    (chunks : list AiSDKChunk) (held : option (string * string))
  : option (string * string) :=
  match chunks with
  | [] => held
  | c :: rest =>
      held_for JSON_stringify id rest
        match c with
        | ToolInputStart id' toolName =>
            if String.eqb id' id then Some (toolName, "") else held
        | ToolCall id' toolName input =>
            if String.eqb id' id then Some (toolName, JSON_stringify input) else held
        | ToolInputDelta id' d =>
            if String.eqb id' id
            then option_map (fun h => (fst h, snd h +:+ d)) held
            else held
        | _ => held
        end
  end.

(** The exact concatenation of the tool-input-delta fragments sent for [id]. *)
Fixpoint deltas_for (id : string) (chunks : list AiSDKChunk) : string :=
  match chunks with
  | [] => ""
  | ToolInputDelta id' d :: rest =>
      if String.eqb id' id then d +:+ deltas_for id rest else deltas_for id rest
  | _ :: rest => deltas_for id rest
  end.

Definition no_delta_for (id : string) (chunks : list AiSDKChunk) : bool :=
  forallb (fun c => match c with
                    | ToolInputDelta id' _ => negb (String.eqb id' id)
                    | _ => true
                    end) chunks.

(** Name and raw argument text of an accumulated entry. *)
Definition held_of (fc : Google.FunctionCallAcc) : string * string :=
  (Google.name fc, Google.args fc).

(** *** Further vocabulary: counters, usage and text over a whole stream *)

Definition is_block_stop (e : Anthropic.RawMessageStreamEvent) : bool :=
  match e with
  | Anthropic.content_block_stop _ => true
  | _ => false
  end.

Definition is_message_stop (e : Anthropic.RawMessageStreamEvent) : bool :=
  match e with
  | Anthropic.message_stop => true
  | _ => false
  end.

Fixpoint count_if {A : Type} (p : A -> bool) (l : list A) : nat :=
  match l with
  | [] => 0
  | x :: rest => if p x then S (count_if p rest) else count_if p rest
  end.

(** With [closed] content_block_stop events seen so far: every
    content_block_start carries the number of stops seen before it, and no
    delta or stop carries a larger index. *)
Fixpoint indices_follow_stops (closed : nat)
    (out : list Anthropic.RawMessageStreamEvent) : bool :=
  match out with
  | [] => true
  | Anthropic.content_block_start i _ :: rest =>
      Nat.eqb i closed && indices_follow_stops closed rest
  | Anthropic.content_block_delta i _ :: rest =>
      Nat.leb i closed && indices_follow_stops closed rest
  | Anthropic.content_block_stop i :: rest =>
      Nat.leb i closed && indices_follow_stops (S closed) rest
  | _ :: rest => indices_follow_stops closed rest
  end.

(** Every message_delta is directly followed by a message_stop, and a
    message_stop stands nowhere else. *)
Fixpoint envelope_closed_in_pairs (out : list Anthropic.RawMessageStreamEvent) : bool :=
  match out with
  | [] => true
  | Anthropic.message_delta _ _ _ :: Anthropic.message_stop :: rest =>
      envelope_closed_in_pairs rest
  | Anthropic.message_delta _ _ _ :: _ => false
  | Anthropic.message_stop :: _ => false
  | _ :: rest => envelope_closed_in_pairs rest
  end.

Definition is_finish (c : AiSDKChunk) : bool :=
  match c with
  | Finish _ _ => true
  | _ => false
  end.

(** The count a finish-step last defined, [init] when none did. *)
Fixpoint last_defined (field : Usage -> option Z) (chunks : list AiSDKChunk) (init : Z)
  : Z :=
  match chunks with
  | [] => init
  | FinishStep usage _ :: rest => last_defined field rest (nullish (field usage) init)
  | _ :: rest => last_defined field rest init
  end.

(** The texts of the text-delta chunks, joined in order. *)
Fixpoint texts_of (chunks : list AiSDKChunk) : string :=
  match chunks with
  | [] => ""
  | TextDelta _ text :: rest => text +:+ texts_of rest
  | _ :: rest => texts_of rest
  end.

(** The chunk is a complete tool-call for this id. *)
Definition is_tool_call_for (id : string) (c : AiSDKChunk) : bool :=
  match c with
  | ToolCall id' _ _ => String.eqb id' id
  | _ => false
  end.

(** The kinds of chunk an adapter answers with an error whatever the context. *)
Definition always_error (c : AiSDKChunk) : bool :=
  match c with
  | Error _ | Unrecognized _ => true
  | _ => false
  end.

Definition is_error_A (r : Anthropic.ChunkConversionResult) : bool :=
  match r with
  | Anthropic.error _ => true
  | _ => false
  end.

Definition is_error_B (r : OpenAI.ChunkConversionResult) : bool :=
  match r with
  | OpenAI.error _ => true
  | _ => false
  end.

Definition is_error_C (r : Google.ChunkConversionResult) : bool :=
  match r with
  | Google.error _ => true
  | _ => false
  end.

(** *** A response delivered as a stream *)

(** The text in fragments, then each tool call whole, as chunks. *)
Definition text_chunks (fragments : list string) : list AiSDKChunk :=
  map (TextDelta "text-1") fragments.

Definition tool_call_chunks (toolCalls : list AiResponse.ToolCallResult)
  : list AiSDKChunk :=
  map (fun tc => ToolCall (AiResponse.toolCallId tc) (AiResponse.toolName tc)
                          (AiResponse.input tc))
      toolCalls.

Fixpoint join_fragments (fragments : list string) : string :=
  match fragments with
  | [] => ""
  | f :: rest => f +:+ join_fragments rest
  end.

(** [JSON.parse] undoes [JSON.stringify] on this value, and the serialized text
    is not empty. *)
Definition round_trips (JSON_parse : string -> option json)
    (JSON_stringify : json -> string) (v : json) : Prop :=
  JSON_parse (JSON_stringify v) = Some v /\ JSON_stringify v <> "".

(** The parts of an assistant message that carry a response back: its text, if
    any, then its tool calls. *)
Definition response_parts (r : AiResponse.AiSDKResponse) : list AiResponse.AssistantPart :=
  (if String.eqb (AiResponse.text r) "" then [] else [AiResponse.TextPart (AiResponse.text r)])
  ++ map (fun tc => AiResponse.ToolCallPart (AiResponse.toolCallId tc)
                      (AiResponse.toolName tc) (AiResponse.input tc))
         (AiResponse.toolCalls r).

(** No index recorded for a tool call lies above the running counter. *)
Definition indices_bounded (ctx : Anthropic.ChunkConversionContext) : Prop :=
  forall id i, Anthropic.toolCallIndices ctx !! id = Some i ->
               i <= Anthropic.contentBlockIndex ctx.

(** The chunk refers to a tool-call id the context does not hold, in a case
    where the adapter looks the id up. *)
Definition refers_unknown_A (ctx : Anthropic.ChunkConversionContext) (c : AiSDKChunk)
  : bool :=
  match c with
  | ToolInputDelta id _ | ToolInputEnd id =>
      match Anthropic.toolCallIndices ctx !! id with
      | None => true
      | Some _ => false
      end
  | _ => false
  end.

Definition refers_unknown_B (ctx : OpenAI.ChunkConversionContext) (c : AiSDKChunk)
  : bool :=
  match c with
  | ToolInputDelta id _ =>
      match OpenAI.toolCallIndices ctx !! id with
      | None => true
      | Some _ => false
      end
  | _ => false
  end.

Definition refers_unknown_C (ctx : Google.ChunkConversionContext) (c : AiSDKChunk)
  : bool :=
  match c with
  | ToolInputDelta id _ =>
      match Google.map_get id (Google.accumulatedFunctionCalls ctx) with
      | None => true
      | Some _ => false
      end
  | _ => false
  end.

(** The parts that carry a response back when the converter puts one empty
    text part in place of no content at all. *)
Definition carried_parts (r : AiResponse.AiSDKResponse) : list AiResponse.AssistantPart :=
  match response_parts r with
  | [] => [AiResponse.TextPart ""]
  | ps => ps
  end.

(** The assistant part that stands for one block of an Anthropic response. *)
Definition anthropic_part_of (block : Anthropic.ContentBlock) : AiResponse.AssistantPart :=
  match block with
  | Anthropic.text_block text => AiResponse.TextPart text
  | Anthropic.thinking_block thinking _ => AiResponse.TextPart thinking
  | Anthropic.tool_use_block id name input => AiResponse.ToolCallPart id name input
  end.

(** The assistant part that stands for one part of a Google response. *)
Definition google_part_of (p : Google.Part) : AiResponse.AssistantPart :=
  match p with
  | Google.text_part text => AiResponse.TextPart text
  | Google.functionCall_part id name args =>
      AiResponse.ToolCallPart id name (GoogleToAi.args_or_empty (Some args))
  end.

Definition no_tool_call_for (id : string) (chunks : list AiSDKChunk) : bool :=
  forallb (fun c => negb (is_tool_call_for id c)) chunks.

(** Adapter A's bookkeeping for [id] agrees with what the history holds for
    it: the recorded text is the held text, and the id has an index exactly
    when something is held. *)
Definition inputs_agree (id : string) (held : option (string * string))
    (ctx : Anthropic.ChunkConversionContext) : Prop :=
  Anthropic.toolCallInputs ctx !! id = snd <$> held
  /\ (Anthropic.toolCallIndices ctx !! id = None <-> held = None).

(** *** A response delivered through adapter B *)

(** The tool-call entry of a chunk that carries a whole tool call at [index]. *)
Definition entry_of (index : nat) (toolCall : OpenAIFromAi.MessageToolCall)
  : option OpenAI.ChunkToolCall :=
  match toolCall with
  | OpenAIFromAi.function_tool_call id name arguments =>
      Some (OpenAI.mkToolCall index (Some id) (Some "function") (Some name) arguments)
  | OpenAIFromAi.custom_tool_call _ _ _ => None
  end.

(** The same context fields that [createChunk] copies into a chunk. *)
Definition same_envelope (c1 c2 : OpenAI.ChunkConversionContext) : Prop :=
  OpenAI.ctx_id c1 = OpenAI.ctx_id c2
  /\ OpenAI.ctx_model c1 = OpenAI.ctx_model c2
  /\ OpenAI.created c1 = OpenAI.created c2.

End Stream.

(** * Properties *)

Import JS AiSDK Stream.

(** Case analysis on one adapter call: unfolds the call and splits on every
    test it makes. *)
Ltac step_cases :=
  simpl in *;
  unfold Anthropic.ensureMessageStart, OpenAI.getOrAssignIndex in *;
  repeat case_match; simplify_eq; simpl in *.

Ltac flags :=
  repeat match goal with
         | H : negb ?b = true |- _ => apply negb_true_iff in H
         | H : negb ?b = false |- _ => apply negb_false_iff in H
         end.

(** ** Sample runs

    Runs in the manner of the repository's tests, with the reference JSON
    instance. *)

(** The test "handles thinking followed by text": the text block is opened at
    index 1. *)
Example thinking_then_text :
  Anthropic.emitted JSONRef.JSON_stringify
    [Start; ReasoningStart "thinking-1";
     ReasoningDelta "thinking-1" "I need to analyze this...";
     ReasoningEnd "thinking-1"; TextStart "text-1";
     TextDelta "text-1" "Here's my answer."; TextEnd "text-1";
     Finish "stop" (mkUsage (Some 50%Z) (Some 30%Z) (Some 80%Z))]
    (Anthropic.createChunkConversionContext "msg_123abc" "claude-sonnet-4-5-20250929")
  = [Anthropic.message_start
       (Anthropic.mkMessage "msg_123abc" "assistant" "claude-sonnet-4-5-20250929"
          [] None None 0 0);
     Anthropic.content_block_start 0 (Anthropic.thinking_block "" "");
     Anthropic.content_block_delta 0 (Anthropic.thinking_delta "I need to analyze this...");
     Anthropic.content_block_stop 0;
     Anthropic.content_block_start 1 (Anthropic.text_block "");
     Anthropic.content_block_delta 1 (Anthropic.text_delta "Here's my answer.");
     Anthropic.content_block_stop 1;
     Anthropic.message_delta "end_turn" None (Anthropic.mkDeltaUsage 30 50);
     Anthropic.message_stop].
Proof. reflexivity. Qed.

(** finish-step is skipped but its defined counts are tracked; a finish
    without usage falls back on them. *)
Example finish_step_tracks_usage :
  Anthropic.emitted JSONRef.JSON_stringify
    [FinishStep (mkUsage (Some 100%Z) (Some 50%Z) (Some 150%Z)) "stop";
     FinishStep (mkUsage None (Some 60%Z) None) "stop";
     Finish "length" (mkUsage None None None)]
    (Anthropic.createChunkConversionContext "msg_1" "claude")
  = [Anthropic.message_start
       (Anthropic.mkMessage "msg_1" "assistant" "claude" [] None None 100 0);
     Anthropic.message_delta "max_tokens" None (Anthropic.mkDeltaUsage 60 100);
     Anthropic.message_stop].
Proof. reflexivity. Qed.

(** A streamed tool call through adapter B: three chunks at index 0, the first
    with id, type and name, the others with the fragment alone. *)
Example openai_streamed_tool_call :
  let ctx := OpenAI.createChunkConversionContext "chatcmpl-123" "gpt-4" (Some 1700000000%Z) 0 in
  let part1 := "{" +:+ JSONRef.quote "location" in
  let part2 := ":" +:+ JSONRef.quote "SF" +:+ "}" in
  let entry i id ty name args :=
    OpenAI.chunk
      (OpenAI.mkChunk "chatcmpl-123" "chat.completion.chunk" 1700000000 "gpt-4"
         [OpenAI.mkChoice 0
            (OpenAI.mkDelta None None (Some [OpenAI.mkToolCall i id ty name args])) None]
         None) in
  fst (OpenAI.run JSONRef.JSON_stringify
         [ToolInputStart "call_1" "get_weather"; ToolInputDelta "call_1" part1;
          ToolInputDelta "call_1" part2; ToolInputEnd "call_1"] ctx)
  = [entry 0 (Some "call_1") (Some "function") (Some "get_weather") "";
     entry 0 None None None part1;
     entry 0 None None None part2;
     OpenAI.skip].
Proof. reflexivity. Qed.

(** A finish through adapter B: missing counts are 0 and the total is the
    sum. *)
Example openai_finish_usage :
  fst (OpenAI.openaiChunkFromAiSDK JSONRef.JSON_stringify
         (Finish "tool-calls" (mkUsage (Some 10%Z) None None))
         (OpenAI.createChunkConversionContext "chatcmpl-123" "gpt-4" None 1700000000999))
  = OpenAI.chunk
      (OpenAI.mkChunk "chatcmpl-123" "chat.completion.chunk" 1700000000 "gpt-4"
         [OpenAI.mkChoice 0 OpenAI.empty_delta (Some "tool_calls")]
         (Some (OpenAI.mkCompletionUsage 10 0 10))).
Proof. reflexivity. Qed.

(** A complete tool-call through adapter C: one snapshot whose only part is
    the function call with the input parsed back, and no text part. *)
Example google_complete_tool_call :
  let input := JObject [("query", JString "test")] in
  fst (Google.googleChunkFromAiSDK JSONRef.JSON_parse JSONRef.JSON_stringify
         (ToolCall "call_1" "search" input)
         (Google.createChunkConversionContext "resp-1" "gemini-pro"))
  = Google.response
      (Google.mkResponse "resp-1" "gemini-pro"
         [Google.mkCandidate
            (Google.mkContent "model" [Google.functionCall_part "call_1" "search" input])
            None]
         (Google.mkUsageMetadata 0 0 0)).
Proof. reflexivity. Qed.

(** Malformed partial JSON in mid-stream gives the empty object, the complete
    text its parse. *)
Example google_partial_args :
  let part1 := "{" +:+ JSONRef.quote "location" in
  let part2 := ":" +:+ JSONRef.quote "SF" +:+ "}" in
  map snapshot_parts
    (snapshots
       (fst (Google.run JSONRef.JSON_parse JSONRef.JSON_stringify
               [ToolInputStart "call_1" "get_weather"; ToolInputDelta "call_1" part1;
                ToolInputDelta "call_1" part2; ToolInputEnd "call_1"]
               (Google.createChunkConversionContext "resp-1" "gemini-pro"))))
  = [[Google.functionCall_part "call_1" "get_weather" (JObject [])];
     [Google.functionCall_part "call_1" "get_weather"
        (JObject [("location", JString "SF")])];
     [Google.functionCall_part "call_1" "get_weather"
        (JObject [("location", JString "SF")])]].
Proof. reflexivity. Qed.

(** ** Finish-reason tables *)

(** C6. Each adapter's finish-reason conversion is a total function of the
    finish-reason string: stop, length, tool-calls and content-filter have the
    fixed labels end_turn/max_tokens/tool_use/refusal (A),
    stop/length/tool_calls/content_filter (B) and STOP/MAX_TOKENS/STOP/SAFETY
    (C); every other string, error, other and unknown among them, gives
    end_turn (A), stop (B), OTHER (C). *)
Theorem finish_reason_tables (s : string) :
  (Anthropic.convertStopReason "stop" = "end_turn"
   /\ Anthropic.convertStopReason "length" = "max_tokens"
   /\ Anthropic.convertStopReason "tool-calls" = "tool_use"
   /\ Anthropic.convertStopReason "content-filter" = "refusal")
  /\ (OpenAI.convertFinishReason "stop" = "stop"
      /\ OpenAI.convertFinishReason "length" = "length"
      /\ OpenAI.convertFinishReason "tool-calls" = "tool_calls"
      /\ OpenAI.convertFinishReason "content-filter" = "content_filter")
  /\ (Google.convertFinishReason "stop" = "STOP"
      /\ Google.convertFinishReason "length" = "MAX_TOKENS"
      /\ Google.convertFinishReason "tool-calls" = "STOP"
      /\ Google.convertFinishReason "content-filter" = "SAFETY")
  /\ (s <> "stop" -> s <> "length" -> s <> "tool-calls" -> s <> "content-filter" ->
      Anthropic.convertStopReason s = "end_turn"
      /\ OpenAI.convertFinishReason s = "stop"
      /\ Google.convertFinishReason s = "OTHER")
  /\ (Anthropic.convertStopReason "error" = "end_turn"
      /\ Anthropic.convertStopReason "other" = "end_turn"
      /\ Anthropic.convertStopReason "unknown" = "end_turn")
  /\ (OpenAI.convertFinishReason "error" = "stop"
      /\ OpenAI.convertFinishReason "other" = "stop"
      /\ OpenAI.convertFinishReason "unknown" = "stop")
  /\ (Google.convertFinishReason "error" = "OTHER"
      /\ Google.convertFinishReason "other" = "OTHER"
      /\ Google.convertFinishReason "unknown" = "OTHER").
Proof.
  repeat split; try reflexivity;
    unfold Anthropic.convertStopReason, OpenAI.convertFinishReason,
           Google.convertFinishReason;
    repeat match goal with
           | H : s <> ?lit |- _ =>
               apply String.eqb_neq in H; rewrite H; clear H
           end; reflexivity.
Qed.

Lemma finish_reason_tables_witness :
  Anthropic.convertStopReason "gibberish" = "end_turn"
  /\ OpenAI.convertFinishReason "gibberish" = "stop"
  /\ Google.convertFinishReason "gibberish" = "OTHER".
Proof.
  apply (finish_reason_tables "gibberish"); discriminate.
Defined.

(** ** The text-only scenario *)

(** C7. Adapter A, fed start, start-step, text-start t1, three text-deltas
    ("Hello", ", ", "world!"), text-end t1, finish-step and finish("stop") with
    usage 10/5/15 on a fresh context, emits eight events: message_start,
    content_block_start 0, the three deltas at 0, content_block_stop 0,
    message_delta with stop_reason end_turn, message_stop. *)
Theorem text_only_scenario (JSON_stringify : json -> string) (id model : string) :
  let usage := mkUsage (Some 10%Z) (Some 5%Z) (Some 15%Z) in
  let out :=
    Anthropic.emitted JSON_stringify
      [Start; StartStep; TextStart "t1"; TextDelta "t1" "Hello";
       TextDelta "t1" ", "; TextDelta "t1" "world!"; TextEnd "t1";
       FinishStep usage "stop"; Finish "stop" usage]
      (Anthropic.createChunkConversionContext id model) in
  out =
    [Anthropic.message_start
       (Anthropic.mkMessage id "assistant" model [] None None 0 0);
     Anthropic.content_block_start 0 (Anthropic.text_block "");
     Anthropic.content_block_delta 0 (Anthropic.text_delta "Hello");
     Anthropic.content_block_delta 0 (Anthropic.text_delta ", ");
     Anthropic.content_block_delta 0 (Anthropic.text_delta "world!");
     Anthropic.content_block_stop 0;
     Anthropic.message_delta (Anthropic.convertStopReason "stop") None
       (Anthropic.mkDeltaUsage 5 10);
     Anthropic.message_stop]
  /\ length out = 8
  /\ Anthropic.convertStopReason "stop" = "end_turn".
Proof. repeat split. Qed.

(** ** Error chunks *)

(** C9 fails as stated: for an Error instance the adapters return
    [String(error)], which is "Error: Something went wrong", not the message
    field "Something went wrong". *)
Lemma error_message_counterexample :
  let boom := Error (EException "Error" "Something went wrong") in
  fst (Anthropic.anthropicChunkFromAiSDK JSONRef.JSON_stringify boom
         (Anthropic.createChunkConversionContext "msg_1" "m"))
    = Anthropic.error "Error: Something went wrong"
  /\ fst (OpenAI.openaiChunkFromAiSDK JSONRef.JSON_stringify boom
            (OpenAI.createChunkConversionContext "c_1" "m" (Some 0%Z) 0))
    = OpenAI.error "Error: Something went wrong"
  /\ fst (Google.googleChunkFromAiSDK JSONRef.JSON_parse JSONRef.JSON_stringify boom
            (Google.createChunkConversionContext "r_1" "m"))
    = Google.error "Error: Something went wrong"
  /\ "Error: Something went wrong" <> "Something went wrong".
Proof. repeat split; discriminate. Qed.

(** C9, amended. On an error chunk every adapter returns an error result whose
    message is [String(error)] and leaves the context as it was: the string
    itself for a string, and for an Error instance with a name and a message
    the text "<name>: <message>". *)
Theorem error_chunk_is_String
    (JSON_parse : string -> option json) (JSON_stringify : json -> string)
    (v : ErrorValue) (s name message : string)
    (a : Anthropic.ChunkConversionContext) (b : OpenAI.ChunkConversionContext)
    (c : Google.ChunkConversionContext) :
  Anthropic.anthropicChunkFromAiSDK JSON_stringify (Error v) a
    = (Anthropic.error (String_ v), a)
  /\ OpenAI.openaiChunkFromAiSDK JSON_stringify (Error v) b
    = (OpenAI.error (String_ v), b)
  /\ Google.googleChunkFromAiSDK JSON_parse JSON_stringify (Error v) c
    = (Google.error (String_ v), c)
  /\ String_ (EString s) = s
  /\ (name <> "" -> message <> "" ->
      String_ (EException name message) = name +:+ ": " +:+ message).
Proof.
  repeat split.
  intros Hn Hm. unfold String_.
  apply String.eqb_neq in Hn, Hm. now rewrite Hn, Hm.
Qed.

Lemma error_chunk_is_String_witness :
  String_ (EException "TypeError" "x is undefined") = "TypeError: x is undefined".
Proof.
  apply (error_chunk_is_String JSONRef.JSON_parse JSONRef.JSON_stringify
           ENull "" "TypeError" "x is undefined"
           (Anthropic.createChunkConversionContext "msg_1" "m")
           (OpenAI.createChunkConversionContext "c_1" "m" None 0)
           (Google.createChunkConversionContext "r_1" "m")); discriminate.
Defined.

(** ** Ids that were never introduced *)

Section UnknownId.
Variable JSON_parse : string -> option json.
Variable JSON_stringify : json -> string.

Local Abbreviation stepA := (Anthropic.anthropicChunkFromAiSDK JSON_stringify).
Local Abbreviation stepB := (OpenAI.openaiChunkFromAiSDK JSON_stringify).
Local Abbreviation stepC := (Google.googleChunkFromAiSDK JSON_parse JSON_stringify).

Lemma eqb_false_ne (a b : string) : String.eqb a b = false -> a <> b.
Proof. apply String.eqb_neq. Qed.

Lemma A_step_keeps_unknown id c ctx :
  introduces id c = false ->
  Anthropic.toolCallIndices ctx !! id = None ->
  Anthropic.toolCallIndices (snd (stepA c ctx)) !! id = None.
Proof.
  intros Hc Hid.
  destruct c; step_cases; try assumption;
    rewrite lookup_insert_ne by (now apply eqb_false_ne); assumption.
Qed.

Lemma A_run_keeps_unknown id chunks : forall ctx,
  never_introduced id chunks = true ->
  Anthropic.toolCallIndices ctx !! id = None ->
  Anthropic.toolCallIndices (snd (Anthropic.run JSON_stringify chunks ctx)) !! id = None.
Proof.
  induction chunks as [|c rest IH]; intros ctx Hn Hid; simpl in *; [assumption|].
  apply andb_prop in Hn as [Hc Hrest]. apply negb_true_iff in Hc.
  pose proof (A_step_keeps_unknown id c ctx Hc Hid) as Hstep.
  destruct (stepA c ctx) as [r ctx1]; simpl in *.
  specialize (IH ctx1 Hrest Hstep).
  destruct (Anthropic.run JSON_stringify rest ctx1); assumption.
Qed.

Lemma B_step_keeps_unknown id c ctx :
  introduces id c = false ->
  OpenAI.toolCallIndices ctx !! id = None ->
  OpenAI.toolCallIndices (snd (stepB c ctx)) !! id = None.
Proof.
  intros Hc Hid.
  destruct c; step_cases; try assumption;
    rewrite lookup_insert_ne by (now apply eqb_false_ne); assumption.
Qed.

Lemma B_run_keeps_unknown id chunks : forall ctx,
  never_introduced id chunks = true ->
  OpenAI.toolCallIndices ctx !! id = None ->
  OpenAI.toolCallIndices (snd (OpenAI.run JSON_stringify chunks ctx)) !! id = None.
Proof.
  induction chunks as [|c rest IH]; intros ctx Hn Hid; simpl in *; [assumption|].
  apply andb_prop in Hn as [Hc Hrest]. apply negb_true_iff in Hc.
  pose proof (B_step_keeps_unknown id c ctx Hc Hid) as Hstep.
  destruct (stepB c ctx) as [r ctx1]; simpl in *.
  specialize (IH ctx1 Hrest Hstep).
  destruct (OpenAI.run JSON_stringify rest ctx1); assumption.
Qed.

Lemma map_get_set {V : Type} (k id : string) (v : V) (m : list (string * V)) :
  Google.map_get id (Google.map_set k v m)
  = if String.eqb k id then Some v else Google.map_get id m.
Proof.
  induction m as [|[k' v'] m IH]; simpl.
  - reflexivity.
  - destruct (String.eqb k' k) eqn:Hk; simpl.
    + apply String.eqb_eq in Hk; subst k'.
      destruct (String.eqb k id); reflexivity.
    + destruct (String.eqb k' id) eqn:Hid; [|exact IH].
      apply String.eqb_eq in Hid; subst k'.
      rewrite String.eqb_sym in Hk. now rewrite Hk.
Qed.

Lemma C_step_keeps_unknown id c ctx :
  introduces id c = false ->
  Google.map_get id (Google.accumulatedFunctionCalls ctx) = None ->
  Google.map_get id (Google.accumulatedFunctionCalls (snd (stepC c ctx))) = None.
Proof.
  intros Hc Hid.
  destruct c; step_cases; try assumption;
    rewrite map_get_set; try (rewrite Hc; assumption).
  case_match; [|assumption].
  match goal with H : String.eqb _ _ = true |- _ => apply String.eqb_eq in H end.
  congruence.
Qed.

Lemma C_run_keeps_unknown id chunks : forall ctx,
  never_introduced id chunks = true ->
  Google.map_get id (Google.accumulatedFunctionCalls ctx) = None ->
  Google.map_get id
    (Google.accumulatedFunctionCalls
       (snd (Google.run JSON_parse JSON_stringify chunks ctx))) = None.
Proof.
  induction chunks as [|c rest IH]; intros ctx Hn Hid; simpl in *; [assumption|].
  apply andb_prop in Hn as [Hc Hrest]. apply negb_true_iff in Hc.
  pose proof (C_step_keeps_unknown id c ctx Hc Hid) as Hstep.
  destruct (stepC c ctx) as [r ctx1]; simpl in *.
  specialize (IH ctx1 Hrest Hstep).
  destruct (Google.run JSON_parse JSON_stringify rest ctx1); assumption.
Qed.

(** C2, amended. After any calls on a fresh context none of which is a
    tool-input-start or tool-call for [id]: a tool-input-delta for [id] is
    answered by all three adapters with the error "Unknown tool call id: <id>";
    a tool-input-end for [id] is answered by adapter A with the same error, by
    adapter B with skip and by adapter C with a snapshot of the accumulated
    state.  None of these six calls changes the context. *)
Theorem unknown_id_never_mutates
    (chunks : list AiSDKChunk) (id d : string)
    (idA modelA idB modelB idC modelC : string) (created : option Z) (now : Z) :
  never_introduced id chunks = true ->
  let a := snd (Anthropic.run JSON_stringify chunks
                  (Anthropic.createChunkConversionContext idA modelA)) in
  let b := snd (OpenAI.run JSON_stringify chunks
                  (OpenAI.createChunkConversionContext idB modelB created now)) in
  let c := snd (Google.run JSON_parse JSON_stringify chunks
                  (Google.createChunkConversionContext idC modelC)) in
  let msg := "Unknown tool call id: " +:+ id in
  stepA (ToolInputDelta id d) a = (Anthropic.error msg, a)
  /\ stepA (ToolInputEnd id) a = (Anthropic.error msg, a)
  /\ stepB (ToolInputDelta id d) b = (OpenAI.error msg, b)
  /\ stepB (ToolInputEnd id) b = (OpenAI.skip, b)
  /\ stepC (ToolInputDelta id d) c = (Google.error msg, c)
  /\ stepC (ToolInputEnd id) c
     = (Google.response (Google.buildIncrementalResponse JSON_parse c), c).
Proof.
  intros Hn a b c msg.
  assert (Ha : Anthropic.toolCallIndices a !! id = None)
    by (apply A_run_keeps_unknown; [assumption | reflexivity]).
  assert (Hb : OpenAI.toolCallIndices b !! id = None)
    by (apply B_run_keeps_unknown; [assumption | reflexivity]).
  assert (Hc : Google.map_get id (Google.accumulatedFunctionCalls c) = None)
    by (apply C_run_keeps_unknown; [assumption | reflexivity]).
  simpl. rewrite Ha, Hb, Hc. repeat split.
Qed.

End UnknownId.

(** C2 fails as stated for tool-input-end: on a context that never saw the id
    adapter B returns skip and adapter C returns a snapshot, not an error. *)
Lemma unknown_id_end_counterexample :
  fst (OpenAI.openaiChunkFromAiSDK JSONRef.JSON_stringify (ToolInputEnd "call_9")
         (OpenAI.createChunkConversionContext "chatcmpl-1" "gpt" (Some 0%Z) 0))
    = OpenAI.skip
  /\ fst (Google.googleChunkFromAiSDK JSONRef.JSON_parse JSONRef.JSON_stringify
            (ToolInputEnd "call_9")
            (Google.createChunkConversionContext "resp-1" "gemini"))
     = Google.response
         (Google.mkResponse "resp-1" "gemini"
            [Google.mkCandidate (Google.mkContent "model" [Google.text_part ""]) None]
            (Google.mkUsageMetadata 0 0 0))
  /\ (forall msg, OpenAI.skip <> OpenAI.error msg)
  /\ (forall r msg, Google.response r <> Google.error msg).
Proof. repeat split; discriminate. Qed.

Lemma unknown_id_never_mutates_witness :
  let chunks := [Start; ToolInputStart "call_1" "get_weather";
                 ToolInputDelta "call_1" "{}"; ToolInputEnd "call_1"] in
  let a := snd (Anthropic.run JSONRef.JSON_stringify chunks
                  (Anthropic.createChunkConversionContext "msg_1" "claude")) in
  Anthropic.anthropicChunkFromAiSDK JSONRef.JSON_stringify
    (ToolInputDelta "call_2" "{") a
  = (Anthropic.error "Unknown tool call id: call_2", a).
Proof.
  apply (unknown_id_never_mutates JSONRef.JSON_parse JSONRef.JSON_stringify
           [Start; ToolInputStart "call_1" "get_weather";
            ToolInputDelta "call_1" "{}"; ToolInputEnd "call_1"]
           "call_2" "{" "msg_1" "claude" "c" "gpt" "r" "gemini" None 0).
  reflexivity.
Defined.

(** ** Adapter A: the envelope-open event *)

Section Envelope.
Variable JSON_stringify : json -> string.

Local Abbreviation stepA := (Anthropic.anthropicChunkFromAiSDK JSON_stringify).
Local Abbreviation emitted := (Anthropic.emitted JSON_stringify).

Lemma emitted_cons c rest ctx :
  emitted (c :: rest) ctx
  = Anthropic.result_events (fst (stepA c ctx)) ++ emitted rest (snd (stepA c ctx)).
Proof.
  unfold Anthropic.emitted. cbn [Anthropic.run].
  destruct (stepA c ctx) as [r ctx1]. cbn [fst snd].
  destruct (Anthropic.run JSON_stringify rest ctx1) as [rs ctx2].
  reflexivity.
Qed.

Lemma count_message_start_app out1 out2 :
  count_message_start (out1 ++ out2)
  = count_message_start out1 + count_message_start out2.
Proof. unfold count_message_start. now rewrite filter_app, length_app. Qed.

(** What one call adds to the count, and what it does to the flag. *)
Lemma step_message_start c ctx :
  count_message_start (Anthropic.result_events (fst (stepA c ctx)))
  = (if Anthropic.messageStarted ctx then 0
     else if opens_envelope c then 1 else 0)
  /\ Anthropic.messageStarted (snd (stepA c ctx))
     = Anthropic.messageStarted ctx || opens_envelope c.
Proof.
  destruct c; step_cases; flags;
    try match goal with
        | H : Anthropic.messageStarted _ = _ |- _ => rewrite H
        end;
    split; reflexivity.
Qed.

Lemma count_message_start_emitted chunks : forall ctx,
  count_message_start (emitted chunks ctx)
  = if Anthropic.messageStarted ctx then 0
    else if existsb opens_envelope chunks then 1 else 0.
Proof.
  induction chunks as [|c rest IH]; intros ctx.
  - cbn. now destruct (Anthropic.messageStarted ctx).
  - rewrite emitted_cons, count_message_start_app, IH.
    destruct (step_message_start c ctx) as [-> ->]. cbn [existsb].
    destruct (Anthropic.messageStarted ctx), (opens_envelope c),
      (existsb opens_envelope rest); reflexivity.
Qed.

(** A content_block_start is never emitted ahead of message_start. *)
Lemma block_start_after_envelope chunks : forall ctx started,
  started = Anthropic.messageStarted ctx ->
  envelope_first is_block_start started (emitted chunks ctx) = true.
Proof.
  induction chunks as [|c rest IH]; intros ctx started ->; [reflexivity|].
  rewrite emitted_cons.
  destruct c; step_cases; flags;
    try match goal with
        | H : Anthropic.messageStarted _ = _ |- _ => rewrite H
        end;
    cbn [andb]; apply IH;
    first [reflexivity | symmetry; assumption].
Qed.

Lemma is_open_any_text id o : is_open id (open_text o) = true -> any_open o = true.
Proof. unfold any_open. now destruct (open_text o). Qed.

Lemma is_open_any_reasoning id o :
  is_open id (open_reasoning o) = true -> any_open o = true.
Proof.
  unfold any_open. destruct (open_reasoning o); [discriminate|].
  now destruct (open_text o).
Qed.

Lemma is_open_any_tool id o : is_open id (open_tool o) = true -> any_open o = true.
Proof.
  unfold any_open. destruct (open_tool o); [discriminate|].
  now destruct (open_text o), (open_reasoning o).
Qed.

(** In a lifecycle-ordered stream no content-block event at all is emitted
    ahead of message_start. *)
Lemma block_events_after_envelope chunks : forall o ctx started,
  started = Anthropic.messageStarted ctx ->
  (any_open o = true -> Anthropic.messageStarted ctx = true) ->
  lifecycle_ordered_from o chunks = true ->
  envelope_first is_block_event started (emitted chunks ctx) = true.
Proof.
  induction chunks as [|c rest IH]; intros o ctx started -> Hinv Hlife; [reflexivity|].
  rewrite emitted_cons.
  destruct c; cbn [lifecycle_ordered_from] in Hlife;
    try (apply andb_prop in Hlife as [Hid Hlife]);
    try (pose proof (Hinv (is_open_any_text _ _ Hid)) as Hs);
    try (pose proof (Hinv (is_open_any_reasoning _ _ Hid)) as Hs);
    try (pose proof (Hinv (is_open_any_tool _ _ Hid)) as Hs);
    step_cases; flags;
    try match goal with
        | H : Anthropic.messageStarted _ = _ |- _ => rewrite H in *
        end;
    try discriminate;
    cbn [andb];
    (eapply IH; [ | | eassumption];
     first [reflexivity | symmetry; assumption | assumption
           | intros _; reflexivity | intros _; assumption ]).
Qed.

End Envelope.

(** C1 fails as stated.  A stream without an opening event produces no
    message_start at all, and a text-delta that arrives before any opening
    event puts a content-block event in front of message_start. *)
Lemma envelope_open_counterexample :
  let fresh := Anthropic.createChunkConversionContext "msg_1" "claude" in
  let silent :=
    Anthropic.emitted JSONRef.JSON_stringify [StartStep; TextDelta "t1" "Hello"] fresh in
  let late :=
    Anthropic.emitted JSONRef.JSON_stringify
      [TextDelta "t1" "Hello"; TextStart "t1"] fresh in
  silent = [Anthropic.content_block_delta 0 (Anthropic.text_delta "Hello")]
  /\ count_message_start silent <> 1
  /\ late
     = [Anthropic.content_block_delta 0 (Anthropic.text_delta "Hello");
        Anthropic.message_start
          (Anthropic.mkMessage "msg_1" "assistant" "claude" [] None None 0 0);
        Anthropic.content_block_start 0 (Anthropic.text_block "")]
  /\ envelope_first is_block_event false late = false.
Proof. repeat split. discriminate. Qed.

(** C1, amended. For any sequence of events fed through one fresh context of
    adapter A, message_start appears in the combined output once if the
    sequence holds a text-start, reasoning-start, tool-input-start, tool-call,
    start or finish event and not at all otherwise; each of these six kinds,
    met on a context that has not started, returns message_start as its first
    event; message_start comes before every content_block_start, and, when the
    events arrive in lifecycle order, before every content-block event. *)
Theorem envelope_open_once
    (JSON_stringify : json -> string) (id model : string) (chunks : list AiSDKChunk) :
  let out :=
    Anthropic.emitted JSON_stringify chunks
      (Anthropic.createChunkConversionContext id model) in
  count_message_start out = (if existsb opens_envelope chunks then 1 else 0)
  /\ (forall c ctx,
        opens_envelope c = true -> Anthropic.messageStarted ctx = false ->
        exists rest,
          Anthropic.anthropicChunkFromAiSDK JSON_stringify c ctx
          = (Anthropic.events (Anthropic.createMessageStartEvent ctx :: rest),
             snd (Anthropic.anthropicChunkFromAiSDK JSON_stringify c ctx)))
  /\ envelope_first is_block_start false out = true
  /\ (lifecycle_ordered chunks = true ->
      envelope_first is_block_event false out = true).
Proof.
  intros out. split; [|split; [|split]].
  - apply (count_message_start_emitted JSON_stringify chunks
             (Anthropic.createChunkConversionContext id model)).
  - intros c ctx Hc Hs.
    destruct c; try discriminate Hc;
      cbn [Anthropic.anthropicChunkFromAiSDK]; unfold Anthropic.ensureMessageStart;
      rewrite Hs; cbn; eexists; reflexivity.
  - apply block_start_after_envelope. reflexivity.
  - intros Hlife.
    apply (block_events_after_envelope JSON_stringify chunks no_open);
      [reflexivity | discriminate | assumption].
Qed.

Lemma envelope_open_once_witness :
  let fresh := Anthropic.createChunkConversionContext "msg_1" "claude" in
  (exists rest,
     Anthropic.anthropicChunkFromAiSDK JSONRef.JSON_stringify
       (ToolCall "call_0" "now" (JObject [])) fresh
     = (Anthropic.events (Anthropic.createMessageStartEvent fresh :: rest),
        snd (Anthropic.anthropicChunkFromAiSDK JSONRef.JSON_stringify
               (ToolCall "call_0" "now" (JObject [])) fresh)))
  /\ envelope_first is_block_event false
       (Anthropic.emitted JSONRef.JSON_stringify
          [ToolInputStart "call_1" "get_weather"; ToolInputDelta "call_1" "{}";
           ToolInputEnd "call_1"; Finish "tool-calls" (mkUsage None None None)]
          fresh) = true.
Proof.
  destruct (envelope_open_once JSONRef.JSON_stringify "msg_1" "claude"
              [ToolInputStart "call_1" "get_weather"; ToolInputDelta "call_1" "{}";
               ToolInputEnd "call_1"; Finish "tool-calls" (mkUsage None None None)])
    as (_ & Hfirst & _ & Hlife).
  split.
  - apply Hfirst; reflexivity.
  - apply Hlife. reflexivity.
Defined.

(** ** Adapter A: content-block indices *)

Section BlockIndices.
Variable JSON_stringify : json -> string.

Local Abbreviation emitted := (Anthropic.emitted JSON_stringify).






End BlockIndices.




(** ** Adapter B: tool-call indices *)

Section ToolCallIndex.
Variable JSON_stringify : json -> string.

Local Abbreviation stepB := (OpenAI.openaiChunkFromAiSDK JSON_stringify).
Local Abbreviation runB := (OpenAI.run JSON_stringify).

Lemma index_of_app_new id id' seen :
  index_of id seen = None ->
  index_of id' (seen ++ [id])
  = if String.eqb id id' then Some (length seen) else index_of id' seen.
Proof.
  induction seen as [|x seen IH]; cbn [index_of app length]; intros Hnew.
  - now destruct (String.eqb id id').
  - destruct (String.eqb x id) eqn:Hx; [discriminate|].
    destruct (index_of id seen) eqn:Hi; [discriminate|].
    rewrite (IH eq_refl).
    destruct (String.eqb x id') eqn:Hx'.
    + apply String.eqb_eq in Hx'. subst x. now rewrite String.eqb_sym, Hx.
    + now destruct (String.eqb id id').
Qed.

Lemma index_of_app_old id seen more k :
  index_of id seen = Some k -> index_of id (seen ++ more) = Some k.
Proof.
  revert k. induction seen as [|x seen IH]; cbn [index_of app]; intros k Hk;
    [discriminate|].
  destruct (String.eqb x id); [assumption|].
  destruct (index_of id seen) as [j|]; [|discriminate].
  now rewrite (IH j eq_refl).
Qed.

Lemma index_of_lookup id l k : index_of id l = Some k -> l !! k = Some id.
Proof.
  revert k. induction l as [|x l IH]; cbn [index_of]; intros k Hk; [discriminate|].
  destruct (String.eqb x id) eqn:Hx.
  - apply String.eqb_eq in Hx. now simplify_eq.
  - destruct (index_of id l) as [j|]; [|discriminate].
    cbn in Hk. simplify_eq. cbn. now apply IH.
Qed.

Lemma index_of_lt id l k : index_of id l = Some k -> k < length l.
Proof.
  revert k. induction l as [|x l IH]; cbn [index_of length]; intros k Hk;
    [discriminate|].
  destruct (String.eqb x id); [simplify_eq; lia|].
  destruct (index_of id l) as [j|]; [|discriminate].
  cbn in Hk. simplify_eq. specialize (IH j eq_refl). lia.
Qed.

Lemma numbered_step c seen ctx :
  numbered seen ctx ->
  numbered (first_appearance_from seen [c]) (snd (stepB c ctx)).
Proof.
  intros [Hnext Hmap].
  assert (Hassign : forall id,
    numbered (match index_of id seen with
              | Some _ => seen
              | None => seen ++ [id]
              end) (snd (OpenAI.getOrAssignIndex id ctx))).
  { intros id. unfold OpenAI.getOrAssignIndex. rewrite Hmap.
    destruct (index_of id seen) eqn:Hid; cbn; [now split|].
    split; cbn.
    - rewrite length_app. cbn. lia.
    - intros id'. rewrite index_of_app_new by assumption.
      destruct (String.eqb id id') eqn:E.
      + apply String.eqb_eq in E. subst id'. rewrite lookup_insert_eq. now rewrite Hnext.
      + apply String.eqb_neq in E. rewrite lookup_insert_ne by assumption. apply Hmap. }
  destruct c; cbn [first_appearance_from introduced_id OpenAI.openaiChunkFromAiSDK snd];
    try (split; assumption).
  - specialize (Hassign id).
    destruct (OpenAI.getOrAssignIndex id ctx); destruct (index_of id seen); exact Hassign.
  - destruct (OpenAI.toolCallIndices ctx !! id); split; assumption.
  - specialize (Hassign toolCallId).
    destruct (OpenAI.getOrAssignIndex toolCallId ctx); destruct (index_of toolCallId seen);
      exact Hassign.
Qed.

Lemma first_appearance_from_cons c rest seen :
  first_appearance_from seen (c :: rest)
  = first_appearance_from (first_appearance_from seen [c]) rest.
Proof.
  cbn [first_appearance_from].
  destruct (introduced_id c); [|reflexivity].
  now destruct (index_of s seen).
Qed.

Lemma numbered_run chunks : forall seen ctx,
  numbered seen ctx ->
  numbered (first_appearance_from seen chunks) (snd (runB chunks ctx)).
Proof.
  induction chunks as [|c rest IH]; intros seen ctx Hn; [exact Hn|].
  rewrite first_appearance_from_cons. cbn [OpenAI.run].
  pose proof (numbered_step c seen ctx Hn) as Hstep.
  destruct (stepB c ctx) as [r ctx1]. cbn [snd] in Hstep.
  specialize (IH _ _ Hstep).
  destruct (runB rest ctx1). exact IH.
Qed.

Lemma first_appearance_from_extends chunks : forall seen,
  exists more, first_appearance_from seen chunks = seen ++ more.
Proof.
  induction chunks as [|c rest IH]; intros seen.
  - exists []. now rewrite app_nil_r.
  - cbn [first_appearance_from].
    destruct (introduced_id c) as [id|]; [|apply IH].
    destruct (index_of id seen); [apply IH|].
    destruct (IH (seen ++ [id])) as [more ->].
    exists (id :: more). now rewrite <- app_assoc.
Qed.

Lemma first_appearance_from_app a b seen :
  first_appearance_from seen (a ++ b)
  = first_appearance_from (first_appearance_from seen a) b.
Proof.
  revert seen. induction a as [|c a IH]; intros seen; [reflexivity|].
  cbn [app first_appearance_from].
  destruct (introduced_id c) as [id|]; [|apply IH].
  destruct (index_of id seen); apply IH.
Qed.

Lemma run_app a b ctx :
  snd (runB (a ++ b) ctx) = snd (runB b (snd (runB a ctx))).
Proof.
  revert ctx. induction a as [|c a IH]; intros ctx; [reflexivity|].
  cbn [app OpenAI.run].
  destruct (stepB c ctx) as [r ctx1].
  specialize (IH ctx1).
  destruct (runB (a ++ b) ctx1), (runB a ctx1). cbn [snd] in *.
  exact IH.
Qed.

(** What a tool-input-delta reports on a numbered context. *)
Lemma delta_reports seen ctx id d :
  numbered seen ctx ->
  reported_index (fst (stepB (ToolInputDelta id d) ctx)) = index_of id seen.
Proof.
  intros [_ Hmap]. cbn [OpenAI.openaiChunkFromAiSDK]. rewrite Hmap.
  now destruct (index_of id seen).
Qed.

(** What a tool-input-start or a tool-call reports. *)
Lemma introduction_reports seen ctx c id :
  numbered seen ctx ->
  introduced_id c = Some id ->
  reported_index (fst (stepB c ctx)) = index_of id (first_appearance_from seen [c]).
Proof.
  intros [Hnext Hmap] Hc.
  destruct c; try discriminate Hc; cbn in Hc; simplify_eq;
    cbn [OpenAI.openaiChunkFromAiSDK first_appearance_from introduced_id];
    unfold OpenAI.getOrAssignIndex; rewrite Hmap;
    destruct (index_of id seen) eqn:Hid; cbn; rewrite ?Hid; try reflexivity;
    rewrite index_of_app_new, String.eqb_refl by assumption; now rewrite Hnext.
Qed.

Lemma numbered_fresh id model created now :
  numbered [] (OpenAI.createChunkConversionContext id model created now).
Proof. split; [reflexivity|]. intros tid. apply lookup_empty. Qed.

Lemma index_of_None id l : index_of id l = None -> id ∉ l.
Proof.
  induction l as [|x l IH]; cbn [index_of]; intros Hn; [apply not_elem_of_nil|].
  destruct (String.eqb x id) eqn:Hx; [discriminate|].
  destruct (index_of id l); [discriminate|].
  apply String.eqb_neq in Hx.
  apply not_elem_of_cons. split; [congruence | now apply IH].
Qed.

Lemma index_of_elem id l : id ∈ l -> exists k, index_of id l = Some k.
Proof.
  destruct (index_of id l) as [k|] eqn:Hk; [now exists k|].
  intros Hin. now apply index_of_None in Hk.
Qed.

Lemma first_appearance_from_NoDup chunks : forall seen,
  NoDup seen -> NoDup (first_appearance_from seen chunks).
Proof.
  induction chunks as [|c rest IH]; intros seen Hnd; [exact Hnd|].
  cbn [first_appearance_from].
  destruct (introduced_id c) as [id|]; [|now apply IH].
  destruct (index_of id seen) eqn:Hid; [now apply IH|].
  apply IH. apply NoDup_app. split; [exact Hnd|]. split.
  - intros x Hx ->%list_elem_of_singleton. now apply index_of_None in Hid.
  - apply NoDup_singleton.
Qed.

Lemma index_of_position id l k :
  NoDup l -> (index_of id l = Some k <-> l !! k = Some id).
Proof.
  intros Hnd. split; [apply index_of_lookup|].
  intros Hk.
  destruct (index_of_elem id l) as [j Hj]; [now apply list_elem_of_lookup_2 in Hk|].
  rewrite Hj. f_equal.
  apply index_of_lookup in Hj. exact (NoDup_lookup l j k id Hnd Hj Hk).
Qed.

End ToolCallIndex.

(** C5. On one context of adapter B, built fresh and driven through any
    chunks: a tool-input-delta reports the position of its id among the ids in
    order of first appearance (by tool-input-start or tool-call), so the
    distinct ids have the indices 0, 1, 2, ...; a later tool-input-delta with the
    same id reports the same index, whatever came in between; and a
    tool-input-start or tool-call itself reports that position. *)
Theorem tool_call_index_stable
    (JSON_stringify : json -> string) (id model : string) (created : option Z) (now : Z)
    (chunks more : list AiSDKChunk) (tid d d' : string) :
  let fresh := OpenAI.createChunkConversionContext id model created now in
  let ctx := snd (OpenAI.run JSON_stringify chunks fresh) in
  let later := snd (OpenAI.run JSON_stringify (chunks ++ more) fresh) in
  let ids := first_appearance chunks in
  let step := OpenAI.openaiChunkFromAiSDK JSON_stringify in
  reported_index (fst (step (ToolInputDelta tid d) ctx)) = index_of tid ids
  /\ (forall k, index_of tid ids = Some k <-> ids !! k = Some tid)
  /\ OpenAI.nextToolCallIndex ctx = length ids
  /\ (forall k,
        reported_index (fst (step (ToolInputDelta tid d) ctx)) = Some k ->
        reported_index (fst (step (ToolInputDelta tid d') later)) = Some k)
  /\ (forall c,
        introduced_id c = Some tid ->
        reported_index (fst (step c ctx))
        = index_of tid (first_appearance (chunks ++ [c]))).
Proof.
  intros fresh ctx later ids step.
  assert (Hctx : numbered ids ctx).
  { apply numbered_run. apply numbered_fresh. }
  assert (Hlater : numbered (first_appearance (chunks ++ more)) later).
  { apply numbered_run. apply numbered_fresh. }
  split; [|split; [|split; [|split]]].
  - now apply delta_reports.
  - intros k. apply index_of_position.
    apply first_appearance_from_NoDup. constructor.
  - apply Hctx.
  - intros k Hk. subst step.
    rewrite (delta_reports JSON_stringify ids ctx tid d Hctx) in Hk.
    rewrite (delta_reports JSON_stringify _ later tid d' Hlater).
    unfold first_appearance. rewrite first_appearance_from_app.
    destruct (first_appearance_from_extends more (first_appearance_from [] chunks))
      as [ext ->].
    now apply index_of_app_old.
  - intros c Hc. subst step.
    rewrite (introduction_reports JSON_stringify ids ctx c tid Hctx Hc).
    unfold first_appearance. now rewrite first_appearance_from_app.
Qed.

Lemma tool_call_index_stable_witness :
  let fresh := OpenAI.createChunkConversionContext "chatcmpl-1" "gpt" (Some 1700000000%Z) 0 in
  let chunks := [ToolInputStart "call_1" "get_weather"; ToolInputDelta "call_1" "{";
                 ToolCall "call_2" "get_time" (JObject [])] in
  let more := [ToolInputStart "call_3" "f"; ToolInputStart "call_1" "get_weather"] in
  reported_index
    (fst (OpenAI.openaiChunkFromAiSDK JSONRef.JSON_stringify
            (ToolInputDelta "call_2" "}")
            (snd (OpenAI.run JSONRef.JSON_stringify (chunks ++ more) fresh))))
  = Some 1
  /\ first_appearance chunks !! 1 = Some "call_2"
  /\ reported_index
       (fst (OpenAI.openaiChunkFromAiSDK JSONRef.JSON_stringify
               (ToolInputStart "call_2" "get_time")
               (snd (OpenAI.run JSONRef.JSON_stringify chunks fresh))))
     = index_of "call_2" (first_appearance (chunks ++ [ToolInputStart "call_2" "get_time"])).
Proof.
  destruct (tool_call_index_stable JSONRef.JSON_stringify "chatcmpl-1" "gpt"
              (Some 1700000000%Z) 0
              [ToolInputStart "call_1" "get_weather"; ToolInputDelta "call_1" "{";
               ToolCall "call_2" "get_time" (JObject [])]
              [ToolInputStart "call_3" "f"; ToolInputStart "call_1" "get_weather"]
              "call_2" "{" "}") as (_ & Hpos & _ & Hsame & Hintro).
  split; [|split].
  - apply (Hsame 1). reflexivity.
  - apply (Hpos 1). reflexivity.
  - apply Hintro. reflexivity.
Defined.

(** ** Adapter C: snapshot construction *)

Section Snapshot.
Variable JSON_parse : string -> option json.
Variable JSON_stringify : json -> string.

Local Abbreviation stepC := (Google.googleChunkFromAiSDK JSON_parse JSON_stringify).
Local Abbreviation runC := (Google.run JSON_parse JSON_stringify).
Local Abbreviation buildContent := (Google.buildContent JSON_parse).

(** The loop of [buildContent] pushes one part per entry, in order. *)
Lemma push_loop (calls : list (string * Google.FunctionCallAcc)) : forall parts,
  fold_left
    (fun parts '(id, funcCall) =>
       parts ++ [Google.functionCall_part id (Google.name funcCall)
                   (Google.parseArgs JSON_parse (Google.args funcCall))])
    calls parts
  = parts ++ map (fun entry =>
                    Google.functionCall_part (fst entry) (Google.name (snd entry))
                      (Google.parseArgs JSON_parse (Google.args (snd entry))))
                 calls.
Proof.
  induction calls as [|[id fc] calls IH]; intros parts; cbn [fold_left map].
  - now rewrite app_nil_r.
  - rewrite IH, <- app_assoc. reflexivity.
Qed.

Lemma parseArgs_spec argsText :
  JSON_parse "" = None ->
  Google.parseArgs JSON_parse argsText = parsed_or_empty JSON_parse argsText.
Proof.
  intros Hempty. unfold Google.parseArgs, parsed_or_empty, truthy.
  destruct (String.eqb argsText "") eqn:E; [|reflexivity].
  apply String.eqb_eq in E. subst argsText. now rewrite Hempty.
Qed.

Lemma buildContent_parts ctx :
  Google.parts (buildContent ctx)
  = match (if truthy (Google.accumulatedText ctx)
           then [Google.text_part (Google.accumulatedText ctx)] else [])
          ++ map (fun entry =>
                    Google.functionCall_part (fst entry) (Google.name (snd entry))
                      (Google.parseArgs JSON_parse (Google.args (snd entry))))
                 (Google.accumulatedFunctionCalls ctx)
    with
    | [] => [Google.text_part ""]
    | ps => ps
    end.
Proof.
  unfold Google.buildContent. cbn [Google.parts]. rewrite push_loop.
  destruct (truthy (Google.accumulatedText ctx)); cbn [app]; [reflexivity|].
  now destruct (Google.accumulatedFunctionCalls ctx).
Qed.

Lemma buildContent_spec ctx :
  JSON_parse "" = None ->
  buildContent ctx
  = Google.mkContent "model"
      (snapshot_parts_spec JSON_parse (Google.accumulatedText ctx)
         (Google.accumulatedFunctionCalls ctx)).
Proof.
  intros Hempty.
  pose proof (buildContent_parts ctx) as Hparts.
  unfold Google.buildContent in *. cbn [Google.parts] in Hparts. rewrite Hparts.
  f_equal. unfold snapshot_parts_spec, truthy.
  destruct (String.eqb (Google.accumulatedText ctx) ""); cbn [negb];
    (erewrite map_ext; [reflexivity|]); intros [id fc]; cbn [fst snd];
    now rewrite parseArgs_spec.
Qed.

Lemma buildContent_nonempty ctx : Google.parts (buildContent ctx) <> [].
Proof.
  rewrite buildContent_parts.
  destruct (truthy (Google.accumulatedText ctx)); cbn [app]; [discriminate|].
  destruct (Google.accumulatedFunctionCalls ctx); discriminate.
Qed.

(** Every snapshot carries the content built from the context the call leaves. *)
Lemma snapshot_content c ctx r ctx' :
  stepC c ctx = (Google.response r, ctx') ->
  exists fr, Google.candidates r = [Google.mkCandidate (buildContent ctx') fr].
Proof.
  destruct c; cbn [Google.googleChunkFromAiSDK]; repeat case_match;
    intros [= <- <-]; eexists; reflexivity.
Qed.

(** Iteration order is insertion order: the keys of the accumulated map are the
    ids in order of first appearance. *)
Lemma map_set_keys {V : Type} (k : string) (v : V) (m : list (string * V)) :
  map fst (Google.map_set k v m)
  = match index_of k (map fst m) with
    | Some _ => map fst m
    | None => map fst m ++ [k]
    end.
Proof.
  induction m as [|[k' v'] m IH]; cbn [Google.map_set map fst index_of app];
    [reflexivity|].
  destruct (String.eqb k' k); cbn [map fst]; [reflexivity|].
  rewrite IH. now destruct (index_of k (map fst m)).
Qed.

Lemma map_get_keys {V : Type} (k : string) (m : list (string * V)) :
  is_Some (Google.map_get k m) <-> is_Some (index_of k (map fst m)).
Proof.
  induction m as [|[k' v'] m IH]; cbn [Google.map_get map fst index_of].
  - split; intros [? ?]; discriminate.
  - destruct (String.eqb k' k); [split; eauto|].
    rewrite IH. destruct (index_of k (map fst m)); cbn; split; intros [? ?]; eauto;
      discriminate.
Qed.

Lemma keys_step c seen ctx :
  map fst (Google.accumulatedFunctionCalls ctx) = seen ->
  map fst (Google.accumulatedFunctionCalls (snd (stepC c ctx)))
  = first_appearance_from seen [c].
Proof.
  intros <-.
  destruct c; cbn [Google.googleChunkFromAiSDK snd first_appearance_from introduced_id
                   Google.accumulatedFunctionCalls Google.set_accumulatedFunctionCalls
                   Google.set_accumulatedText];
    try reflexivity.
  - rewrite map_set_keys. now destruct (index_of id _).
  - destruct (Google.map_get id (Google.accumulatedFunctionCalls ctx)) eqn:Hget;
      [|reflexivity].
    cbn [snd Google.accumulatedFunctionCalls Google.set_accumulatedFunctionCalls].
    rewrite map_set_keys.
    destruct (proj1 (map_get_keys id (Google.accumulatedFunctionCalls ctx))) as [k ->];
      [rewrite Hget; eauto | reflexivity].
  - rewrite map_set_keys. now destruct (index_of toolCallId _).
  - now destruct (AiSDK.inputTokens usage), (AiSDK.outputTokens usage).
Qed.

Lemma keys_run chunks : forall seen ctx,
  map fst (Google.accumulatedFunctionCalls ctx) = seen ->
  map fst (Google.accumulatedFunctionCalls (snd (runC chunks ctx)))
  = first_appearance_from seen chunks.
Proof.
  induction chunks as [|c rest IH]; intros seen ctx Hk; [exact Hk|].
  rewrite first_appearance_from_cons. cbn [Google.run].
  pose proof (keys_step c seen ctx Hk) as Hstep.
  destruct (stepC c ctx) as [r ctx1]. cbn [snd] in Hstep.
  specialize (IH _ _ Hstep).
  destruct (runC rest ctx1). exact IH.
Qed.

End Snapshot.

(** C8. Every snapshot of adapter C carries the content built from the context
    the call leaves: role "model", and as parts one text part with the whole
    accumulated text exactly when that text is non-empty, then one
    function-call part per entry of the accumulated map in insertion order (the
    ids in order of first appearance), each with the id, the name and the args
    text parsed as JSON, the empty object standing in when parsing fails; with
    no text and no entries the parts are one empty text part, so the parts are
    never empty. *)
Theorem snapshot_content_shape
    (JSON_parse : string -> option json) (JSON_stringify : json -> string) :
  JSON_parse "" = None ->
  (forall c ctx r ctx',
     Google.googleChunkFromAiSDK JSON_parse JSON_stringify c ctx
     = (Google.response r, ctx') ->
     exists fr,
       Google.candidates r = [Google.mkCandidate (Google.buildContent JSON_parse ctx') fr])
  /\ (forall ctx,
        Google.buildContent JSON_parse ctx
        = Google.mkContent "model"
            (snapshot_parts_spec JSON_parse (Google.accumulatedText ctx)
               (Google.accumulatedFunctionCalls ctx))
        /\ Google.parts (Google.buildContent JSON_parse ctx) <> [])
  /\ (forall responseId modelVersion,
        Google.parts
          (Google.buildContent JSON_parse
             (Google.createChunkConversionContext responseId modelVersion))
        = [Google.text_part ""])
  /\ (forall chunks responseId modelVersion,
        map fst
          (Google.accumulatedFunctionCalls
             (snd (Google.run JSON_parse JSON_stringify chunks
                     (Google.createChunkConversionContext responseId modelVersion))))
        = first_appearance chunks).
Proof.
  intros Hempty. split; [|split; [|split]].
  - apply snapshot_content.
  - intros ctx. split; [now apply buildContent_spec | apply buildContent_nonempty].
  - reflexivity.
  - intros chunks responseId modelVersion. now apply keys_run.
Qed.

Lemma snapshot_content_shape_witness :
  let chunks :=
    [TextDelta "t1" "Hi"; ToolInputStart "call_1" "search";
     ToolInputDelta "call_1" "[1,"; ToolCall "call_2" "now" (JObject []);
     ToolInputDelta "call_1" "true]"] in
  let ctx :=
    snd (Google.run JSONRef.JSON_parse JSONRef.JSON_stringify chunks
           (Google.createChunkConversionContext "resp-1" "gemini")) in
  Google.buildContent JSONRef.JSON_parse ctx
  = Google.mkContent "model"
      [Google.text_part "Hi";
       Google.functionCall_part "call_1" "search" (JArray [JNumber 1 0; JBool true]);
       Google.functionCall_part "call_2" "now" (JObject [])]
  /\ exists fr,
       Google.candidates (Google.buildIncrementalResponse JSONRef.JSON_parse ctx)
       = [Google.mkCandidate (Google.buildContent JSONRef.JSON_parse ctx) fr].
Proof.
  destruct (snapshot_content_shape JSONRef.JSON_parse JSONRef.JSON_stringify eq_refl)
    as (Hsnap & Hbuild & _ & _).
  split.
  - destruct (Hbuild
                (snd (Google.run JSONRef.JSON_parse JSONRef.JSON_stringify
                        [TextDelta "t1" "Hi"; ToolInputStart "call_1" "search";
                         ToolInputDelta "call_1" "[1,";
                         ToolCall "call_2" "now" (JObject []);
                         ToolInputDelta "call_1" "true]"]
                        (Google.createChunkConversionContext "resp-1" "gemini"))))
      as [-> _].
    reflexivity.
  - apply (Hsnap (ToolInputEnd "call_1")
             (snd (Google.run JSONRef.JSON_parse JSONRef.JSON_stringify
                     [TextDelta "t1" "Hi"; ToolInputStart "call_1" "search";
                      ToolInputDelta "call_1" "[1,";
                      ToolCall "call_2" "now" (JObject []);
                      ToolInputDelta "call_1" "true]"]
                     (Google.createChunkConversionContext "resp-1" "gemini")))).
    reflexivity.
Defined.

(** ** Adapter C: accumulation *)

Lemma prefix_refl s : is_prefix s s = true.
Proof.
  induction s as [|a s IH]; [reflexivity|].
  cbn [is_prefix]. now rewrite Ascii.eqb_refl.
Qed.

Lemma append_cons a s t : String a s +:+ t = String a (s +:+ t).
Proof. reflexivity. Qed.

Lemma prefix_append s t : is_prefix s (s +:+ t) = true.
Proof.
  induction s as [|a s IH]; [reflexivity|].
  rewrite append_cons. cbn [is_prefix]. now rewrite Ascii.eqb_refl.
Qed.

Lemma prefix_trans a b c :
  is_prefix a b = true -> is_prefix b c = true -> is_prefix a c = true.
Proof.
  revert b c. induction a as [|x a IH]; intros b c Hab Hbc; [reflexivity|].
  destruct b as [|y b]; [discriminate|]. destruct c as [|z c]; [discriminate|].
  cbn [is_prefix] in *.
  apply andb_prop in Hab as [Hxy Hab]. apply andb_prop in Hbc as [Hyz Hbc].
  apply Ascii.eqb_eq in Hxy, Hyz. subst. rewrite Ascii.eqb_refl.
  eapply IH; eassumption.
Qed.

Lemma append_assoc a b c : (a +:+ b) +:+ c = a +:+ (b +:+ c).
Proof.
  induction a as [|x a IH]; [reflexivity|]. now rewrite !append_cons, IH.
Qed.

Lemma append_empty_r s : s +:+ "" = s.
Proof.
  induction s as [|a s IH]; [reflexivity|]. now rewrite append_cons, IH.
Qed.

Section Accumulation.
Variable JSON_parse : string -> option json.
Variable JSON_stringify : json -> string.

Local Abbreviation stepC := (Google.googleChunkFromAiSDK JSON_parse JSON_stringify).
Local Abbreviation runC := (Google.run JSON_parse JSON_stringify).
Local Abbreviation buildContent := (Google.buildContent JSON_parse).

Lemma call_parts_text (calls : list (string * Google.FunctionCallAcc)) :
  fold_right String.append ""
    (map part_text
       (map (fun entry =>
               Google.functionCall_part (fst entry) (Google.name (snd entry))
                 (Google.parseArgs JSON_parse (Google.args (snd entry))))
            calls)) = "".
Proof. induction calls as [|e calls IH]; cbn; [reflexivity | exact IH]. Qed.

(** A snapshot shows the accumulated text, whole. *)
Lemma content_text_buildContent ctx :
  content_text (buildContent ctx) = Google.accumulatedText ctx.
Proof.
  unfold content_text. rewrite buildContent_parts. unfold truthy.
  destruct (String.eqb (Google.accumulatedText ctx) "") eqn:E; cbn [negb app].
  - apply String.eqb_eq in E. rewrite E.
    destruct (Google.accumulatedFunctionCalls ctx) as [|e calls]; [reflexivity|].
    exact (call_parts_text (e :: calls)).
  - cbn [map part_text fold_right]. rewrite call_parts_text. apply append_empty_r.
Qed.

(** One call extends the accumulated text, and a snapshot it returns shows the
    text it leaves. *)
Lemma step_text c ctx :
  is_prefix (Google.accumulatedText ctx)
                (Google.accumulatedText (snd (stepC c ctx))) = true
  /\ (forall r, fst (stepC c ctx) = Google.response r ->
                snapshot_text r = Google.accumulatedText (snd (stepC c ctx))).
Proof.
  destruct c; cbn [Google.googleChunkFromAiSDK]; repeat case_match;
    cbn [fst snd Google.accumulatedText Google.set_accumulatedText
         Google.set_accumulatedFunctionCalls Google.set_inputTokens
         Google.set_outputTokens];
    (split; [first [apply prefix_refl | apply prefix_append]|]);
    intros r [= <-];
    cbn [snapshot_text Google.candidates Google.buildIncrementalResponse
         Google.buildFinalResponse Google.content];
    now rewrite content_text_buildContent.
Qed.

Lemma texts_chain chunks : forall ctx,
  let texts := map snapshot_text (snapshots (fst (runC chunks ctx))) in
  prefix_chain texts = true
  /\ Forall (fun t => is_prefix (Google.accumulatedText ctx) t = true) texts.
Proof.
  induction chunks as [|c rest IH]; intros ctx; [split; [reflexivity | constructor]|].
  cbn [Google.run].
  destruct (step_text c ctx) as [Hext Hshow].
  destruct (stepC c ctx) as [r ctx1]. cbn [fst snd] in *.
  destruct (IH ctx1) as [Hchain Hall].
  destruct (runC rest ctx1) as [rs ctx2]. cbn [fst] in *.
  assert (Hall' : Forall (fun t => is_prefix (Google.accumulatedText ctx) t = true)
                         (map snapshot_text (snapshots rs))).
  { eapply Forall_impl; [exact Hall|]. intros t Ht. cbn in Ht.
    eapply prefix_trans; eassumption. }
  destruct r as [resp| |msg]; cbn [snapshots map]; try (split; assumption).
  rewrite (Hshow resp eq_refl). split.
  - destruct (map snapshot_text (snapshots rs)) as [|b l] eqn:El; [reflexivity|].
    cbn [prefix_chain]. apply andb_true_intro. split; [|exact Hchain].
    now inversion Hall.
  - constructor; [exact Hext | exact Hall'].
Qed.

(** What the map holds for an id follows the history of that id. *)
Lemma held_step id c ctx :
  held_of <$> Google.map_get id (Google.accumulatedFunctionCalls (snd (stepC c ctx)))
  = held_for JSON_stringify id [c]
      (held_of <$> Google.map_get id (Google.accumulatedFunctionCalls ctx)).
Proof.
  destruct c; cbn [Google.googleChunkFromAiSDK held_for]; repeat case_match;
    cbn [snd Google.accumulatedFunctionCalls Google.set_accumulatedFunctionCalls
         Google.set_accumulatedText Google.set_inputTokens Google.set_outputTokens];
    rewrite ?map_get_set;
    repeat match goal with
           | H : String.eqb _ _ = true |- _ => apply String.eqb_eq in H; subst
           | H : String.eqb ?a ?b = false |- _ => rewrite H
           | H : Google.map_get _ _ = _ |- _ => rewrite H
           end;
    rewrite ?String.eqb_refl; try reflexivity.
Qed.

Lemma held_for_cons id c rest held :
  held_for JSON_stringify id (c :: rest) held
  = held_for JSON_stringify id rest (held_for JSON_stringify id [c] held).
Proof. reflexivity. Qed.

Lemma held_run id chunks : forall ctx,
  held_of <$> Google.map_get id
                (Google.accumulatedFunctionCalls (snd (runC chunks ctx)))
  = held_for JSON_stringify id chunks
      (held_of <$> Google.map_get id (Google.accumulatedFunctionCalls ctx)).
Proof.
  induction chunks as [|c rest IH]; intros ctx; [reflexivity|].
  rewrite held_for_cons, <- held_step. cbn [Google.run].
  destruct (stepC c ctx) as [r ctx1]. cbn [snd].
  specialize (IH ctx1). destruct (runC rest ctx1). exact IH.
Qed.

Lemma map_get_In {V : Type} (k : string) (v : V) (m : list (string * V)) :
  Google.map_get k m = Some v -> In (k, v) m.
Proof.
  induction m as [|[k' v'] m IH]; cbn [Google.map_get]; [discriminate|].
  destruct (String.eqb k' k) eqn:E.
  - apply String.eqb_eq in E. intros [= ->]. subst. now left.
  - intros H. right. now apply IH.
Qed.

(** The snapshot of a tool-input-end shows the held text of the id, parsed. *)
Lemma end_snapshot_part id ctx n a :
  held_of <$> Google.map_get id (Google.accumulatedFunctionCalls ctx) = Some (n, a) ->
  In (Google.functionCall_part id n (Google.parseArgs JSON_parse a))
     (Google.parts (buildContent ctx)).
Proof.
  destruct (Google.map_get id (Google.accumulatedFunctionCalls ctx)) as [fc|] eqn:Hget;
    [|discriminate].
  intros [= <- <-]. apply map_get_In in Hget.
  rewrite buildContent_parts.
  set (f := fun entry : string * Google.FunctionCallAcc =>
              Google.functionCall_part (fst entry) (Google.name (snd entry))
                (Google.parseArgs JSON_parse (Google.args (snd entry)))).
  assert (Hin : In (f (id, fc)) (map f (Google.accumulatedFunctionCalls ctx)))
    by now apply in_map.
  destruct (truthy (Google.accumulatedText ctx)); cbn [app].
  - right. exact Hin.
  - destruct (map f (Google.accumulatedFunctionCalls ctx)); [destruct Hin | exact Hin].
Qed.

Lemma held_for_app id a b held :
  held_for JSON_stringify id (a ++ b) held
  = held_for JSON_stringify id b (held_for JSON_stringify id a held).
Proof.
  revert held. induction a as [|c a IH]; intros held; [reflexivity|].
  cbn [app held_for]. apply IH.
Qed.

(** Without a new introduction, the held text grows by the deltas of the id. *)
Lemma held_for_deltas id post : forall n a,
  never_introduced id post = true ->
  held_for JSON_stringify id post (Some (n, a)) = Some (n, a +:+ deltas_for id post).
Proof.
  induction post as [|c post IH]; intros n a Hn.
  - cbn. now rewrite append_empty_r.
  - cbn [never_introduced forallb] in Hn. apply andb_prop in Hn as [Hc Hn].
    apply negb_true_iff in Hc.
    destruct c; cbn [held_for deltas_for introduces] in *;
      try (now apply IH); try (rewrite Hc; now apply IH).
    destruct (String.eqb id0 id); [|now apply IH].
    cbn [option_map fst snd]. rewrite (IH n (a +:+ delta) Hn).
    now rewrite append_assoc.
Qed.

Lemma deltas_for_app id a b :
  deltas_for id (a ++ b) = deltas_for id a +:+ deltas_for id b.
Proof.
  induction a as [|c a IH]; [reflexivity|].
  destruct c; cbn [app deltas_for]; try exact IH.
  destruct (String.eqb id0 id); [|exact IH].
  now rewrite IH, append_assoc.
Qed.

Lemma deltas_for_none id pre : no_delta_for id pre = true -> deltas_for id pre = "".
Proof.
  induction pre as [|c pre IH]; [reflexivity|].
  cbn [no_delta_for forallb]. intros [Hc Hn]%andb_prop.
  destruct c; cbn [deltas_for]; try (now apply IH).
  apply negb_true_iff in Hc. rewrite Hc. now apply IH.
Qed.

End Accumulation.

(** C4 fails as stated.  When an id is started again after its end, the
    snapshot of the second tool-input-end shows only the fragments sent since
    the second start ("2", parsed 2), not the concatenation of all fragments
    sent for the id ("12", parsed 12); and when no fragment was sent the args
    are the empty object although the empty concatenation does not parse. *)
Lemma snapshot_args_counterexample :
  let fresh := Google.createChunkConversionContext "resp-1" "gemini" in
  let chunks :=
    [ToolInputStart "a" "f"; ToolInputDelta "a" "1"; ToolInputEnd "a";
     ToolInputStart "a" "f"; ToolInputDelta "a" "2"] in
  let ctx := snd (Google.run JSONRef.JSON_parse JSONRef.JSON_stringify chunks fresh) in
  (exists r,
     Google.googleChunkFromAiSDK JSONRef.JSON_parse JSONRef.JSON_stringify
       (ToolInputEnd "a") ctx = (Google.response r, ctx)
     /\ snapshot_parts r = [Google.functionCall_part "a" "f" (JNumber 2 0)])
  /\ deltas_for "a" chunks = "12"
  /\ JSONRef.JSON_parse (deltas_for "a" chunks) = Some (JNumber 12 0)
  /\ (exists r,
        Google.googleChunkFromAiSDK JSONRef.JSON_parse JSONRef.JSON_stringify
          (ToolInputEnd "b")
          (snd (Google.run JSONRef.JSON_parse JSONRef.JSON_stringify
                  [ToolInputStart "b" "g"] fresh))
        = (Google.response r,
           snd (Google.run JSONRef.JSON_parse JSONRef.JSON_stringify
                  [ToolInputStart "b" "g"] fresh))
        /\ snapshot_parts r = [Google.functionCall_part "b" "g" (JObject [])])
  /\ JSONRef.JSON_parse (deltas_for "b" [ToolInputStart "b" "g"]) = None
  /\ JNumber 2 0 <> JNumber 12 0.
Proof.
  repeat split; try discriminate; eexists; split; reflexivity.
Qed.

(** C4, amended. For adapter C, across any sequence of calls on one context,
    the text shown by each emitted snapshot is a prefix of the text shown by
    the next.  The snapshot emitted on tool-input-end for an id carries a
    function-call part with the id, its name and the args obtained from the
    text held for the id: the empty string at its latest tool-input-start (the
    serialized input at its latest tool-call) followed by the tool-input-delta
    fragments sent for it since; the args are the JSON-parse of that text, and
    the empty object when the text is empty or does not parse.  Hence, for an
    id that has one tool-input-start, no fragment before it and no tool-call or
    second start after it, the text is the exact concatenation of all fragments
    sent for the id. *)
Theorem snapshot_accumulation
    (JSON_parse : string -> option json) (JSON_stringify : json -> string)
    (responseId modelVersion : string) (chunks : list AiSDKChunk) (id : string) :
  let fresh := Google.createChunkConversionContext responseId modelVersion in
  let results := fst (Google.run JSON_parse JSON_stringify chunks fresh) in
  let ctx := snd (Google.run JSON_parse JSON_stringify chunks fresh) in
  let step := Google.googleChunkFromAiSDK JSON_parse JSON_stringify in
  prefix_chain (map snapshot_text (snapshots results)) = true
  /\ (exists r,
        step (ToolInputEnd id) ctx = (Google.response r, ctx)
        /\ forall toolName text,
             held_for JSON_stringify id chunks None = Some (toolName, text) ->
             In (Google.functionCall_part id toolName (Google.parseArgs JSON_parse text))
                (snapshot_parts r))
  /\ (forall text v,
        text <> "" -> JSON_parse text = Some v -> Google.parseArgs JSON_parse text = v)
  /\ (forall text,
        text = "" \/ JSON_parse text = None ->
        Google.parseArgs JSON_parse text = empty_object)
  /\ (forall toolName pre post,
        chunks = pre ++ ToolInputStart id toolName :: post ->
        no_delta_for id pre = true ->
        never_introduced id post = true ->
        held_for JSON_stringify id chunks None = Some (toolName, deltas_for id chunks)).
Proof.
  intros fresh results ctx step. split; [|split; [|split; [|split]]].
  - apply (texts_chain JSON_parse JSON_stringify chunks fresh).
  - eexists. split; [reflexivity|].
    intros toolName text Hheld.
    cbn [snapshot_parts Google.candidates Google.buildIncrementalResponse Google.content].
    apply end_snapshot_part.
    subst ctx. rewrite held_run. exact Hheld.
  - intros text v Hne Hv. unfold Google.parseArgs, truthy.
    apply String.eqb_neq in Hne. now rewrite Hne, Hv.
  - intros text [-> | Hnone]; unfold Google.parseArgs, truthy; [reflexivity|].
    rewrite Hnone. now destruct (negb (String.eqb text "")).
  - intros toolName pre post -> Hpre Hpost.
    rewrite held_for_app. cbn [held_for]. rewrite String.eqb_refl.
    rewrite (held_for_deltas JSON_stringify id post toolName "" Hpost).
    rewrite deltas_for_app, (deltas_for_none id pre Hpre).
    reflexivity.
Qed.

Lemma snapshot_accumulation_witness :
  let chunks :=
    [TextDelta "t1" "Looking"; ToolCall "call_0" "now" (JObject []);
     ToolInputStart "call_1" "get_weather";
     ToolInputDelta "call_1" "[37.77,";
     TextDelta "t1" " up"; ToolInputDelta "call_1" " -122.4]"] in
  let ctx :=
    snd (Google.run JSONRef.JSON_parse JSONRef.JSON_stringify chunks
           (Google.createChunkConversionContext "resp-1" "gemini")) in
  held_for JSONRef.JSON_stringify "call_1" chunks None
  = Some ("get_weather", deltas_for "call_1" chunks)
  /\ Google.parseArgs JSONRef.JSON_parse (deltas_for "call_1" chunks)
     = JArray [JNumber 3777 (-2); JNumber (-1224) (-1)]
  /\ Google.parseArgs JSONRef.JSON_parse "[37.77," = empty_object
  /\ exists r,
       Google.googleChunkFromAiSDK JSONRef.JSON_parse JSONRef.JSON_stringify
         (ToolInputEnd "call_1") ctx = (Google.response r, ctx)
       /\ In (Google.functionCall_part "call_1" "get_weather"
                (Google.parseArgs JSONRef.JSON_parse (deltas_for "call_1" chunks)))
             (snapshot_parts r).
Proof.
  destruct (snapshot_accumulation JSONRef.JSON_parse JSONRef.JSON_stringify
              "resp-1" "gemini"
              [TextDelta "t1" "Looking"; ToolCall "call_0" "now" (JObject []);
               ToolInputStart "call_1" "get_weather";
               ToolInputDelta "call_1" "[37.77,";
               TextDelta "t1" " up"; ToolInputDelta "call_1" " -122.4]"]
              "call_1") as (_ & (r & Hr & Hpart) & Hparse & Hfail & Honce).
  split; [|split; [|split]].
  - apply (Honce "get_weather"
             [TextDelta "t1" "Looking"; ToolCall "call_0" "now" (JObject [])]
             [ToolInputDelta "call_1" "[37.77,";
              TextDelta "t1" " up"; ToolInputDelta "call_1" " -122.4]"]);
      reflexivity.
  - apply Hparse; [discriminate | reflexivity].
  - apply Hfail. right. reflexivity.
  - exists r. split; [exact Hr|]. apply Hpart. reflexivity.
Defined.

(** ** The identifiers of a context *)

Section Frame.
Variable JSON_parse : string -> option json.
Variable JSON_stringify : json -> string.

Local Abbreviation stepA := (Anthropic.anthropicChunkFromAiSDK JSON_stringify).
Local Abbreviation stepB := (OpenAI.openaiChunkFromAiSDK JSON_stringify).
Local Abbreviation stepC := (Google.googleChunkFromAiSDK JSON_parse JSON_stringify).

(** Adapter A leaves the identifiers of the context alone. *)
Lemma A_frame c a :
  Anthropic.ctx_id (snd (stepA c a)) = Anthropic.ctx_id a
  /\ Anthropic.ctx_model (snd (stepA c a)) = Anthropic.ctx_model a.
Proof. destruct c; step_cases; split; reflexivity. Qed.

(** Adapter B leaves id, model and creation time alone, and every chunk carries
    them: the time stamp of a chunk is the one fixed when the context was
    built. *)
Lemma B_frame c b :
  OpenAI.ctx_id (snd (stepB c b)) = OpenAI.ctx_id b
  /\ OpenAI.ctx_model (snd (stepB c b)) = OpenAI.ctx_model b
  /\ OpenAI.created (snd (stepB c b)) = OpenAI.created b
  /\ forall ch, fst (stepB c b) = OpenAI.chunk ch ->
       OpenAI.chunk_id ch = OpenAI.ctx_id b
       /\ OpenAI.chunk_model ch = OpenAI.ctx_model b
       /\ OpenAI.chunk_created ch = OpenAI.created b.
Proof.
  destruct c; step_cases;
    (split; [reflexivity | split; [reflexivity | split; [reflexivity |]]]);
    intros ch Hch; try discriminate Hch; injection Hch as <-; repeat split.
Qed.

(** Adapter C leaves the identifiers alone, and every snapshot carries them. *)
Lemma C_frame c g :
  Google.responseId (snd (stepC c g)) = Google.responseId g
  /\ Google.modelVersion (snd (stepC c g)) = Google.modelVersion g
  /\ forall r, fst (stepC c g) = Google.response r ->
       Google.resp_responseId r = Google.responseId g
       /\ Google.resp_modelVersion r = Google.modelVersion g.
Proof.
  destruct c; cbn [Google.googleChunkFromAiSDK]; repeat case_match;
    (split; [reflexivity | split; [reflexivity |]]);
    intros r Hr; try discriminate Hr; injection Hr as <-; repeat split.
Qed.

End Frame.

(** * Further properties of the adapters *)

(** ** Adapter A: counters and indices over any stream *)

Section BlockCounter.
Variable JSON_stringify : json -> string.

Local Abbreviation stepA := (Anthropic.anthropicChunkFromAiSDK JSON_stringify).
Local Abbreviation runA := (Anthropic.run JSON_stringify).
Local Abbreviation emitted := (Anthropic.emitted JSON_stringify).

Lemma A_run_cons c rest ctx :
  snd (runA (c :: rest) ctx) = snd (runA rest (snd (stepA c ctx))).
Proof.
  cbn [Anthropic.run]. destruct (stepA c ctx) as [r ctx1]. cbn [snd].
  now destruct (runA rest ctx1).
Qed.

Lemma count_if_app {A : Type} (p : A -> bool) (l1 l2 : list A) :
  count_if p (l1 ++ l2) = count_if p l1 + count_if p l2.
Proof.
  induction l1 as [|x l1 IH]; [reflexivity|].
  cbn [app count_if]. destruct (p x); cbn; now rewrite IH.
Qed.

(** One call raises the counter by the number of stops it emits. *)
Lemma step_counts_stops c ctx :
  Anthropic.contentBlockIndex (snd (stepA c ctx))
  = Anthropic.contentBlockIndex ctx
    + count_if is_block_stop (Anthropic.result_events (fst (stepA c ctx))).
Proof. destruct c; step_cases; lia. Qed.

Lemma run_counts_stops chunks : forall ctx,
  Anthropic.contentBlockIndex (snd (runA chunks ctx))
  = Anthropic.contentBlockIndex ctx + count_if is_block_stop (emitted chunks ctx).
Proof.
  induction chunks as [|c rest IH]; intros ctx.
  - cbn. lia.
  - rewrite A_run_cons, emitted_cons, count_if_app, IH, step_counts_stops. lia.
Qed.

Lemma indices_bounded_step c ctx :
  indices_bounded ctx -> indices_bounded (snd (stepA c ctx)).
Proof.
  intros Hb id i.
  destruct c; step_cases; intros Hi;
    try (apply Hb in Hi; lia);
    (destruct (decide (id0 = id)) as [->|Hne] || destruct (decide (toolCallId = id)) as [->|Hne]);
    first [ rewrite lookup_insert_eq in Hi; simplify_eq; lia
          | rewrite lookup_insert_ne in Hi by assumption; apply Hb in Hi; lia ].
Qed.

Lemma indices_follow_stops_emitted chunks : forall ctx closed,
  closed = Anthropic.contentBlockIndex ctx ->
  indices_bounded ctx ->
  indices_follow_stops closed (emitted chunks ctx) = true.
Proof.
  induction chunks as [|c rest IH]; intros ctx closed -> Hb; [reflexivity|].
  rewrite emitted_cons.
  pose proof (indices_bounded_step c ctx Hb) as Hb'.
  destruct c; step_cases;
    rewrite ?Nat.eqb_refl, ?Nat.leb_refl; cbn [andb];
    repeat match goal with
           | H : Anthropic.toolCallIndices _ !! _ = Some _ |- _ =>
               apply Hb in H; apply Nat.leb_le in H; rewrite H; clear H
           end;
    cbn [andb];
    (apply IH; [reflexivity | exact Hb']).
Qed.

Lemma indices_bounded_fresh id model :
  indices_bounded (Anthropic.createChunkConversionContext id model).
Proof. intros tid i Hi. cbn in Hi. now rewrite lookup_empty in Hi. Qed.

(** Every finish closes the envelope, and nothing else does. *)
Lemma envelope_pairs_emitted chunks : forall ctx,
  envelope_closed_in_pairs (emitted chunks ctx) = true
  /\ count_if is_message_stop (emitted chunks ctx) = count_if is_finish chunks.
Proof.
  induction chunks as [|c rest IH]; intros ctx; [split; reflexivity|].
  rewrite emitted_cons.
  destruct c; step_cases;
    match goal with
    | |- context [emitted rest ?c'] => destruct (IH c') as [Hp Hc]
    end;
    (split; [exact Hp | now rewrite ?Hc]).
Qed.

End BlockCounter.

(** X1. On a fresh context of adapter A, after any chunks, contentBlockIndex
    is the number of content_block_stop events emitted so far: every stop, and
    nothing else, raises the counter by one. *)
Theorem counter_counts_closed_blocks
    (JSON_stringify : json -> string) (id model : string) (chunks : list AiSDKChunk) :
  let fresh := Anthropic.createChunkConversionContext id model in
  Anthropic.contentBlockIndex (snd (Anthropic.run JSON_stringify chunks fresh))
  = count_if is_block_stop (Anthropic.emitted JSON_stringify chunks fresh).
Proof.
  intros fresh. now rewrite run_counts_stops.
Qed.

(** X2. On a fresh context of adapter A, for any chunks in any order (spans
    may overlap, ids may be unknown): every content_block_start carries as
    index the number of content_block_stop events emitted before it, and no
    content_block_delta or content_block_stop carries an index above that
    number. *)
Theorem block_indices_follow_stops
    (JSON_stringify : json -> string) (id model : string) (chunks : list AiSDKChunk) :
  indices_follow_stops 0
    (Anthropic.emitted JSON_stringify chunks
       (Anthropic.createChunkConversionContext id model)) = true.
Proof.
  apply indices_follow_stops_emitted; [reflexivity | apply indices_bounded_fresh].
Qed.

(** X3. For adapter A and any chunks on any context, every message_delta is
    directly followed by message_stop, message_stop stands nowhere else, and
    the number of message_stop events is the number of finish chunks: the
    envelope is closed once per finish, also when finish arrives twice. *)
Theorem envelope_closed_per_finish
    (JSON_stringify : json -> string) (chunks : list AiSDKChunk)
    (ctx : Anthropic.ChunkConversionContext) :
  envelope_closed_in_pairs (Anthropic.emitted JSON_stringify chunks ctx) = true
  /\ count_if is_message_stop (Anthropic.emitted JSON_stringify chunks ctx)
     = count_if is_finish chunks.
Proof. apply envelope_pairs_emitted. Qed.

(** ** Usage counters of adapters A and C *)

Section UsageTracking.
Variable JSON_parse : string -> option json.
Variable JSON_stringify : json -> string.

Local Abbreviation stepA := (Anthropic.anthropicChunkFromAiSDK JSON_stringify).
Local Abbreviation runA := (Anthropic.run JSON_stringify).
Local Abbreviation stepC := (Google.googleChunkFromAiSDK JSON_parse JSON_stringify).
Local Abbreviation runC := (Google.run JSON_parse JSON_stringify).

Lemma A_step_usage c ctx :
  Anthropic.inputTokens (snd (stepA c ctx))
  = last_defined AiSDK.inputTokens [c] (Anthropic.inputTokens ctx)
  /\ Anthropic.outputTokens (snd (stepA c ctx))
     = last_defined AiSDK.outputTokens [c] (Anthropic.outputTokens ctx).
Proof. destruct c; step_cases; split; reflexivity. Qed.

Lemma last_defined_cons field c rest init :
  last_defined field (c :: rest) init
  = last_defined field rest (last_defined field [c] init).
Proof. destruct c; reflexivity. Qed.

Lemma A_run_usage chunks : forall ctx,
  Anthropic.inputTokens (snd (runA chunks ctx))
  = last_defined AiSDK.inputTokens chunks (Anthropic.inputTokens ctx)
  /\ Anthropic.outputTokens (snd (runA chunks ctx))
     = last_defined AiSDK.outputTokens chunks (Anthropic.outputTokens ctx).
Proof.
  induction chunks as [|c rest IH]; intros ctx; [split; reflexivity|].
  rewrite A_run_cons, 2!(last_defined_cons _ c rest).
  destruct (A_step_usage c ctx) as [<- <-]. apply IH.
Qed.

Lemma C_run_cons c rest ctx :
  snd (runC (c :: rest) ctx) = snd (runC rest (snd (stepC c ctx))).
Proof.
  cbn [Google.run]. destruct (stepC c ctx) as [r ctx1]. cbn [snd].
  now destruct (runC rest ctx1).
Qed.

Lemma C_step_usage c ctx :
  Google.inputTokens (snd (stepC c ctx))
  = last_defined AiSDK.inputTokens [c] (Google.inputTokens ctx)
  /\ Google.outputTokens (snd (stepC c ctx))
     = last_defined AiSDK.outputTokens [c] (Google.outputTokens ctx).
Proof.
  destruct c; cbn [Google.googleChunkFromAiSDK last_defined nullish];
    repeat case_match; simplify_eq; split; reflexivity.
Qed.

Lemma C_run_usage chunks : forall ctx,
  Google.inputTokens (snd (runC chunks ctx))
  = last_defined AiSDK.inputTokens chunks (Google.inputTokens ctx)
  /\ Google.outputTokens (snd (runC chunks ctx))
     = last_defined AiSDK.outputTokens chunks (Google.outputTokens ctx).
Proof.
  induction chunks as [|c rest IH]; intros ctx; [split; reflexivity|].
  rewrite C_run_cons, 2!(last_defined_cons _ c rest).
  destruct (C_step_usage c ctx) as [<- <-]. apply IH.
Qed.

End UsageTracking.

(** X4. Adapter A reports in the message_delta of a finish the counts of
    totalUsage where they are defined and otherwise the counts a finish-step
    last defined (0 on a fresh context when none did); a finish-step that
    leaves a count undefined does not overwrite the count recorded before. *)
Theorem anthropic_finish_usage
    (JSON_stringify : json -> string) (id model : string) (chunks : list AiSDKChunk)
    (finishReason : string) (totalUsage : Usage) :
  let ctx :=
    snd (Anthropic.run JSON_stringify chunks
           (Anthropic.createChunkConversionContext id model)) in
  Anthropic.inputTokens ctx = last_defined AiSDK.inputTokens chunks 0
  /\ Anthropic.outputTokens ctx = last_defined AiSDK.outputTokens chunks 0
  /\ exists opening,
       fst (Anthropic.anthropicChunkFromAiSDK JSON_stringify
              (Finish finishReason totalUsage) ctx)
       = Anthropic.events
           (opening ++
            [Anthropic.message_delta (Anthropic.convertStopReason finishReason) None
               {| Anthropic.output_tokens :=
                    nullish (AiSDK.outputTokens totalUsage)
                            (last_defined AiSDK.outputTokens chunks 0);
                  Anthropic.input_tokens :=
                    nullish (AiSDK.inputTokens totalUsage)
                            (last_defined AiSDK.inputTokens chunks 0) |};
             Anthropic.message_stop]).
Proof.
  intros ctx.
  destruct (A_run_usage JSON_stringify chunks
              (Anthropic.createChunkConversionContext id model)) as [Hin Hout].
  fold ctx in Hin, Hout. cbn [Anthropic.inputTokens Anthropic.outputTokens
    Anthropic.createChunkConversionContext] in Hin, Hout.
  split; [exact Hin | split; [exact Hout|]].
  rewrite <- Hin, <- Hout.
  cbn [Anthropic.anthropicChunkFromAiSDK]. unfold Anthropic.ensureMessageStart.
  destruct (negb (Anthropic.messageStarted ctx)); cbn.
  - exists [Anthropic.createMessageStartEvent ctx]. reflexivity.
  - exists []. reflexivity.
Qed.

(** X5. Adapter C reports in the final snapshot of a finish the counts of
    totalUsage where they are defined and otherwise the counts a finish-step
    last defined (0 when none did); the total is totalUsage's total when
    defined and otherwise the sum of the two counts reported; an incremental
    snapshot reports the tracked counts and their sum. *)
Theorem google_final_usage
    (JSON_parse : string -> option json) (JSON_stringify : json -> string)
    (responseId modelVersion : string) (chunks : list AiSDKChunk)
    (finishReason : string) (totalUsage : Usage) :
  let ctx :=
    snd (Google.run JSON_parse JSON_stringify chunks
           (Google.createChunkConversionContext responseId modelVersion)) in
  let tracked_in := last_defined AiSDK.inputTokens chunks 0 in
  let tracked_out := last_defined AiSDK.outputTokens chunks 0 in
  let reported_in := nullish (AiSDK.inputTokens totalUsage) tracked_in in
  let reported_out := nullish (AiSDK.outputTokens totalUsage) tracked_out in
  Google.usageMetadata (Google.buildFinalResponse JSON_parse ctx finishReason totalUsage)
  = Google.mkUsageMetadata reported_in reported_out
      (nullish (AiSDK.totalTokens totalUsage) (reported_in + reported_out)%Z)
  /\ Google.usageMetadata (Google.buildIncrementalResponse JSON_parse ctx)
     = Google.mkUsageMetadata tracked_in tracked_out (tracked_in + tracked_out)%Z
  /\ fst (Google.googleChunkFromAiSDK JSON_parse JSON_stringify
            (Finish finishReason totalUsage) ctx)
     = Google.response (Google.buildFinalResponse JSON_parse ctx finishReason totalUsage).
Proof.
  intros ctx tracked_in tracked_out reported_in reported_out.
  destruct (C_run_usage JSON_parse JSON_stringify chunks
              (Google.createChunkConversionContext responseId modelVersion))
    as [Hin Hout].
  fold ctx in Hin, Hout. cbn [Google.inputTokens Google.outputTokens
    Google.createChunkConversionContext] in Hin, Hout.
  subst reported_in reported_out tracked_in tracked_out.
  rewrite <- Hin, <- Hout. repeat split.
Qed.

(** ** Error results *)

(** X6. Each adapter answers with an error exactly when the chunk is an error
    chunk, a chunk of unrecognized kind, or a chunk whose tool-call id it looks
    up and does not find (tool-input-delta in all three, tool-input-end in
    adapter A only); and a call that answers with an error leaves the context
    as it was. *)
Theorem errors_exactly_and_without_effect
    (JSON_parse : string -> option json) (JSON_stringify : json -> string)
    (c : AiSDKChunk)
    (a : Anthropic.ChunkConversionContext) (b : OpenAI.ChunkConversionContext)
    (g : Google.ChunkConversionContext) :
  let ra := Anthropic.anthropicChunkFromAiSDK JSON_stringify c a in
  let rb := OpenAI.openaiChunkFromAiSDK JSON_stringify c b in
  let rg := Google.googleChunkFromAiSDK JSON_parse JSON_stringify c g in
  is_error_A (fst ra) = always_error c || refers_unknown_A a c
  /\ is_error_B (fst rb) = always_error c || refers_unknown_B b c
  /\ is_error_C (fst rg) = always_error c || refers_unknown_C g c
  /\ (is_error_A (fst ra) = true -> snd ra = a)
  /\ (is_error_B (fst rb) = true -> snd rb = b)
  /\ (is_error_C (fst rg) = true -> snd rg = g).
Proof.
  cbn zeta. repeat match goal with |- _ /\ _ => split end.
  - destruct c; step_cases; reflexivity.
  - destruct c; step_cases; reflexivity.
  - destruct c; cbn; repeat case_match; reflexivity.
  - destruct c; step_cases; intros He; try discriminate He; reflexivity.
  - destruct c; step_cases; intros He; try discriminate He; reflexivity.
  - destruct c; cbn; repeat case_match; intros He; try discriminate He; reflexivity.
Qed.

Lemma errors_exactly_and_without_effect_witness :
  let a := Anthropic.createChunkConversionContext "msg_1" "claude" in
  let b := OpenAI.createChunkConversionContext "chatcmpl-1" "gpt" None 0 in
  let g := Google.createChunkConversionContext "resp-1" "gemini" in
  snd (Anthropic.anthropicChunkFromAiSDK JSONRef.JSON_stringify (ToolInputEnd "x") a) = a
  /\ snd (OpenAI.openaiChunkFromAiSDK JSONRef.JSON_stringify (Unrecognized "ping") b) = b
  /\ snd (Google.googleChunkFromAiSDK JSONRef.JSON_parse JSONRef.JSON_stringify
            (Error (EString "boom")) g) = g.
Proof.
  split; [|split].
  - apply (errors_exactly_and_without_effect JSONRef.JSON_parse JSONRef.JSON_stringify
             (ToolInputEnd "x")
             (Anthropic.createChunkConversionContext "msg_1" "claude")
             (OpenAI.createChunkConversionContext "chatcmpl-1" "gpt" None 0)
             (Google.createChunkConversionContext "resp-1" "gemini")).
    reflexivity.
  - apply (errors_exactly_and_without_effect JSONRef.JSON_parse JSONRef.JSON_stringify
             (Unrecognized "ping")
             (Anthropic.createChunkConversionContext "msg_1" "claude")
             (OpenAI.createChunkConversionContext "chatcmpl-1" "gpt" None 0)
             (Google.createChunkConversionContext "resp-1" "gemini")).
    reflexivity.
  - apply (errors_exactly_and_without_effect JSONRef.JSON_parse JSONRef.JSON_stringify
             (Error (EString "boom"))
             (Anthropic.createChunkConversionContext "msg_1" "claude")
             (OpenAI.createChunkConversionContext "chatcmpl-1" "gpt" None 0)
             (Google.createChunkConversionContext "resp-1" "gemini")).
    reflexivity.
Defined.

(** ** Adapter B: indices and the shape of a chunk *)

(** X7. On a context of adapter B built fresh and driven through any chunks,
    two different tool-call ids never report the same index, and every index
    reported lies below nextToolCallIndex. *)
Theorem tool_call_indices_injective
    (JSON_stringify : json -> string) (id model : string) (created : option Z) (now : Z)
    (chunks : list AiSDKChunk) (id1 id2 d1 d2 : string) (k : nat) :
  let ctx :=
    snd (OpenAI.run JSON_stringify chunks
           (OpenAI.createChunkConversionContext id model created now)) in
  reported_index
    (fst (OpenAI.openaiChunkFromAiSDK JSON_stringify (ToolInputDelta id1 d1) ctx)) = Some k ->
  reported_index
    (fst (OpenAI.openaiChunkFromAiSDK JSON_stringify (ToolInputDelta id2 d2) ctx)) = Some k ->
  id1 = id2 /\ k < OpenAI.nextToolCallIndex ctx.
Proof.
  intros ctx H1 H2.
  assert (Hn : numbered (first_appearance chunks) ctx).
  { apply numbered_run. apply numbered_fresh. }
  rewrite (delta_reports JSON_stringify _ ctx id1 d1 Hn) in H1.
  rewrite (delta_reports JSON_stringify _ ctx id2 d2 Hn) in H2.
  split.
  - apply index_of_lookup in H1, H2. congruence.
  - destruct Hn as [-> _]. now apply index_of_lt in H1.
Qed.

Lemma tool_call_indices_injective_witness :
  let ctx :=
    snd (OpenAI.run JSONRef.JSON_stringify
           [ToolInputStart "call_1" "f"; ToolCall "call_2" "g" (JObject [])]
           (OpenAI.createChunkConversionContext "chatcmpl-1" "gpt" None 0)) in
  "call_2" = "call_2" /\ 1 < OpenAI.nextToolCallIndex ctx.
Proof.
  apply (tool_call_indices_injective JSONRef.JSON_stringify "chatcmpl-1" "gpt" None 0
           [ToolInputStart "call_1" "f"; ToolCall "call_2" "g" (JObject [])]
           "call_2" "call_2" "{" "}" 1); reflexivity.
Defined.

(** X8. Every chunk adapter B emits has one choice, at index 0, and the object
    kind chat.completion.chunk; it carries a finish reason exactly when it
    carries usage, and that is exactly when the event is a finish-step or a
    finish; a chunk with a role is the chunk of a text-start. *)
Theorem openai_chunk_shape
    (JSON_stringify : json -> string) (c : AiSDKChunk)
    (ctx : OpenAI.ChunkConversionContext) (ch : OpenAI.ChatCompletionChunk) :
  fst (OpenAI.openaiChunkFromAiSDK JSON_stringify c ctx) = OpenAI.chunk ch ->
  OpenAI.chunk_object ch = "chat.completion.chunk"
  /\ (exists choice,
        OpenAI.choices ch = [choice]
        /\ OpenAI.choice_index choice = 0
        /\ (is_Some (OpenAI.finish_reason choice) <-> is_Some (OpenAI.usage ch))
        /\ (is_Some (OpenAI.finish_reason choice)
            <-> exists u fr, c = FinishStep u fr \/ c = Finish fr u)
        /\ (is_Some (OpenAI.role (OpenAI.delta choice)) <-> exists id, c = TextStart id)).
Proof.
  intros Hch.
  destruct c; step_cases; simplify_eq; (split; [reflexivity|]);
    eexists; (split; [reflexivity|]); (split; [reflexivity|]);
    cbn; repeat split;
    try (intros [? ?]; discriminate);
    try (intros (? & ? & [?|?]); discriminate);
    try (intros [? ?]; discriminate);
    eauto.
Qed.

Lemma openai_chunk_shape_witness :
  exists choice,
    OpenAI.choices
      (OpenAI.createChunk
         (OpenAI.createChunkConversionContext "chatcmpl-1" "gpt" None 0)
         OpenAI.empty_delta (Some "stop")
         (Some (OpenAI.convertUsage (mkUsage (Some 1%Z) (Some 2%Z) None)))) = [choice]
    /\ OpenAI.choice_index choice = 0
    /\ (is_Some (OpenAI.finish_reason choice)
        <-> is_Some
              (OpenAI.usage
                 (OpenAI.createChunk
                    (OpenAI.createChunkConversionContext "chatcmpl-1" "gpt" None 0)
                    OpenAI.empty_delta (Some "stop")
                    (Some (OpenAI.convertUsage (mkUsage (Some 1%Z) (Some 2%Z) None))))))
    /\ (is_Some (OpenAI.finish_reason choice)
        <-> exists u fr,
              Finish "stop" (mkUsage (Some 1%Z) (Some 2%Z) None) = FinishStep u fr
              \/ Finish "stop" (mkUsage (Some 1%Z) (Some 2%Z) None) = Finish fr u)
    /\ (is_Some (OpenAI.role (OpenAI.delta choice))
        <-> exists id, Finish "stop" (mkUsage (Some 1%Z) (Some 2%Z) None) = TextStart id).
Proof.
  apply (openai_chunk_shape JSONRef.JSON_stringify
           (Finish "stop" (mkUsage (Some 1%Z) (Some 2%Z) None))
           (OpenAI.createChunkConversionContext "chatcmpl-1" "gpt" None 0)).
  reflexivity.
Defined.

(** ** Adapter C: text, tool calls, and the one-shot converter *)

Section GoogleStream.
Variable JSON_parse : string -> option json.
Variable JSON_stringify : json -> string.

Local Abbreviation stepC := (Google.googleChunkFromAiSDK JSON_parse JSON_stringify).
Local Abbreviation runC := (Google.run JSON_parse JSON_stringify).

Lemma C_step_text_appends c ctx :
  Google.accumulatedText (snd (stepC c ctx))
  = Google.accumulatedText ctx +:+ texts_of [c].
Proof.
  destruct c; cbn [Google.googleChunkFromAiSDK texts_of]; repeat case_match;
    cbn [snd Google.accumulatedText Google.set_accumulatedText
         Google.set_accumulatedFunctionCalls Google.set_inputTokens
         Google.set_outputTokens];
    now rewrite ?append_empty_r.
Qed.

Lemma texts_of_cons c rest : texts_of (c :: rest) = texts_of [c] +:+ texts_of rest.
Proof. destruct c; cbn [texts_of]; try reflexivity. now rewrite append_empty_r. Qed.

Lemma C_run_text chunks : forall ctx,
  Google.accumulatedText (snd (runC chunks ctx))
  = Google.accumulatedText ctx +:+ texts_of chunks.
Proof.
  induction chunks as [|c rest IH]; intros ctx.
  - cbn. now rewrite append_empty_r.
  - rewrite C_run_cons, IH, C_step_text_appends, (texts_of_cons c rest).
    apply append_assoc.
Qed.

(** Text deltas leave the function calls and the counters alone. *)
Lemma C_run_text_chunks fragments : forall ctx,
  snd (runC (text_chunks fragments) ctx)
  = Google.set_accumulatedText
      (Google.accumulatedText ctx +:+ join_fragments fragments) ctx.
Proof.
  induction fragments as [|f rest IH]; intros ctx.
  - cbn. rewrite append_empty_r. now destruct ctx.
  - unfold text_chunks in *. cbn [map]. rewrite C_run_cons, IH.
    cbn [Google.googleChunkFromAiSDK snd join_fragments].
    unfold Google.set_accumulatedText. cbn. now rewrite append_assoc.
Qed.

Lemma map_set_absent {V : Type} (k : string) (v : V) (m : list (string * V)) :
  index_of k (map fst m) = None -> Google.map_set k v m = m ++ [(k, v)].
Proof.
  induction m as [|[k' v'] m IH]; cbn [Google.map_set map fst index_of app];
    [reflexivity|].
  destruct (String.eqb k' k); [discriminate|].
  destruct (index_of k (map fst m)); [discriminate|].
  intros _. now rewrite IH.
Qed.

(** Complete tool calls with new, distinct ids are appended in order. *)
Lemma C_run_tool_calls toolCalls : forall ctx,
  NoDup (map AiResponse.toolCallId toolCalls) ->
  (forall tc, In tc toolCalls ->
     index_of (AiResponse.toolCallId tc)
              (map fst (Google.accumulatedFunctionCalls ctx)) = None) ->
  snd (runC (tool_call_chunks toolCalls) ctx)
  = Google.set_accumulatedFunctionCalls
      (Google.accumulatedFunctionCalls ctx
       ++ map (fun tc => (AiResponse.toolCallId tc,
                          Google.mkAcc (AiResponse.toolName tc)
                            (JSON_stringify (AiResponse.input tc))))
              toolCalls) ctx.
Proof.
  induction toolCalls as [|tc rest IH]; intros ctx Hnd Hnew.
  - cbn. rewrite app_nil_r. now destruct ctx.
  - unfold tool_call_chunks in *. cbn [map]. rewrite C_run_cons.
    cbn [Google.googleChunkFromAiSDK snd].
    cbn [map] in Hnd. apply NoDup_cons in Hnd as [Hnotin Hnd].
    rewrite (map_set_absent _ _ _ (Hnew tc (or_introl eq_refl))).
    rewrite IH; [| exact Hnd |].
    + unfold Google.set_accumulatedFunctionCalls. cbn. now rewrite <- app_assoc.
    + intros tc' Hin. cbn. rewrite map_app. cbn [map fst].
      rewrite index_of_app_new by (apply Hnew; now left).
      destruct (String.eqb (AiResponse.toolCallId tc) (AiResponse.toolCallId tc')) eqn:E.
      * apply String.eqb_eq in E. exfalso. apply Hnotin. rewrite E.
        apply list_elem_of_In. now apply in_map.
      * apply Hnew. now right.
Qed.

Lemma parseArgs_round_trip v :
  round_trips JSON_parse JSON_stringify v ->
  Google.parseArgs JSON_parse (JSON_stringify v) = v.
Proof.
  intros [Hparse Hne]. unfold Google.parseArgs, truthy.
  apply String.eqb_neq in Hne. now rewrite Hne, Hparse.
Qed.

End GoogleStream.

(** X9. For adapter C on a fresh context, after any chunks the accumulated
    text is the texts of all text-delta chunks joined in order, whatever their
    ids and whatever lies between them, and the snapshot of a following finish
    shows exactly that text. *)
Theorem google_text_is_concatenation
    (JSON_parse : string -> option json) (JSON_stringify : json -> string)
    (responseId modelVersion : string) (chunks : list AiSDKChunk)
    (finishReason : string) (totalUsage : Usage) :
  let ctx :=
    snd (Google.run JSON_parse JSON_stringify chunks
           (Google.createChunkConversionContext responseId modelVersion)) in
  Google.accumulatedText ctx = texts_of chunks
  /\ exists r,
       fst (Google.googleChunkFromAiSDK JSON_parse JSON_stringify
              (Finish finishReason totalUsage) ctx) = Google.response r
       /\ snapshot_text r = texts_of chunks.
Proof.
  intros ctx.
  assert (Ht : Google.accumulatedText ctx = texts_of chunks).
  { subst ctx. now rewrite C_run_text. }
  split; [exact Ht|].
  eexists. split; [reflexivity|].
  cbn [snapshot_text Google.candidates Google.buildFinalResponse Google.content].
  now rewrite content_text_buildContent.
Qed.

(** X10. A complete tool-call through adapter C round-trips its input: on any
    context the snapshot returned for tool-call(id, name, input) has a
    function-call part with that id and name whose args are the input itself,
    provided JSON.parse undoes JSON.stringify on the input. *)
Theorem google_tool_call_round_trip
    (JSON_parse : string -> option json) (JSON_stringify : json -> string)
    (ctx : Google.ChunkConversionContext) (id name : string) (input : json) :
  round_trips JSON_parse JSON_stringify input ->
  exists r ctx',
    Google.googleChunkFromAiSDK JSON_parse JSON_stringify (ToolCall id name input) ctx
    = (Google.response r, ctx')
    /\ In (Google.functionCall_part id name input) (snapshot_parts r).
Proof.
  intros Hrt. eexists. eexists. split; [reflexivity|].
  cbn [snapshot_parts Google.candidates Google.buildIncrementalResponse Google.content].
  rewrite <- (parseArgs_round_trip JSON_parse JSON_stringify input Hrt) at 1.
  apply end_snapshot_part.
  cbn [Google.accumulatedFunctionCalls Google.set_accumulatedFunctionCalls].
  rewrite map_get_set, String.eqb_refl. reflexivity.
Qed.

Lemma google_tool_call_round_trip_witness :
  let input := JObject [("query", JString "test"); ("limit", JNumber 5 0)] in
  exists r ctx',
    Google.googleChunkFromAiSDK JSONRef.JSON_parse JSONRef.JSON_stringify
      (ToolCall "call_1" "search" input)
      (Google.createChunkConversionContext "resp-1" "gemini")
    = (Google.response r, ctx')
    /\ In (Google.functionCall_part "call_1" "search" input) (snapshot_parts r).
Proof.
  apply (google_tool_call_round_trip JSONRef.JSON_parse JSONRef.JSON_stringify).
  split; [reflexivity | discriminate].
Defined.

(** ** Streaming and one-shot conversion side by side *)

Lemma A_tables_agree (s : string) :
  AnthropicFromAi.convertStopReason s = Anthropic.convertStopReason s.
Proof.
  unfold AnthropicFromAi.convertStopReason, Anthropic.convertStopReason.
  repeat case_match; reflexivity.
Qed.

Lemma B_tables_agree (s : string) :
  OpenAIFromAi.convertFinishReason s = OpenAI.convertFinishReason s.
Proof.
  unfold OpenAIFromAi.convertFinishReason, OpenAI.convertFinishReason.
  repeat case_match; reflexivity.
Qed.

Lemma C_tables_agree (s : string) :
  GoogleFromAi.convertFinishReason s = Google.convertFinishReason s.
Proof.
  unfold GoogleFromAi.convertFinishReason, Google.convertFinishReason.
  repeat case_match; reflexivity.
Qed.

Lemma B_usage_agree (u : Usage) : OpenAIFromAi.convertUsage u = OpenAI.convertUsage u.
Proof. reflexivity. Qed.

(** X11. The finish-reason tables of the one-shot converters, written out
    separately in the from-ai files, agree with those of the stream adapters on
    every string, and the one-shot usage conversion of the OpenAI converter
    agrees with the one of adapter B. *)
Theorem one_shot_tables_agree (s : string) (u : Usage) :
  AnthropicFromAi.convertStopReason s = Anthropic.convertStopReason s
  /\ OpenAIFromAi.convertFinishReason s = OpenAI.convertFinishReason s
  /\ GoogleFromAi.convertFinishReason s = Google.convertFinishReason s
  /\ OpenAIFromAi.convertUsage u = OpenAI.convertUsage u.
Proof.
  split; [apply A_tables_agree|].
  split; [apply B_tables_agree|].
  split; [apply C_tables_agree | apply B_usage_agree].
Qed.

Lemma fold_left_push {A B : Type} (f : A -> B) (l : list A) : forall acc,
  fold_left (fun acc x => acc ++ [f x]) l acc = acc ++ map f l.
Proof.
  induction l as [|x l IH]; intros acc; cbn [fold_left map].
  - now rewrite app_nil_r.
  - now rewrite IH, <- app_assoc.
Qed.

Lemma google_buildContent_parts (r : AiResponse.AiSDKResponse) :
  Google.parts (GoogleFromAi.buildContent r)
  = match (if truthy (AiResponse.text r) then [Google.text_part (AiResponse.text r)]
           else [])
          ++ map (fun tc => Google.functionCall_part (AiResponse.toolCallId tc)
                              (AiResponse.toolName tc) (AiResponse.input tc))
                 (AiResponse.toolCalls r)
    with
    | [] => [Google.text_part ""]
    | ps => ps
    end.
Proof.
  unfold GoogleFromAi.buildContent. cbn [Google.parts].
  rewrite (fold_left_push
             (fun tc => Google.functionCall_part (AiResponse.toolCallId tc)
                          (AiResponse.toolName tc) (AiResponse.input tc))).
  destruct (truthy (AiResponse.text r)); cbn [app]; [reflexivity|].
  now destruct (AiResponse.toolCalls r).
Qed.

Section GoogleOneShot.
Variable JSON_parse : string -> option json.
Variable JSON_stringify : json -> string.

Local Abbreviation runC := (Google.run JSON_parse JSON_stringify).

Lemma C_run_app a b ctx :
  snd (runC (a ++ b) ctx) = snd (runC b (snd (runC a ctx))).
Proof.
  revert ctx. induction a as [|c a IH]; intros ctx; [reflexivity|].
  cbn [app]. now rewrite !C_run_cons, IH.
Qed.

Lemma streamed_context (r : AiResponse.AiSDKResponse) (fragments : list string) :
  join_fragments fragments = AiResponse.text r ->
  NoDup (map AiResponse.toolCallId (AiResponse.toolCalls r)) ->
  snd (runC (text_chunks fragments ++ tool_call_chunks (AiResponse.toolCalls r))
            (Google.createChunkConversionContext (AiResponse.response_id r)
               (AiResponse.response_modelId r)))
  = Google.mkContext (AiResponse.response_id r) (AiResponse.response_modelId r)
      (AiResponse.text r)
      (map (fun tc => (AiResponse.toolCallId tc,
                       Google.mkAcc (AiResponse.toolName tc)
                         (JSON_stringify (AiResponse.input tc))))
           (AiResponse.toolCalls r))
      0 0.
Proof.
  intros Htext Hnd.
  rewrite C_run_app, C_run_text_chunks, C_run_tool_calls; [| exact Hnd |].
  - cbn. now rewrite Htext.
  - intros tc _. reflexivity.
Qed.

End GoogleOneShot.

(** X12. Streaming and one-shot conversion to the Google format agree.  Feed
    adapter C, on a context created with the response's id and model, the
    text of a response cut into any fragments as text-deltas, then its tool
    calls as complete tool-call chunks, then finish with its finish reason and
    usage: the final snapshot is the response googleGenaiFromAiSDK builds in
    one shot, provided the tool-call ids are distinct and JSON.parse undoes
    JSON.stringify on every input. *)
Theorem google_stream_agrees_with_one_shot
    (JSON_parse : string -> option json) (JSON_stringify : json -> string)
    (r : AiResponse.AiSDKResponse) (fragments : list string) :
  join_fragments fragments = AiResponse.text r ->
  NoDup (map AiResponse.toolCallId (AiResponse.toolCalls r)) ->
  (forall tc, In tc (AiResponse.toolCalls r) ->
              round_trips JSON_parse JSON_stringify (AiResponse.input tc)) ->
  let ctx :=
    snd (Google.run JSON_parse JSON_stringify
           (text_chunks fragments ++ tool_call_chunks (AiResponse.toolCalls r))
           (Google.createChunkConversionContext (AiResponse.response_id r)
              (AiResponse.response_modelId r))) in
  fst (Google.googleChunkFromAiSDK JSON_parse JSON_stringify
         (Finish (AiResponse.finishReason r) (AiResponse.usage r)) ctx)
  = Google.response (GoogleFromAi.googleGenaiFromAiSDK r None).
Proof.
  intros Htext Hnd Hrt ctx. subst ctx.
  rewrite (streamed_context JSON_parse JSON_stringify r fragments Htext Hnd).
  cbn [Google.googleChunkFromAiSDK fst]. f_equal.
  unfold Google.buildFinalResponse, GoogleFromAi.googleGenaiFromAiSDK,
    GoogleFromAi.buildCandidate, GoogleFromAi.buildUsageMetadata.
  cbn [Google.responseId Google.modelVersion Google.inputTokens Google.outputTokens
       nullish].
  rewrite C_tables_agree.
  f_equal. f_equal. f_equal.
  assert (Hparts :
    Google.parts (Google.buildContent JSON_parse
      (Google.mkContext (AiResponse.response_id r) (AiResponse.response_modelId r)
         (AiResponse.text r)
         (map (fun tc => (AiResponse.toolCallId tc,
                          Google.mkAcc (AiResponse.toolName tc)
                            (JSON_stringify (AiResponse.input tc))))
              (AiResponse.toolCalls r)) 0 0))
    = Google.parts (GoogleFromAi.buildContent r)).
  { rewrite buildContent_parts, google_buildContent_parts.
    cbn [Google.accumulatedText Google.accumulatedFunctionCalls].
    rewrite map_map.
    rewrite (map_ext_in _
               (fun tc => Google.functionCall_part (AiResponse.toolCallId tc)
                            (AiResponse.toolName tc) (AiResponse.input tc)));
      [reflexivity|].
    intros tc Hin. cbn [fst snd Google.name Google.args].
    now rewrite (parseArgs_round_trip JSON_parse JSON_stringify _ (Hrt tc Hin)). }
  unfold Google.buildContent, GoogleFromAi.buildContent in *.
  cbn [Google.parts] in Hparts. now rewrite Hparts.
Qed.

Lemma google_stream_agrees_with_one_shot_witness :
  let r :=
    AiResponse.mkResponse "Hello, world!"
      [AiResponse.mkToolCall "call_1" "search" (JObject [("query", JString "test")]);
       AiResponse.mkToolCall "call_2" "now" (JObject [])]
      "tool-calls" (mkUsage (Some 10%Z) None None) "resp-1" "gemini-pro" 1700000000999 in
  fst (Google.googleChunkFromAiSDK JSONRef.JSON_parse JSONRef.JSON_stringify
         (Finish (AiResponse.finishReason r) (AiResponse.usage r))
         (snd (Google.run JSONRef.JSON_parse JSONRef.JSON_stringify
                 (text_chunks ["Hello"; ", "; "world!"]
                  ++ tool_call_chunks (AiResponse.toolCalls r))
                 (Google.createChunkConversionContext "resp-1" "gemini-pro"))))
  = Google.response (GoogleFromAi.googleGenaiFromAiSDK r None).
Proof.
  apply (google_stream_agrees_with_one_shot JSONRef.JSON_parse JSONRef.JSON_stringify
           (AiResponse.mkResponse "Hello, world!"
              [AiResponse.mkToolCall "call_1" "search"
                 (JObject [("query", JString "test")]);
               AiResponse.mkToolCall "call_2" "now" (JObject [])]
              "tool-calls" (mkUsage (Some 10%Z) None None) "resp-1" "gemini-pro"
              1700000000999)
           ["Hello"; ", "; "world!"]).
  - reflexivity.
  - cbn. repeat constructor; cbn; intros H; inversion H; subst;
      try discriminate; try match goal with H' : _ ∈ [] |- _ => inversion H' end;
      match goal with H' : _ ∈ [_] |- _ => inversion H'; subst end;
      try discriminate; match goal with H' : _ ∈ [] |- _ => inversion H' end.
  - intros tc [<-|[<-|[]]]; (split; [reflexivity | discriminate]).
Defined.

(** ** One-shot responses read back as assistant messages *)

Lemma anthropic_buildContentBlocks (r : AiResponse.AiSDKResponse) :
  AnthropicFromAi.buildContentBlocks r
  = match (if truthy (AiResponse.text r)
           then [Anthropic.text_block (AiResponse.text r)] else [])
          ++ map AnthropicFromAi.createToolUseBlock (AiResponse.toolCalls r)
    with
    | [] => [Anthropic.text_block ""]
    | ps => ps
    end.
Proof.
  unfold AnthropicFromAi.buildContentBlocks.
  rewrite (fold_left_push AnthropicFromAi.createToolUseBlock).
  destruct (truthy (AiResponse.text r)); cbn [app]; [reflexivity|].
  now destruct (AiResponse.toolCalls r).
Qed.

Lemma anthropic_fold_blocks (blocks : list Anthropic.ContentBlock) : forall acc,
  fold_left
    (fun assistantParts block =>
       match block with
       | AnthropicToAi.text_param text => assistantParts ++ [AiResponse.TextPart text]
       | AnthropicToAi.tool_use_param id name input =>
           assistantParts ++ [AnthropicToAi.convertToolUseBlock id name input]
       | AnthropicToAi.thinking_param thinking _ =>
           assistantParts ++ [AnthropicToAi.convertThinkingBlock thinking]
       | AnthropicToAi.redacted_thinking_param => assistantParts
       | AnthropicToAi.passed_over_param _ => assistantParts
       end)
    (map AnthropicToAi.as_param blocks) acc
  = acc ++ map anthropic_part_of blocks.
Proof.
  induction blocks as [|b blocks IH]; intros acc; cbn [map fold_left].
  - now rewrite app_nil_r.
  - destruct b; cbn [AnthropicToAi.as_param]; rewrite IH, <- app_assoc; reflexivity.
Qed.

Lemma truthy_eqb s : truthy s = negb (String.eqb s "").
Proof. reflexivity. Qed.

(** X13. An Anthropic message built in one shot by anthropicMessagesFromAiSDK
    never has empty content, and read back by convertAssistantMessage it gives
    one assistant message with the response's text (when not empty) followed
    by its tool calls in order, ids, names and inputs unchanged; a response
    with neither text nor tool calls comes back as one empty text part. *)
Theorem anthropic_one_shot_round_trip
    (r : AiResponse.AiSDKResponse) (options : option AnthropicFromAi.FromAiSDKOptions) :
  let m := AnthropicFromAi.anthropicMessagesFromAiSDK r options in
  Anthropic.msg_content m <> []
  /\ AnthropicToAi.convertAssistantMessage
       (AnthropicToAi.content_blocks (map AnthropicToAi.as_param (Anthropic.msg_content m)))
     = [AiResponse.AssistantMessage (carried_parts r)].
Proof.
  cbn zeta. cbn [AnthropicFromAi.anthropicMessagesFromAiSDK Anthropic.msg_content].
  rewrite anthropic_buildContentBlocks. unfold AnthropicToAi.convertAssistantMessage.
  rewrite anthropic_fold_blocks. cbn [app].
  unfold carried_parts, response_parts. rewrite truthy_eqb.
  destruct (String.eqb (AiResponse.text r) ""); cbn [negb app].
  - destruct (AiResponse.toolCalls r) as [|tc tcs]; cbn; split;
      try discriminate; try reflexivity.
    rewrite map_map. reflexivity.
  - cbn. split; [discriminate|]. rewrite map_map. reflexivity.
Qed.

Section OpenAIRoundTrip.
Variable JSON_parse : string -> option json.
Variable JSON_stringify : json -> string.

Lemma openai_fold_tool_calls (toolCalls : list AiResponse.ToolCallResult) : forall acc,
  (forall tc, In tc toolCalls ->
              JSON_parse (JSON_stringify (AiResponse.input tc)) = Some (AiResponse.input tc)) ->
  fold_left
    (fun parts toolCall =>
       match toolCall with
       | OpenAIFromAi.function_tool_call id name arguments =>
           parts ++ [AiResponse.ToolCallPart id name
                       (Utils.safeJsonParse JSON_parse arguments)]
       | OpenAIFromAi.custom_tool_call _ _ _ => parts
       end)
    (OpenAIFromAi.convertToolCalls JSON_stringify toolCalls) acc
  = acc ++ map (fun tc => AiResponse.ToolCallPart (AiResponse.toolCallId tc)
                            (AiResponse.toolName tc) (AiResponse.input tc))
               toolCalls.
Proof.
  induction toolCalls as [|tc tcs IH]; intros acc Hrt; cbn [map fold_left
    OpenAIFromAi.convertToolCalls].
  - now rewrite app_nil_r.
  - fold (OpenAIFromAi.convertToolCalls JSON_stringify tcs).
    rewrite IH by (intros tc' Hin; apply Hrt; now right).
    unfold Utils.safeJsonParse. rewrite (Hrt tc (or_introl eq_refl)).
    now rewrite <- app_assoc.
Qed.

End OpenAIRoundTrip.

(** X14. The message of a completion built in one shot by
    openaiChatCompletionFromAiSDK has null content exactly when the response
    text is empty and no tool_calls field exactly when there are no tool
    calls; read back by convertAssistantContent it gives the response's text
    (when not empty) followed by its tool calls in order with ids, names and
    inputs recovered, provided JSON.parse undoes JSON.stringify on every
    input. *)
Theorem openai_one_shot_round_trip
    (JSON_parse : string -> option json) (JSON_stringify : json -> string)
    (r : AiResponse.AiSDKResponse) (options : option OpenAIFromAi.FromAiSDKOptions) :
  (forall tc, In tc (AiResponse.toolCalls r) ->
              JSON_parse (JSON_stringify (AiResponse.input tc)) = Some (AiResponse.input tc)) ->
  exists choice,
    OpenAIFromAi.choices (OpenAIFromAi.openaiChatCompletionFromAiSDK JSON_stringify r options)
    = [choice]
    /\ (OpenAIFromAi.content (OpenAIFromAi.message choice) = None
        <-> AiResponse.text r = "")
    /\ (OpenAIFromAi.tool_calls (OpenAIFromAi.message choice) = None
        <-> AiResponse.toolCalls r = [])
    /\ OpenAIToAi.convertAssistantContent JSON_parse
         (OpenAIToAi.as_param (OpenAIFromAi.message choice))
       = response_parts r.
Proof.
  intros Hrt. eexists. split; [reflexivity|].
  cbn [OpenAIFromAi.message OpenAIFromAi.content OpenAIFromAi.tool_calls].
  split; [|split].
  - rewrite truthy_eqb. destruct (String.eqb (AiResponse.text r) "") eqn:E; cbn.
    + apply String.eqb_eq in E. tauto.
    + apply String.eqb_neq in E. split; [discriminate | tauto].
  - destruct (AiResponse.toolCalls r); cbn; split; try discriminate; reflexivity.
  - unfold OpenAIToAi.convertAssistantContent, OpenAIToAi.as_param, response_parts.
    cbn [OpenAIToAi.content OpenAIToAi.tool_calls OpenAIFromAi.content
         OpenAIFromAi.tool_calls].
    rewrite truthy_eqb.
    destruct (String.eqb (AiResponse.text r) "") eqn:E; cbn [negb option_map].
    + destruct (AiResponse.toolCalls r) as [|tc tcs] eqn:Etc; [reflexivity|].
      cbn [OpenAIFromAi.convertToolCalls map length Nat.ltb Nat.leb].
      fold (OpenAIFromAi.convertToolCalls JSON_stringify (tc :: tcs)).
      rewrite (openai_fold_tool_calls JSON_parse JSON_stringify (tc :: tcs)); [reflexivity|].
      exact Hrt.
    + rewrite truthy_eqb, E. cbn [negb].
      destruct (AiResponse.toolCalls r) as [|tc tcs] eqn:Etc; [reflexivity|].
      cbn [OpenAIFromAi.convertToolCalls map length Nat.ltb Nat.leb].
      fold (OpenAIFromAi.convertToolCalls JSON_stringify (tc :: tcs)).
      rewrite (openai_fold_tool_calls JSON_parse JSON_stringify (tc :: tcs)); [reflexivity|].
      exact Hrt.
Qed.

Lemma openai_one_shot_round_trip_witness :
  let r :=
    AiResponse.mkResponse "On it."
      [AiResponse.mkToolCall "call_1" "search"
         (JObject [("query", JString "test"); ("limit", JNumber 5 0)])]
      "tool-calls" (mkUsage (Some 10%Z) (Some 5%Z) None) "chatcmpl-1" "gpt-4"
      1700000000999 in
  exists choice,
    OpenAIFromAi.choices
      (OpenAIFromAi.openaiChatCompletionFromAiSDK JSONRef.JSON_stringify r None)
    = [choice]
    /\ (OpenAIFromAi.content (OpenAIFromAi.message choice) = None
        <-> AiResponse.text r = "")
    /\ (OpenAIFromAi.tool_calls (OpenAIFromAi.message choice) = None
        <-> AiResponse.toolCalls r = [])
    /\ OpenAIToAi.convertAssistantContent JSONRef.JSON_parse
         (OpenAIToAi.as_param (OpenAIFromAi.message choice))
       = response_parts r.
Proof.
  apply (openai_one_shot_round_trip JSONRef.JSON_parse JSONRef.JSON_stringify).
  intros tc [<-|[]]. reflexivity.
Defined.

Lemma google_fold_parts (parts : list Google.Part) : forall acc,
  fold_left
    (fun assistantParts part =>
       let assistantParts :=
         match GoogleToAi.p_text part with
         | Some text =>
             if negb (GoogleToAi.p_thought part)
             then assistantParts ++ [AiResponse.TextPart text]
             else assistantParts
         | None => assistantParts
         end in
       let assistantParts :=
         match GoogleToAi.p_text part with
         | Some text =>
             if GoogleToAi.p_thought part
             then assistantParts ++ [AiResponse.TextPart text]
             else assistantParts
         | None => assistantParts
         end in
       match GoogleToAi.p_functionCall part with
       | Some functionCall =>
           assistantParts ++ [GoogleToAi.convertFunctionCallPart functionCall]
       | None => assistantParts
       end)
    (map GoogleToAi.as_part parts) acc
  = acc ++ map google_part_of parts.
Proof.
  induction parts as [|p parts IH]; intros acc; cbn [map fold_left].
  - now rewrite app_nil_r.
  - destruct p; cbn; rewrite IH, <- app_assoc; reflexivity.
Qed.

Lemma map_default_if_nil {A B : Type} (f : A -> B) (l d : list A) :
  map f (match l with [] => d | x :: xs => x :: xs end)
  = match map f l with [] => map f d | y :: ys => y :: ys end.
Proof. now destruct l. Qed.

Lemma args_or_empty_value v : v <> JNull -> GoogleToAi.args_or_empty (Some v) = v.
Proof. destruct v; try reflexivity. congruence. Qed.

(** X15. The content built in one shot by googleGenaiFromAiSDK never has empty
    parts, and read back by convertModelContent it gives one assistant message
    with the response's text (when not empty) followed by its tool calls in
    order, ids, names and inputs unchanged, provided no input is null (a null
    input comes back as the empty object); a response with neither text nor
    tool calls comes back as one empty text part. *)
Theorem google_one_shot_round_trip
    (r : AiResponse.AiSDKResponse) (options : option GoogleFromAi.FromAiSDKOptions) :
  (forall tc, In tc (AiResponse.toolCalls r) -> AiResponse.input tc <> JNull) ->
  exists candidate,
    Google.candidates (GoogleFromAi.googleGenaiFromAiSDK r options) = [candidate]
    /\ Google.parts (Google.content candidate) <> []
    /\ GoogleToAi.convertModelContent
         (Some (map GoogleToAi.as_part (Google.parts (Google.content candidate))))
       = [AiResponse.AssistantMessage (carried_parts r)].
Proof.
  intros Hnn. eexists. split; [reflexivity|].
  cbn [Google.content GoogleFromAi.buildCandidate].
  rewrite google_buildContent_parts.
  unfold GoogleToAi.convertModelContent. cbn [nullish].
  rewrite google_fold_parts. cbn [app].
  assert (Hcalls :
    map google_part_of
      (map (fun tc => Google.functionCall_part (AiResponse.toolCallId tc)
                        (AiResponse.toolName tc) (AiResponse.input tc))
           (AiResponse.toolCalls r))
    = map (fun tc => AiResponse.ToolCallPart (AiResponse.toolCallId tc)
                       (AiResponse.toolName tc) (AiResponse.input tc))
          (AiResponse.toolCalls r)).
  { rewrite map_map. apply map_ext_in. intros tc Hin. cbn [google_part_of].
    now rewrite (args_or_empty_value _ (Hnn tc Hin)). }
  rewrite map_default_if_nil, map_app, Hcalls.
  unfold carried_parts, response_parts. rewrite truthy_eqb.
  destruct (String.eqb (AiResponse.text r) ""); cbn [negb app map google_part_of].
  - destruct (AiResponse.toolCalls r) as [|tc tcs]; cbn;
      (split; [discriminate | reflexivity]).
  - cbn. split; [discriminate | reflexivity].
Qed.

Lemma google_one_shot_round_trip_witness :
  let r :=
    AiResponse.mkResponse ""
      [AiResponse.mkToolCall "call_1" "search" (JObject [("query", JString "test")])]
      "tool-calls" (mkUsage None None None) "resp-1" "gemini-pro" 0 in
  exists candidate,
    Google.candidates (GoogleFromAi.googleGenaiFromAiSDK r None) = [candidate]
    /\ Google.parts (Google.content candidate) <> []
    /\ GoogleToAi.convertModelContent
         (Some (map GoogleToAi.as_part (Google.parts (Google.content candidate))))
       = [AiResponse.AssistantMessage (carried_parts r)].
Proof.
  apply (google_one_shot_round_trip
           (AiResponse.mkResponse ""
              [AiResponse.mkToolCall "call_1" "search"
                 (JObject [("query", JString "test")])]
              "tool-calls" (mkUsage None None None) "resp-1" "gemini-pro" 0) None).
  intros tc [<-|[]]. discriminate.
Defined.

(** ** Adapter A: the accumulated input of a streamed tool call *)

Section AccumulatedInput.
Variable JSON_stringify : json -> string.

Local Abbreviation stepA := (Anthropic.anthropicChunkFromAiSDK JSON_stringify).
Local Abbreviation runA := (Anthropic.run JSON_stringify).

Lemma inputs_agree_step id c held ctx :
  is_tool_call_for id c = false ->
  inputs_agree id held ctx ->
  inputs_agree id (held_for JSON_stringify id [c] held) (snd (stepA c ctx)).
Proof.
  intros Hc [Hin Hidx].
  destruct c; cbn [held_for is_tool_call_for] in *;
    try (rewrite Hc);
    step_cases; try (split; assumption);
    repeat match goal with
           | H : String.eqb _ _ = true |- _ => apply String.eqb_eq in H; subst
           | H : String.eqb _ _ = false |- _ => apply String.eqb_neq in H
           end;
    unfold inputs_agree;
    cbn [Anthropic.toolCallInputs Anthropic.toolCallIndices
         Anthropic.set_toolCallInputs Anthropic.set_toolCallIndices
         Anthropic.set_messageStarted Anthropic.set_contentBlockIndex];
    rewrite ?lookup_insert_eq;
    rewrite ?lookup_insert_ne by assumption;
    try (split; [reflexivity | split; discriminate]);
    try (split; assumption).
  - (* a delta for the id, its index known *)
    destruct held as [[toolName text]|]; cbn in *.
    + rewrite Hin. cbn. split; [reflexivity | split; [congruence | discriminate]].
    + destruct Hidx as [_ Hidx]. specialize (Hidx eq_refl). congruence.
  - (* a delta for the id, its index unknown *)
    match goal with H : Anthropic.toolCallIndices _ !! _ = None |- _ =>
      apply Hidx in H; subst held end.
    cbn. split; [assumption | tauto].
Qed.

Lemma inputs_agree_run id chunks : forall held ctx,
  no_tool_call_for id chunks = true ->
  inputs_agree id held ctx ->
  inputs_agree id (held_for JSON_stringify id chunks held) (snd (runA chunks ctx)).
Proof.
  induction chunks as [|c rest IH]; intros held ctx Hn Hagree; [exact Hagree|].
  cbn [no_tool_call_for forallb] in Hn. apply andb_prop in Hn as [Hc Hn].
  apply negb_true_iff in Hc.
  rewrite A_run_cons, held_for_cons.
  apply IH; [exact Hn|]. now apply inputs_agree_step.
Qed.

End AccumulatedInput.

(** X16. Adapter A's toolCallInputs records, for a tool call that is streamed
    (no complete tool-call chunk carries its id), the empty string set at its
    latest tool-input-start followed by the fragments of the tool-input-delta
    chunks accepted since; for an id with one tool-input-start and no fragment
    before it, that is the exact concatenation of all fragments sent for the
    id. *)
Theorem anthropic_inputs_accumulate
    (JSON_stringify : json -> string) (idm model : string)
    (chunks : list AiSDKChunk) (id : string) :
  no_tool_call_for id chunks = true ->
  let ctx :=
    snd (Anthropic.run JSON_stringify chunks
           (Anthropic.createChunkConversionContext idm model)) in
  Anthropic.toolCallInputs ctx !! id = snd <$> held_for JSON_stringify id chunks None
  /\ (forall toolName pre post,
        chunks = pre ++ ToolInputStart id toolName :: post ->
        no_delta_for id pre = true ->
        never_introduced id post = true ->
        Anthropic.toolCallInputs ctx !! id = Some (deltas_for id chunks)).
Proof.
  intros Hn ctx.
  assert (Hagree : inputs_agree id (held_for JSON_stringify id chunks None) ctx).
  { apply inputs_agree_run; [exact Hn|]. split; [apply lookup_empty|].
    split; [reflexivity | intros _; apply lookup_empty]. }
  destruct Hagree as [Hin _]. split; [exact Hin|].
  intros toolName pre post Hchunks Hpre Hpost. rewrite Hin, Hchunks.
  rewrite held_for_app. cbn [held_for]. rewrite String.eqb_refl.
  rewrite (held_for_deltas JSON_stringify id post toolName "" Hpost).
  rewrite deltas_for_app, (deltas_for_none id pre Hpre). reflexivity.
Qed.

Lemma anthropic_inputs_accumulate_witness :
  let chunks :=
    [Start; ToolInputStart "call_1" "get_weather"; ToolInputDelta "call_1" "[37.77,";
     ToolInputDelta "call_2" "x"; ToolInputDelta "call_1" " -122.4]";
     ToolInputEnd "call_1"] in
  Anthropic.toolCallInputs
    (snd (Anthropic.run JSONRef.JSON_stringify chunks
            (Anthropic.createChunkConversionContext "msg_1" "claude"))) !! "call_1"
  = Some (deltas_for "call_1" chunks).
Proof.
  destruct (anthropic_inputs_accumulate JSONRef.JSON_stringify "msg_1" "claude"
              [Start; ToolInputStart "call_1" "get_weather";
               ToolInputDelta "call_1" "[37.77,";
               ToolInputDelta "call_2" "x"; ToolInputDelta "call_1" " -122.4]";
               ToolInputEnd "call_1"] "call_1" eq_refl) as [_ Honce].
  apply (Honce "get_weather" [Start]
           [ToolInputDelta "call_1" "[37.77,"; ToolInputDelta "call_2" "x";
            ToolInputDelta "call_1" " -122.4]"; ToolInputEnd "call_1"]);
    reflexivity.
Defined.

(** ** A response delivered through adapter B and in one shot *)

Section OpenAIStream.
Variable JSON_stringify : json -> string.

Local Abbreviation stepB := (OpenAI.openaiChunkFromAiSDK JSON_stringify).
Local Abbreviation runB := (OpenAI.run JSON_stringify).

Lemma B_run_app_fst a b ctx :
  fst (runB (a ++ b) ctx) = fst (runB a ctx) ++ fst (runB b (snd (runB a ctx))).
Proof.
  revert ctx. induction a as [|c a IH]; intros ctx; [reflexivity|].
  cbn [app OpenAI.run]. destruct (stepB c ctx) as [r ctx1].
  specialize (IH ctx1).
  destruct (runB (a ++ b) ctx1), (runB a ctx1). cbn [fst snd] in *.
  now rewrite IH.
Qed.

Lemma createChunk_envelope c1 c2 delta fr usage :
  same_envelope c1 c2 ->
  OpenAI.createChunk c1 delta fr usage = OpenAI.createChunk c2 delta fr usage.
Proof. intros (Hid & Hm & Hc). unfold OpenAI.createChunk. now rewrite Hid, Hm, Hc. Qed.

Lemma B_run_text fragments ctx :
  runB (text_chunks fragments) ctx
  = (map (fun f => OpenAI.chunk
                     (OpenAI.createChunk ctx (OpenAI.mkDelta None (Some f) None) None None))
         fragments,
     ctx).
Proof.
  induction fragments as [|f rest IH]; [reflexivity|].
  unfold text_chunks in *. cbn [map OpenAI.run OpenAI.openaiChunkFromAiSDK].
  now rewrite IH.
Qed.

(** Whole tool calls with new, distinct ids take the next indices in order. *)
Lemma B_run_tool_calls toolCalls : forall seen ctx ctx0,
  numbered seen ctx ->
  same_envelope ctx ctx0 ->
  NoDup (map AiResponse.toolCallId toolCalls) ->
  (forall tc, In tc toolCalls -> index_of (AiResponse.toolCallId tc) seen = None) ->
  fst (runB (tool_call_chunks toolCalls) ctx)
  = imap (fun k tc =>
            OpenAI.chunk
              (OpenAI.createChunk ctx0
                 (OpenAI.mkDelta None None
                    (Some [OpenAI.mkToolCall (length seen + k)
                             (Some (AiResponse.toolCallId tc)) (Some "function")
                             (Some (AiResponse.toolName tc))
                             (JSON_stringify (AiResponse.input tc))]))
                 None None))
         toolCalls
  /\ same_envelope (snd (runB (tool_call_chunks toolCalls) ctx)) ctx0.
Proof.
  induction toolCalls as [|tc rest IH]; intros seen ctx ctx0 Hn Henv Hnd Hnew.
  - split; [reflexivity | exact Henv].
  - unfold tool_call_chunks in *. cbn [map] in *.
    apply NoDup_cons in Hnd as [Hnotin Hnd].
    pose proof (Hnew tc (or_introl eq_refl)) as Hfresh.
    pose proof (numbered_step JSON_stringify
                  (ToolCall (AiResponse.toolCallId tc) (AiResponse.toolName tc)
                     (AiResponse.input tc)) seen ctx Hn) as Hn'.
    cbn [first_appearance_from introduced_id] in Hn'. rewrite Hfresh in Hn'.
    cbn [OpenAI.run]. cbn [OpenAI.openaiChunkFromAiSDK] in *.
    unfold OpenAI.getOrAssignIndex in *.
    destruct Hn as [Hnext Hmap]. rewrite Hmap, Hfresh in *. cbn [snd] in Hn'.
    set (ctx1 := OpenAI.set_toolCallIndices _ _) in *.
    assert (Henv1 : same_envelope ctx1 ctx0) by exact Henv.
    destruct (IH (seen ++ [AiResponse.toolCallId tc]) ctx1 ctx0 Hn' Henv1 Hnd) as [Hres Hfin].
    { intros tc' Hin. rewrite index_of_app_new by assumption.
      destruct (String.eqb (AiResponse.toolCallId tc) (AiResponse.toolCallId tc')) eqn:E.
      - apply String.eqb_eq in E. exfalso. apply Hnotin. rewrite E.
        apply list_elem_of_In. now apply in_map.
      - apply Hnew. now right. }
    destruct (runB (map _ rest) ctx1) as [rs ctx2]. cbn [fst snd] in *.
    split; [|exact Hfin].
    rewrite imap_cons. f_equal.
    + rewrite Nat.add_0_r, Hnext.
      f_equal. apply createChunk_envelope. exact Henv1.
    + rewrite Hres. apply imap_ext. intros k tc' _. cbn.
      rewrite length_app. cbn [length]. do 6 f_equal. lia.
Qed.

End OpenAIStream.

(** X17. Streaming and one-shot conversion to the OpenAI format agree.  Feed
    adapter B, on a fresh context, text-start, the text of a response cut into
    any fragments as text-deltas, its tool calls (distinct ids) as complete
    tool-call chunks, then finish: the results are one chunk with the role and
    empty content, one chunk per fragment with that fragment as content, one
    chunk per tool call whose single entry has as index the position of the
    call and the id, name and arguments openaiChatCompletionFromAiSDK gives
    that call, and a last chunk whose finish reason and usage are those of the
    one-shot completion. *)
Theorem openai_stream_agrees_with_one_shot
    (JSON_stringify : json -> string) (r : AiResponse.AiSDKResponse)
    (fragments : list string) (id model : string) (created : option Z) (now : Z) :
  NoDup (map AiResponse.toolCallId (AiResponse.toolCalls r)) ->
  let fresh := OpenAI.createChunkConversionContext id model created now in
  let one_shot := OpenAIFromAi.openaiChatCompletionFromAiSDK JSON_stringify r None in
  let piece delta := OpenAI.chunk (OpenAI.createChunk fresh delta None None) in
  fst (OpenAI.run JSON_stringify
         ([TextStart "text-1"] ++ text_chunks fragments
          ++ tool_call_chunks (AiResponse.toolCalls r)
          ++ [Finish (AiResponse.finishReason r) (AiResponse.usage r)]) fresh)
  = [piece (OpenAI.mkDelta (Some "assistant") (Some "") None)]
    ++ map (fun f => piece (OpenAI.mkDelta None (Some f) None)) fragments
    ++ imap (fun k call =>
               piece (OpenAI.mkDelta None None (option_map (fun e => [e]) (entry_of k call))))
            (OpenAIFromAi.convertToolCalls JSON_stringify (AiResponse.toolCalls r))
    ++ [OpenAI.chunk
          (OpenAI.createChunk fresh OpenAI.empty_delta
             (option_map OpenAIFromAi.finish_reason (head (OpenAIFromAi.choices one_shot)))
             (Some (OpenAIFromAi.completion_usage one_shot)))].
Proof.
  intros Hnd fresh one_shot piece.
  rewrite !B_run_app_fst. cbn [OpenAI.run OpenAI.openaiChunkFromAiSDK fst snd].
  rewrite B_run_text. cbn [fst snd].
  destruct (B_run_tool_calls JSON_stringify (AiResponse.toolCalls r) [] fresh fresh)
    as [Hres Henv].
  { apply numbered_fresh. }
  { repeat split. }
  { exact Hnd. }
  { intros tc _. reflexivity. }
  rewrite Hres. cbn [app]. f_equal. f_equal.
  unfold OpenAIFromAi.convertToolCalls. rewrite imap_fmap.
  f_equal.
  cbn [head OpenAIFromAi.choices one_shot OpenAIFromAi.openaiChatCompletionFromAiSDK
       option_map OpenAIFromAi.finish_reason OpenAIFromAi.completion_usage].
  rewrite B_tables_agree.
  f_equal. f_equal. apply createChunk_envelope. exact Henv.
Qed.

Lemma openai_stream_agrees_with_one_shot_witness :
  let r :=
    AiResponse.mkResponse "Hi there"
      [AiResponse.mkToolCall "call_1" "search" (JObject [("query", JString "test")]);
       AiResponse.mkToolCall "call_2" "now" (JObject [])]
      "tool-calls" (mkUsage (Some 10%Z) (Some 5%Z) None) "chatcmpl-1" "gpt-4"
      1700000000999 in
  map reported_index
    (fst (OpenAI.run JSONRef.JSON_stringify
            ([TextStart "text-1"] ++ text_chunks ["Hi"; " there"]
             ++ tool_call_chunks (AiResponse.toolCalls r)
             ++ [Finish (AiResponse.finishReason r) (AiResponse.usage r)])
            (OpenAI.createChunkConversionContext "chatcmpl-1" "gpt-4" None 1700000000999)))
  = [None; None; None; Some 0; Some 1; None].
Proof.
  intros r.
  assert (Hnd : NoDup (map AiResponse.toolCallId (AiResponse.toolCalls r))).
  { cbn. apply NoDup_cons. split.
    - intros H%list_elem_of_singleton. discriminate.
    - apply NoDup_singleton. }
  pose proof (openai_stream_agrees_with_one_shot JSONRef.JSON_stringify r
                ["Hi"; " there"] "chatcmpl-1" "gpt-4" None 1700000000999 Hnd) as H.
  cbv zeta in H. rewrite H. reflexivity.
Defined.

(** ** A response delivered through adapter A and in one shot *)

Section AnthropicStream.
Variable JSON_stringify : json -> string.

Local Abbreviation stepA := (Anthropic.anthropicChunkFromAiSDK JSON_stringify).
Local Abbreviation runA := (Anthropic.run JSON_stringify).
Local Abbreviation emitted := (Anthropic.emitted JSON_stringify).

Lemma A_emitted_app a b ctx :
  emitted (a ++ b) ctx = emitted a ctx ++ emitted b (snd (runA a ctx)).
Proof.
  revert ctx. induction a as [|c a IH]; intros ctx; [reflexivity|].
  cbn [app]. rewrite !(emitted_cons JSON_stringify), (A_run_cons JSON_stringify), IH.
  now rewrite app_assoc.
Qed.

Lemma A_run_text fragments ctx :
  runA (text_chunks fragments) ctx
  = (map (fun f => Anthropic.events
                     [Anthropic.content_block_delta (Anthropic.contentBlockIndex ctx)
                        (Anthropic.text_delta f)])
         fragments,
     ctx).
Proof.
  induction fragments as [|f rest IH]; [reflexivity|].
  unfold text_chunks in *. cbn [map Anthropic.run Anthropic.anthropicChunkFromAiSDK].
  now rewrite IH.
Qed.

Lemma A_emitted_text fragments ctx :
  emitted (text_chunks fragments) ctx
  = map (fun f => Anthropic.content_block_delta (Anthropic.contentBlockIndex ctx)
                    (Anthropic.text_delta f))
        fragments.
Proof.
  unfold Anthropic.emitted. rewrite A_run_text. cbn [fst].
  induction fragments as [|f rest IH]; [reflexivity|].
  cbn [map concat Anthropic.result_events app]. now rewrite IH.
Qed.

(** Whole tool calls, once the envelope is open, take the next block indices
    in order and leave the usage counters alone. *)
Lemma A_run_tool_calls toolCalls : forall ctx,
  Anthropic.messageStarted ctx = true ->
  emitted (tool_call_chunks toolCalls) ctx
  = concat (imap (fun k tc =>
                    [Anthropic.content_block_start (Anthropic.contentBlockIndex ctx + k)
                       (Anthropic.tool_use_block (AiResponse.toolCallId tc)
                          (AiResponse.toolName tc) empty_object);
                     Anthropic.content_block_delta (Anthropic.contentBlockIndex ctx + k)
                       (Anthropic.input_json_delta (JSON_stringify (AiResponse.input tc)));
                     Anthropic.content_block_stop (Anthropic.contentBlockIndex ctx + k)])
                 toolCalls)
  /\ Anthropic.messageStarted (snd (runA (tool_call_chunks toolCalls) ctx)) = true
  /\ Anthropic.inputTokens (snd (runA (tool_call_chunks toolCalls) ctx))
     = Anthropic.inputTokens ctx
  /\ Anthropic.outputTokens (snd (runA (tool_call_chunks toolCalls) ctx))
     = Anthropic.outputTokens ctx.
Proof.
  induction toolCalls as [|tc rest IH]; intros ctx Hstarted.
  - repeat split. exact Hstarted.
  - unfold tool_call_chunks in *. cbn [map].
    rewrite (emitted_cons JSON_stringify), (A_run_cons JSON_stringify).
    cbn [Anthropic.anthropicChunkFromAiSDK]. unfold Anthropic.ensureMessageStart.
    rewrite Hstarted. cbn [negb fst snd Anthropic.result_events app].
    set (ctx1 := Anthropic.set_contentBlockIndex _ _).
    destruct (IH ctx1 Hstarted) as (Hev & Hst & Hin & Hout).
    rewrite Hev, Hst, Hin, Hout. repeat split.
    rewrite imap_cons. cbn [concat app]. rewrite Nat.add_0_r.
    do 3 f_equal. f_equal. apply imap_ext. intros k tc' _.
    cbn [ctx1 Anthropic.set_contentBlockIndex Anthropic.contentBlockIndex
         Anthropic.set_toolCallIndices compose].
    replace (S (Anthropic.contentBlockIndex ctx) + k)
      with (Anthropic.contentBlockIndex ctx + S k) by lia.
    reflexivity.
Qed.

End AnthropicStream.

(** X18. Streaming and one-shot conversion to the Anthropic format agree.  Feed
    adapter A, on a fresh context made with the id and model of a response,
    text-start, text-deltas for any fragments, text-end, the response's tool
    calls as complete tool-call chunks, then finish.  The events are exactly:
    message_start, whose message has the id, role and model of the one-shot
    message; the text block 0 with one text_delta per fragment; for the k-th
    tool call the block k+1, opened as tool_use with the call's id and name and
    an empty input, one input_json_delta with JSON.stringify of the input, and
    its stop; then message_delta with the one-shot message's stop reason and
    token counts, and message_stop. *)
Theorem anthropic_stream_agrees_with_one_shot
    (JSON_stringify : json -> string) (r : AiResponse.AiSDKResponse)
    (fragments : list string) :
  let fresh :=
    Anthropic.createChunkConversionContext (AiResponse.response_id r)
      (AiResponse.response_modelId r) in
  let one_shot := AnthropicFromAi.anthropicMessagesFromAiSDK r None in
  Anthropic.emitted JSON_stringify
    ([TextStart "text-1"] ++ text_chunks fragments ++ [TextEnd "text-1"]
     ++ tool_call_chunks (AiResponse.toolCalls r)
     ++ [Finish (AiResponse.finishReason r) (AiResponse.usage r)]) fresh
  = [Anthropic.message_start
       (Anthropic.mkMessage (Anthropic.msg_id one_shot) (Anthropic.msg_role one_shot)
          (Anthropic.msg_model one_shot) [] None None 0 0);
     Anthropic.content_block_start 0 (Anthropic.text_block "")]
    ++ map (fun f => Anthropic.content_block_delta 0 (Anthropic.text_delta f)) fragments
    ++ [Anthropic.content_block_stop 0]
    ++ concat
         (imap (fun k tc =>
                  [Anthropic.content_block_start (S k)
                     (Anthropic.tool_use_block (AiResponse.toolCallId tc)
                        (AiResponse.toolName tc) empty_object);
                   Anthropic.content_block_delta (S k)
                     (Anthropic.input_json_delta (JSON_stringify (AiResponse.input tc)));
                   Anthropic.content_block_stop (S k)])
               (AiResponse.toolCalls r))
    ++ [Anthropic.message_delta
          (default "" (Anthropic.msg_stop_reason one_shot)) None
          (Anthropic.mkDeltaUsage (Anthropic.msg_output_tokens one_shot)
             (Anthropic.msg_input_tokens one_shot));
        Anthropic.message_stop].
Proof.
  intros fresh one_shot.
  change ([TextStart "text-1"] ++ ?l) with (TextStart "text-1" :: l).
  rewrite (emitted_cons JSON_stringify).
  cbn [Anthropic.anthropicChunkFromAiSDK]. unfold Anthropic.ensureMessageStart.
  cbn [fresh Anthropic.createChunkConversionContext Anthropic.messageStarted negb
       app length Nat.ltb Nat.leb fst snd Anthropic.result_events
       Anthropic.set_messageStarted Anthropic.contentBlockIndex
       Anthropic.createContentBlockStartEvent].
  set (ctx1 := Anthropic.set_messageStarted true fresh).
  rewrite A_emitted_app, A_emitted_text, A_run_text. cbn [snd].
  rewrite (emitted_cons JSON_stringify).
  cbn [Anthropic.anthropicChunkFromAiSDK fst snd Anthropic.result_events].
  set (ctx2 := Anthropic.set_contentBlockIndex _ ctx1).
  rewrite A_emitted_app.
  destruct (A_run_tool_calls JSON_stringify (AiResponse.toolCalls r) ctx2 eq_refl)
    as (Hev & Hst & Hin & Hout).
  rewrite Hev.
  rewrite (emitted_cons JSON_stringify _ []).
  cbn [Anthropic.anthropicChunkFromAiSDK]. unfold Anthropic.ensureMessageStart.
  rewrite Hst. cbn [negb fst snd Anthropic.result_events app].
  rewrite Hin, Hout.
  unfold Anthropic.emitted at 1. cbn [Anthropic.run fst map concat].
  rewrite ?app_nil_r.
  cbn [one_shot AnthropicFromAi.anthropicMessagesFromAiSDK Anthropic.msg_id
       Anthropic.msg_role Anthropic.msg_model Anthropic.msg_stop_reason
       Anthropic.msg_output_tokens Anthropic.msg_input_tokens default
       AnthropicFromAi.convertUsage fst snd nullish].
  rewrite A_tables_agree.
  reflexivity.
Qed.

(** ** One identity per stream *)

Section Identity.
Variable JSON_parse : string -> option json.
Variable JSON_stringify : json -> string.

Local Abbreviation stepA := (Anthropic.anthropicChunkFromAiSDK JSON_stringify).
Local Abbreviation stepB := (OpenAI.openaiChunkFromAiSDK JSON_stringify).
Local Abbreviation stepC := (Google.googleChunkFromAiSDK JSON_parse JSON_stringify).

(** The message of a [message_start] is built from the context of the call. *)
Lemma A_step_identity c a m :
  In (Anthropic.message_start m) (Anthropic.result_events (fst (stepA c a))) ->
  Anthropic.msg_id m = Anthropic.ctx_id a
  /\ Anthropic.msg_model m = Anthropic.ctx_model a.
Proof.
  destruct c; step_cases; cbn [In app Anthropic.result_events];
    intros Hin; repeat (destruct Hin as [Hin|Hin]; try discriminate Hin);
    try contradiction; injection Hin as <-; split; reflexivity.
Qed.

Lemma A_run_identity chunks : forall a,
  (Anthropic.ctx_id (snd (Anthropic.run JSON_stringify chunks a)) = Anthropic.ctx_id a
   /\ Anthropic.ctx_model (snd (Anthropic.run JSON_stringify chunks a))
      = Anthropic.ctx_model a)
  /\ forall m,
       In (Anthropic.message_start m) (Anthropic.emitted JSON_stringify chunks a) ->
       Anthropic.msg_id m = Anthropic.ctx_id a
       /\ Anthropic.msg_model m = Anthropic.ctx_model a.
Proof.
  induction chunks as [|c rest IH]; intros a.
  - split; [split; reflexivity | intros m []].
  - rewrite (A_run_cons JSON_stringify), (emitted_cons JSON_stringify).
    destruct (A_frame JSON_stringify c a) as [Hid Hmodel].
    destruct (IH (snd (stepA c a))) as [[Hid' Hmodel'] Hev].
    rewrite Hid, Hmodel in *. split; [split; assumption|].
    intros m [H|H]%in_app_or; [now apply (A_step_identity c) | now apply Hev].
Qed.

Lemma B_run_identity chunks : forall b,
  (OpenAI.ctx_id (snd (OpenAI.run JSON_stringify chunks b)) = OpenAI.ctx_id b
   /\ OpenAI.ctx_model (snd (OpenAI.run JSON_stringify chunks b)) = OpenAI.ctx_model b
   /\ OpenAI.created (snd (OpenAI.run JSON_stringify chunks b)) = OpenAI.created b)
  /\ forall ch,
       In (OpenAI.chunk ch) (fst (OpenAI.run JSON_stringify chunks b)) ->
       OpenAI.chunk_id ch = OpenAI.ctx_id b
       /\ OpenAI.chunk_model ch = OpenAI.ctx_model b
       /\ OpenAI.chunk_created ch = OpenAI.created b.
Proof.
  induction chunks as [|c rest IH]; intros b.
  - split; [repeat split | intros ch []].
  - cbn [OpenAI.run].
    destruct (B_frame JSON_stringify c b) as (Hid & Hmodel & Hcreated & Hch).
    destruct (stepB c b) as [r b1]. cbn [fst snd] in *.
    destruct (IH b1) as [(Hid' & Hmodel' & Hcreated') Hrest].
    destruct (OpenAI.run JSON_stringify rest b1) as [rs b2]. cbn [fst snd] in *.
    rewrite Hid, Hmodel, Hcreated in *. split; [repeat split; assumption|].
    intros ch [->|H]; [now apply Hch | now apply Hrest].
Qed.

Lemma C_run_identity chunks : forall g,
  (Google.responseId (snd (Google.run JSON_parse JSON_stringify chunks g))
   = Google.responseId g
   /\ Google.modelVersion (snd (Google.run JSON_parse JSON_stringify chunks g))
      = Google.modelVersion g)
  /\ forall r,
       In (Google.response r) (fst (Google.run JSON_parse JSON_stringify chunks g)) ->
       Google.resp_responseId r = Google.responseId g
       /\ Google.resp_modelVersion r = Google.modelVersion g.
Proof.
  induction chunks as [|c rest IH]; intros g.
  - split; [split; reflexivity | intros r []].
  - cbn [Google.run].
    destruct (C_frame JSON_parse JSON_stringify c g) as (Hid & Hmodel & Hr).
    destruct (stepC c g) as [r0 g1]. cbn [fst snd] in *.
    destruct (IH g1) as [[Hid' Hmodel'] Hrest].
    destruct (Google.run JSON_parse JSON_stringify rest g1) as [rs g2].
    cbn [fst snd] in *.
    rewrite Hid, Hmodel in *. split; [split; assumption|].
    intros r [->|H]; [now apply Hr | now apply Hrest].
Qed.

End Identity.

(** X19. One identity per stream.  Over any chunks on any context, every
    message_start adapter A emits carries the id and model of the context,
    every chunk adapter B emits carries its id, model and creation time, and
    every snapshot adapter C emits carries its response id and model version;
    and no call changes these fields, so all outputs of one stream agree on
    them, also after errors and for chunks in any order. *)
Theorem stream_identity_is_the_contexts
    (JSON_parse : string -> option json) (JSON_stringify : json -> string)
    (chunks : list AiSDKChunk) :
  (forall a,
     (Anthropic.ctx_id (snd (Anthropic.run JSON_stringify chunks a)) = Anthropic.ctx_id a
      /\ Anthropic.ctx_model (snd (Anthropic.run JSON_stringify chunks a))
         = Anthropic.ctx_model a)
     /\ forall m,
          In (Anthropic.message_start m) (Anthropic.emitted JSON_stringify chunks a) ->
          Anthropic.msg_id m = Anthropic.ctx_id a
          /\ Anthropic.msg_model m = Anthropic.ctx_model a)
  /\ (forall b,
        (OpenAI.ctx_id (snd (OpenAI.run JSON_stringify chunks b)) = OpenAI.ctx_id b
         /\ OpenAI.ctx_model (snd (OpenAI.run JSON_stringify chunks b))
            = OpenAI.ctx_model b
         /\ OpenAI.created (snd (OpenAI.run JSON_stringify chunks b)) = OpenAI.created b)
        /\ forall ch,
             In (OpenAI.chunk ch) (fst (OpenAI.run JSON_stringify chunks b)) ->
             OpenAI.chunk_id ch = OpenAI.ctx_id b
             /\ OpenAI.chunk_model ch = OpenAI.ctx_model b
             /\ OpenAI.chunk_created ch = OpenAI.created b)
  /\ (forall g,
        (Google.responseId (snd (Google.run JSON_parse JSON_stringify chunks g))
         = Google.responseId g
         /\ Google.modelVersion (snd (Google.run JSON_parse JSON_stringify chunks g))
            = Google.modelVersion g)
        /\ forall r,
             In (Google.response r)
                (fst (Google.run JSON_parse JSON_stringify chunks g)) ->
             Google.resp_responseId r = Google.responseId g
             /\ Google.resp_modelVersion r = Google.modelVersion g).
Proof.
  split; [|split].
  - apply A_run_identity.
  - apply B_run_identity.
  - apply C_run_identity.
Qed.

Lemma stream_identity_is_the_contexts_witness :
  let b := OpenAI.createChunkConversionContext "chatcmpl-1" "gpt" None 1700000000999 in
  let ch :=
    OpenAI.mkChunk "chatcmpl-1" "chat.completion.chunk" 1700000000 "gpt"
      [OpenAI.mkChoice 0 (OpenAI.mkDelta None (Some "Hi") None) None] None in
  OpenAI.chunk_created ch = OpenAI.created b.
Proof.
  intros b ch.
  destruct (stream_identity_is_the_contexts JSONRef.JSON_parse JSONRef.JSON_stringify
              [Error (EString "boom"); TextDelta "t1" "Hi"]) as (_ & Hb & _).
  destruct (Hb b) as [_ Hch]. apply Hch. right. left. reflexivity.
Defined.
